(** * Deep Zoom pyramid geometry and tile rendering of [makePosterMontage.py]

    A shallow embedding of the classes [DeepZoomImageDescriptor] and
    [ImageCreator] of [scripts/makePosterMontage.py] and of the montage
    loop of the script, and the properties of the pyramid geometry, of
    the configuration clamping and of the tile pipeline that the design
    document states about them.

    Conventions of the embedding.
    - Python integers are [Z].
    - A Python exception is a value of [exn]; a method that can raise
      returns [res A].
    - The floats of the geometry ([math.pow(0.5, n)], [width * scale],
      [float(w) / tile_size]) are rationals [Q] in exact arithmetic, and
      [math.ceil(math.log(d, 2))] is the exact ceiling of the binary
      logarithm, [Z.log2_up].  This is the arithmetic of the code as long
      as the doubles of the code are exact or close enough to the exact
      value that their rounding does not move the ceilings that the code
      takes: for sides below 2^29 in absolute value ([small_sides]) and
      a tile size below 2^53 in absolute value ([small_tiles]).  At
      [d = 2^29] the double quotient [log(d) / log(2)] is
      29.000000000000004 and the code counts one level more; from 2^53
      on [float(width)] rounds the side; a side or a tile size of 2^1024
      or more raises [OverflowError] in the code.  The statements about
      the values of the geometry carry the bounds as hypotheses; the
      module [binary64] evaluates the expressions of the code in doubles
      at the first sides beyond the bounds.
    - [image_quality] is a double that comes from the command line, a NaN
      or an infinity included; it is an IEEE 754 binary64 value,
      [spec_float] with precision 53 and maximal exponent 1024, with the
      arithmetic of [SpecFloat].
    - A PIL image is the term of the calls that produced it, so that the
      origin of every bitmap and tile can be read off.  Of the failures
      of PIL the embedding has four: [Image.new] with a negative side,
      [Image.resize] to a size with a side below 1, [Image.save] of a
      PNG file with a compression level that zlib does not have, and
      [Image.paste] of a file whose data does not decode or whose size
      is not that of the box.  The mode of a bitmap, the memory it
      takes and the file system are not part of the embedding. *)

From Stdlib Require Import ZArith QArith Qround Qpower Lia List String Bool.
From Stdlib Require Import SpecFloat.
Import ListNotations.

Local Open Scope string_scope.
Local Open Scope Z_scope.

(** ** Exceptions and results *)

Module Py.

(** The exceptions that the modelled code raises. *)
Inductive exn : Type :=
| AssertionError (msg : string)
| AttributeError (name : string)
| ValueError
| ZeroDivisionError
| OverflowError
| OSError.

Inductive res (A : Type) : Type :=
| Ok (a : A)
| Raise (e : exn).

Arguments Ok {A} a.
Arguments Raise {A} e.

Definition bind {A B : Type} (c : res A) (k : A -> res B) : res B :=
  match c with
  | Ok a => k a
  | Raise e => Raise e
  end.

(** [assert cond, msg] *)
Definition assert (cond : bool) (msg : string) : res unit :=
  if cond then Ok tt else Raise (AssertionError msg).

(** Reading an attribute that is set only by a later method call. *)
Definition getattr {A : Type} (field : option A) (name : string) : res A :=
  match field with
  | Some a => Ok a
  | None => Raise (AttributeError name)
  end.

Definition raises {A : Type} (c : res A) : Prop :=
  exists e, c = Raise e.

Definition returns {A : Type} (c : res A) : Prop :=
  exists a, c = Ok a.

(** [range(n)] *)
Definition range (n : Z) : list Z :=
  map Z.of_nat (seq 0 (Z.to_nat n)).

(** [for x in xs: body(x)], collecting what each iteration produces and
    stopping at the first exception. *)
Fixpoint for_each {A B : Type} (xs : list A) (body : A -> res B)
  : res (list B) :=
  match xs with
  | [] => Ok []
  | x :: xs' =>
      bind (body x) (fun y =>
      bind (for_each xs' body) (fun ys => Ok (y :: ys)))
  end.

(** A [dict] with string keys, in insertion order. *)
Definition dict (V : Type) : Type := list (string * V).

(** [key in d] *)
Definition contains {V : Type} (d : dict V) (key : string) : bool :=
  existsb (fun kv => String.eqb (fst kv) key) d.

(** [d[key]] for a key that is in [d]; [default] stands for the
    [KeyError] that the callers rule out by testing [key in d] first. *)
Fixpoint item {V : Type} (d : dict V) (key : string) (default : V) : V :=
  match d with
  | [] => default
  | (k, v) :: d' => if String.eqb k key then v else item d' key default
  end.

(** The operators [<] and [>] of the values that [_clamp] is applied to. *)
Class Ord (A : Type) : Type := {
  lt : A -> A -> bool;
  gt : A -> A -> bool
}.

End Py.

Import Py.

Declare Scope py_scope.
Delimit Scope py_scope with py.
Notation "x <- c ;; k" := (bind c (fun x => k))
  (at level 61, c at next level, right associativity) : py_scope.
Notation "' pat <- c ;; k" := (bind c (fun x => match x with pat => k end))
  (at level 61, pat pattern, c at next level, right associativity) : py_scope.
Notation "c ;;; k" := (bind c (fun _ => k))
  (at level 61, right associativity) : py_scope.
Local Open Scope py_scope.

#[global] Instance Ord_int : Ord Z := {| lt := Z.ltb; gt := Z.gtb |}.

(** ** The [math] module, in exact arithmetic *)

Module math.

(** [int(math.ceil(x))] *)
Definition ceil (x : Q) : Z := Qceiling x.

(** [math.pow(0.5, n)] *)
Definition pow_half (n : Z) : Q := Qpower (1 # 2) n.

(** [int(math.ceil(math.log(x, 2)))] for an integer [x]: [math.log]
    raises [ValueError] (math domain error) for [x <= 0]. *)
Definition ceil_log2 (x : Z) : res Z :=
  if x <=? 0 then Raise ValueError else Ok (Z.log2_up x).

(** [float(a) / b] for integers [a] and [b] *)
Definition truediv (a b : Z) : res Q :=
  if b =? 0 then Raise ZeroDivisionError
  else Ok (inject_Z a / inject_Z b)%Q.

End math.

(** ** Python floats: IEEE 754 binary64 *)

Module float64.

Definition prec : Z := 53.
Definition emax : Z := 1024.

(** The doubles are the values of [spec_float] in canonical form. *)
Definition is_double (x : spec_float) : Prop :=
  valid_binary prec emax x = true.

(** [float(z)] for an integer [z] below the overflow threshold. *)
Definition of_int (z : Z) : spec_float :=
  binary_normalize prec emax z 0 false.

(** The double [m * 2^e], for an integer [m] of at most 53 bits. *)
Definition dyadic (m e : Z) : spec_float :=
  binary_normalize prec emax m e false.

Definition mul : spec_float -> spec_float -> spec_float := SFmul prec emax.
Definition sub : spec_float -> spec_float -> spec_float := SFsub prec emax.

Definition le (x y : spec_float) : bool := SFleb x y.

(** The integer part of [m * 2^e]. *)
Definition floor_scaled (m : positive) (e : Z) : Z := Z.shiftl (Zpos m) e.

(** [m * 2^e] rounded to the nearest integer, a tie going to the even
    one. *)
Definition round_half_even (m : positive) (e : Z) : Z :=
  if 0 <=? e then Zpos m * 2 ^ e
  else
    let d := 2 ^ (- e) in
    let q := Zpos m / d in
    let r := Zpos m mod d in
    match 2 * r ?= d with
    | Lt => q
    | Gt => q + 1
    | Eq => if Z.even q then q else q + 1
    end.

(** [int(x)]: truncation toward zero; [ValueError] for a NaN and
    [OverflowError] for an infinity. *)
Definition int (x : spec_float) : res Z :=
  match x with
  | S754_zero _ => Ok 0
  | S754_finite s m e => Ok (cond_Zopp s (floor_scaled m e))
  | S754_nan => Raise ValueError
  | S754_infinity _ => Raise OverflowError
  end.

(** [round(x)] with one argument: the nearest integer, ties to even;
    the same exceptions as [int]. *)
Definition round (x : spec_float) : res Z :=
  match x with
  | S754_zero _ => Ok 0
  | S754_finite s m e => Ok (cond_Zopp s (round_half_even m e))
  | S754_nan => Raise ValueError
  | S754_infinity _ => Raise OverflowError
  end.

(** [x / y] for two doubles, [y] other than zero. *)
Definition div : spec_float -> spec_float -> spec_float := SFdiv prec emax.

(** [float(z)] for an integer [z]: the nearest double, a tie going to
    the even one, and [OverflowError] when that is beyond the largest
    double. *)
Definition float (z : Z) : res spec_float :=
  match of_int z with
  | S754_infinity _ => Raise OverflowError
  | x => Ok x
  end.

(** [math.ceil(x)]: the least integer that is not below [x]; the same
    exceptions as [int]. *)
Definition ceil (x : spec_float) : res Z :=
  match x with
  | S754_zero _ => Ok 0
  | S754_finite true m e => Ok (- Z.shiftl (Zpos m) e)
  | S754_finite false m e => Ok (- Z.shiftl (Zneg m) e)
  | S754_nan => Raise ValueError
  | S754_infinity _ => Raise OverflowError
  end.

End float64.

#[global] Instance Ord_float : Ord spec_float :=
  {| lt := SFltb; gt := fun x y => SFltb y x |}.

(** ** Constants of the module and of PIL *)

Module PIL.

(** The resampling filters, [Image.NEAREST] and the others. *)
Inductive filter : Type := NEAREST | LANCZOS | BILINEAR | BICUBIC.

Definition ANTIALIAS : filter := LANCZOS.
Definition CUBIC : filter := BICUBIC.

(** A bitmap, by the calls that produced it: one that the caller decoded,
    or the result of [Image.resize] or of [Image.crop]. *)
Inductive Image : Type :=
| bitmap (id : nat) (size : Z * Z)
| resize (im : Image) (size : Z * Z) (resample : filter)
| crop (im : Image) (box : Z * Z * Z * Z).

(** [im.size] *)
Definition size (im : Image) : Z * Z :=
  match im with
  | bitmap _ s => s
  | resize _ s _ => s
  | crop _ (x1, y1, x2, y2) => (x2 - x1, y2 - y1)
  end.

(** [im.resize(size, resample)]: PIL refuses a size with a side below 1
    with [ValueError]. *)
Definition Image_resize (im : Image) (size : Z * Z) (resample : filter)
  : res Image :=
  if (fst size <? 1) || (snd size <? 1) then Raise ValueError
  else Ok (resize im size resample).

(** The keyword arguments of [Image.save]. *)
Inductive save_options : Type :=
| JPEG (quality : Z)
| default_format (compress_level : Z).

(** The options that the encoder takes: zlib, which compresses the PNG
    files, has the levels -1 to 9. *)
Definition accepted (options : save_options) : bool :=
  match options with
  | JPEG _ => true
  | default_format compress_level =>
      (-1 <=? compress_level) && (compress_level <=? 9)
  end.

(** [im.save(file, ...)] for a JPEG or a PNG file: [OSError] from the
    encoder for options that it does not take. *)
Definition Image_save (im : Image) (options : save_options) : res unit :=
  if accepted options then Ok tt else Raise OSError.

End PIL.

Definition DEFAULT_IMAGE_FORMAT : string := "png".

Definition RESIZE_FILTERS : dict PIL.filter :=
  [ ("cubic", PIL.CUBIC);
    ("bilinear", PIL.BILINEAR);
    ("bicubic", PIL.BICUBIC);
    ("nearest", PIL.NEAREST);
    ("antialias", PIL.ANTIALIAS) ].

Definition IMAGE_FORMATS : dict string :=
  [ ("jpg", "jpg"); ("png", "png") ].

Definition invalid_level : string := "Invalid pyramid level".

(** ** [class DeepZoomImageDescriptor] *)

Module DeepZoomImageDescriptor.

Record t : Type := {
  width : Z;
  height : Z;
  tile_size : Z;
  tile_overlap : Z;
  tile_format : string
}.

Section Methods.

Variable self : t.

(** The property [num_levels].  The source caches the value in
    [_num_levels] at the first read; [width] and [height] are never
    assigned after [__init__], so every read gives the value of this
    expression. *)
Definition num_levels : res Z :=
  let max_dimension := Z.max (width self) (height self) in
  c <- math.ceil_log2 max_dimension ;;
  Ok (c + 1).

(** [assert 0 <= level and level < self.num_levels, "Invalid pyramid
    level"]: the right operand of [and], and with it [num_levels], is
    evaluated only when the left one holds. *)
Definition check_level (level : Z) : res unit :=
  cond <- (if 0 <=? level
           then n <- num_levels ;; Ok (level <? n)
           else Ok false) ;;
  assert cond invalid_level.

Definition get_scale (level : Z) : res Q :=
  check_level level ;;;
  n <- num_levels ;;
  let max_level := n - 1 in
  Ok (math.pow_half (max_level - level)).

Definition get_dimensions (level : Z) : res (Z * Z) :=
  check_level level ;;;
  scale <- get_scale level ;;
  let width := math.ceil (inject_Z (width self) * scale) in
  let height := math.ceil (inject_Z (height self) * scale) in
  Ok (width, height).

Definition get_num_tiles (level : Z) : res (Z * Z) :=
  check_level level ;;;
  '(w, h) <- get_dimensions level ;;
  columns <- math.truediv w (tile_size self) ;;
  rows <- math.truediv h (tile_size self) ;;
  Ok (math.ceil columns, math.ceil rows).

Definition get_tile_bounds (level column row : Z) : res (Z * Z * Z * Z) :=
  check_level level ;;;
  let offset_x := if column =? 0 then 0 else tile_overlap self in
  let offset_y := if row =? 0 then 0 else tile_overlap self in
  let x := column * tile_size self - offset_x in
  let y := row * tile_size self - offset_y in
  '(level_width, level_height) <- get_dimensions level ;;
  let w :=
    tile_size self + (if column =? 0 then 1 else 2) * tile_overlap self in
  let h :=
    tile_size self + (if row =? 0 then 1 else 2) * tile_overlap self in
  let w := Z.min w (level_width - x) in
  let h := Z.min h (level_height - y) in
  Ok (x, y, x + w, y + h).

End Methods.

End DeepZoomImageDescriptor.

(** ** [_clamp] *)

Definition _clamp {A : Type} `{Ord A} (val min max : A) : A :=
  if lt val min then min
  else if gt val max then max
  else val.

(** ** [class ImageCreator] *)

Module ImageCreator.

Record t : Type := {
  tile_size : Z;
  tile_format : string;
  tile_overlap : Z;
  image_quality : spec_float;
  resize_filter : option string;
  copy_metadata : bool;
  (* set by [create] *)
  image : option PIL.Image;
  descriptor : option DeepZoomImageDescriptor.t
}.

(** [__init__].  [tile_size] and [tile_overlap] are integers, on which
    [int] is the identity; the bounds [0] and [1.0] of the quality are
    compared as doubles. *)
Definition __init__ (tile_size tile_overlap : Z) (tile_format : string)
    (image_quality : spec_float) (resize_filter : option string)
    (copy_metadata : bool) : t :=
  {| tile_size := tile_size;
     tile_format :=
       if negb (contains IMAGE_FORMATS tile_format)
       then DEFAULT_IMAGE_FORMAT else tile_format;
     tile_overlap := _clamp tile_overlap 0 10;
     image_quality :=
       _clamp image_quality (float64.of_int 0) (float64.of_int 1);
     resize_filter := resize_filter;
     copy_metadata := copy_metadata;
     image := None;
     descriptor := None |}.

(** One tile file written by [create]: its place in the tree under the
    destination, the cropped bitmap and the options given to
    [Image.save]. *)
Record tile_file : Type := {
  file_level : Z;
  file_column : Z;
  file_row : Z;
  file_format : string;
  file_tile : PIL.Image;
  file_options : PIL.save_options
}.

Section Methods.

Variable self : t.

Definition get_image (level : Z) : res PIL.Image :=
  cond <- (if 0 <=? level
           then descriptor <- getattr (descriptor self) "descriptor" ;;
                n <- DeepZoomImageDescriptor.num_levels descriptor ;;
                Ok (level <? n)
           else Ok false) ;;
  assert cond invalid_level ;;;
  descriptor <- getattr (descriptor self) "descriptor" ;;
  '(width, height) <- DeepZoomImageDescriptor.get_dimensions descriptor level ;;
  image <- getattr (image self) "image" ;;
  if (DeepZoomImageDescriptor.width descriptor =? width)
     && (DeepZoomImageDescriptor.height descriptor =? height)
  then Ok image
  else
    match resize_filter self with
    | None => PIL.Image_resize image (width, height) PIL.ANTIALIAS
    | Some name =>
        if negb (contains RESIZE_FILTERS name)
        then PIL.Image_resize image (width, height) PIL.ANTIALIAS
        else PIL.Image_resize image (width, height)
               (item RESIZE_FILTERS name PIL.ANTIALIAS)
    end.

(** The generator [tiles]: the pairs in the order in which it yields
    them. *)
Definition tiles (level : Z) : res (list (Z * Z)) :=
  descriptor <- getattr (descriptor self) "descriptor" ;;
  '(columns, rows) <- DeepZoomImageDescriptor.get_num_tiles descriptor level ;;
  Ok (flat_map (fun column => map (fun row => (column, row)) (range rows))
        (range columns)).

(** The options of [tile.save] in the body of the inner loop of
    [create]. *)
Definition save_options (format : string) : res PIL.save_options :=
  if String.eqb format "jpg" then
    jpeg_quality <-
      float64.int (float64.mul (image_quality self) (float64.of_int 100)) ;;
    Ok (PIL.JPEG jpeg_quality)
  else
    png_compress <-
      float64.round
        (float64.mul (float64.sub (float64.of_int 1) (image_quality self))
           (float64.of_int 10)) ;;
    Ok (PIL.default_format png_compress).

(** The body of the inner loop of [create]. *)
Definition write_tile (level_image : PIL.Image) (level : Z)
    (tile : Z * Z) : res tile_file :=
  let '(column, row) := tile in
  descriptor <- getattr (descriptor self) "descriptor" ;;
  bounds <-
    DeepZoomImageDescriptor.get_tile_bounds descriptor level column row ;;
  let tile := PIL.crop level_image bounds in
  let format := DeepZoomImageDescriptor.tile_format descriptor in
  options <- save_options format ;;
  PIL.Image_save tile options ;;;
  Ok {| file_level := level; file_column := column; file_row := row;
        file_format := format; file_tile := tile;
        file_options := options |}.

(** The body of the outer loop of [create]: the level's bitmap and the
    files of its tiles. *)
Definition write_level (level : Z) : res (PIL.Image * list tile_file) :=
  level_image <- get_image level ;;
  coordinates <- tiles level ;;
  files <- for_each coordinates (write_tile level_image level) ;;
  Ok (level_image, files).

End Methods.

(** [create]: the creator with [image] and [descriptor] set, what the
    loop over the levels wrote, and the descriptor saved at the end.
    The directories and the file names follow from the destination and
    from the fields of [tile_file]. *)
Definition create (self : t) (source : PIL.Image) (destination : string)
  : res (t * list (PIL.Image * list tile_file) * DeepZoomImageDescriptor.t) :=
  let '(width, height) := PIL.size source in
  let descriptor :=
    {| DeepZoomImageDescriptor.width := width;
       DeepZoomImageDescriptor.height := height;
       DeepZoomImageDescriptor.tile_size := tile_size self;
       DeepZoomImageDescriptor.tile_overlap := tile_overlap self;
       DeepZoomImageDescriptor.tile_format := tile_format self |} in
  let self :=
    {| tile_size := tile_size self;
       tile_format := tile_format self;
       tile_overlap := tile_overlap self;
       image_quality := image_quality self;
       resize_filter := resize_filter self;
       copy_metadata := copy_metadata self;
       image := Some source;
       descriptor := Some descriptor |} in
  n <- DeepZoomImageDescriptor.num_levels descriptor ;;
  levels <- for_each (range n) (write_level self) ;;
  Ok (self, levels, descriptor).

End ImageCreator.

(** ** Auxiliary notions of the statements *)

(** Ceiling of the quotient of two integers. *)
Definition cdiv (a b : Z) : Z := - ((- a) / b).

(** The factor by which [level] is smaller than the image, in a pyramid
    of [n] levels. *)
Definition shrink (n level : Z) : Z := 2 ^ (n - 1 - level).

(** [c] is the ceiling of the binary logarithm of [x]: the least
    exponent [c >= 0] with [x <= 2^c]. *)
Definition is_ceil_log2 (x c : Z) : Prop :=
  0 <= c /\ x <= 2 ^ c /\ forall k, 0 <= k -> x <= 2 ^ k -> c <= k.

(** [(level, column, row)] is a tile coordinate of the pyramid. *)
Definition valid_tile (self : DeepZoomImageDescriptor.t)
    (level column row : Z) : Prop :=
  exists n columns rows,
    DeepZoomImageDescriptor.num_levels self = Ok n /\
    0 <= level < n /\
    DeepZoomImageDescriptor.get_num_tiles self level = Ok (columns, rows) /\
    0 <= column < columns /\ 0 <= row < rows.

(** The box of the tile is not empty and lies in the bitmap of its
    level. *)
Definition bounds_within_level (self : DeepZoomImageDescriptor.t)
    (level column row : Z) : Prop :=
  exists x1 y1 x2 y2 level_width level_height,
    DeepZoomImageDescriptor.get_tile_bounds self level column row
      = Ok (x1, y1, x2, y2) /\
    DeepZoomImageDescriptor.get_dimensions self level
      = Ok (level_width, level_height) /\
    0 <= x1 < x2 /\ x2 <= level_width /\
    0 <= y1 < y2 /\ y2 <= level_height.

(** The sides for which the exact arithmetic of the embedding is the
    arithmetic of the code: below 2^29 in absolute value, where the
    double quotient of [math.log] has the ceiling of the logarithm and
    the products [side * scale] are exact. *)
Definition small_sides (self : DeepZoomImageDescriptor.t) : Prop :=
  Z.abs (DeepZoomImageDescriptor.width self) < 2 ^ 29 /\
  Z.abs (DeepZoomImageDescriptor.height self) < 2 ^ 29.

(** The tile sizes that [float] takes without rounding, below 2^53 in
    absolute value: for them the double quotient [float(w) / tile_size]
    of a side below 2^53 has the ceiling of the exact quotient. *)
Definition small_tiles (self : DeepZoomImageDescriptor.t) : Prop :=
  Z.abs (DeepZoomImageDescriptor.tile_size self) < 2 ^ 53.

(** The descriptors of the scenarios of the design document. *)
Definition square_254 : DeepZoomImageDescriptor.t :=
  {| DeepZoomImageDescriptor.width := 254;
     DeepZoomImageDescriptor.height := 254;
     DeepZoomImageDescriptor.tile_size := 254;
     DeepZoomImageDescriptor.tile_overlap := 1;
     DeepZoomImageDescriptor.tile_format := "png" |}.

Definition xga_1024_768 : DeepZoomImageDescriptor.t :=
  {| DeepZoomImageDescriptor.width := 1024;
     DeepZoomImageDescriptor.height := 768;
     DeepZoomImageDescriptor.tile_size := 254;
     DeepZoomImageDescriptor.tile_overlap := 1;
     DeepZoomImageDescriptor.tile_format := "png" |}.

(** A descriptor whose overlap is wider than its tiles. *)
Definition wide_overlap : DeepZoomImageDescriptor.t :=
  {| DeepZoomImageDescriptor.width := 16;
     DeepZoomImageDescriptor.height := 16;
     DeepZoomImageDescriptor.tile_size := 4;
     DeepZoomImageDescriptor.tile_overlap := 10;
     DeepZoomImageDescriptor.tile_format := "png" |}.

(** A descriptor of an image without columns. *)
Definition no_columns : DeepZoomImageDescriptor.t :=
  {| DeepZoomImageDescriptor.width := 0;
     DeepZoomImageDescriptor.height := 10;
     DeepZoomImageDescriptor.tile_size := 254;
     DeepZoomImageDescriptor.tile_overlap := 1;
     DeepZoomImageDescriptor.tile_format := "png" |}.

(** [level_image] is the bitmap of [level] that comes straight from
    [source]: [source] itself when the level has the dimensions of the
    descriptor, and otherwise [source] resized to the dimensions of the
    level. *)
Definition straight_from_source (source : PIL.Image)
    (descriptor : DeepZoomImageDescriptor.t) (level : Z)
    (level_image : PIL.Image) : Prop :=
  exists width height,
    DeepZoomImageDescriptor.get_dimensions descriptor level
      = Ok (width, height) /\
    (width = DeepZoomImageDescriptor.width descriptor /\
     height = DeepZoomImageDescriptor.height descriptor ->
     level_image = source) /\
    (~ (width = DeepZoomImageDescriptor.width descriptor /\
        height = DeepZoomImageDescriptor.height descriptor) ->
     exists resample,
       level_image = PIL.resize source (width, height) resample).

(** The creator of the main program, for a tile format and a quality. *)
Definition script_creator (format : string) (quality : spec_float)
  : ImageCreator.t :=
  ImageCreator.__init__ 254 1 format quality (Some "antialias") false.

(** The default quality, the double nearest to 0.8. *)
Definition default_quality : spec_float :=
  float64.dyadic 7205759403792794 (-53).

(** A decoded bitmap of 5 x 3 pixels. *)
Definition small_bitmap : PIL.Image := PIL.bitmap 0 (5, 3).

(** A decoded bitmap of 600 x 400 pixels, and a creator in the state that
    [create] puts it in for this bitmap. *)
Definition poster_bitmap : PIL.Image := PIL.bitmap 1 (600, 400).

Definition poster_descriptor : DeepZoomImageDescriptor.t :=
  {| DeepZoomImageDescriptor.width := 600;
     DeepZoomImageDescriptor.height := 400;
     DeepZoomImageDescriptor.tile_size := 254;
     DeepZoomImageDescriptor.tile_overlap := 1;
     DeepZoomImageDescriptor.tile_format := "png" |}.

Definition poster_creator : ImageCreator.t :=
  {| ImageCreator.tile_size := 254;
     ImageCreator.tile_format := "png";
     ImageCreator.tile_overlap := 1;
     ImageCreator.image_quality := default_quality;
     ImageCreator.resize_filter := Some "antialias";
     ImageCreator.copy_metadata := false;
     ImageCreator.image := Some poster_bitmap;
     ImageCreator.descriptor := Some poster_descriptor |}.

(** A bitmap without columns. *)
Definition empty_bitmap : PIL.Image := PIL.bitmap 3 (0, 5).

(** ** The expressions of the descriptor in binary64

    [num_levels] and the finest level of [get_dimensions] as the code
    evaluates them, in doubles.  The logarithm is a function of the C
    library: [num_levels] takes the two doubles that [math.log] gets
    from it. *)

Module binary64.

(** [int(math.ceil(math.log(max_dimension, 2))) + 1], where
    [math.log(x, 2)] is the quotient of the doubles [log(x)] and
    [log(2)]. *)
Definition num_levels (log_max_dimension log_2 : spec_float) : res Z :=
  c <- float64.ceil (float64.div log_max_dimension log_2) ;;
  Ok (c + 1).

(** [math.pow(0.5, n)] for [n >= 0]. *)
Definition pow_half (n : Z) : spec_float := float64.dyadic 1 (- n).

(** [int(math.ceil(side * scale))] for an integer [side]. *)
Definition scaled (side : Z) (scale : spec_float) : res Z :=
  x <- float64.float side ;;
  float64.ceil (float64.mul x scale).

(** [get_dimensions(num_levels - 1)]: the scale of the finest level is
    [math.pow(0.5, 0)]. *)
Definition finest_dimensions (self : DeepZoomImageDescriptor.t)
  : res (Z * Z) :=
  let scale := pow_half 0 in
  width <- scaled (DeepZoomImageDescriptor.width self) scale ;;
  height <- scaled (DeepZoomImageDescriptor.height self) scale ;;
  Ok (width, height).

(** The doubles [math.log(2)] and [math.log(2**29)] of CPython:
    0x1.62e42fefa39efp-1 and 0x1.419ecb712c481p+4, the doubles nearest
    to the two logarithms. *)
Definition log_2 : spec_float := float64.dyadic 6243314768165359 (-53).

Definition log_2_29 : spec_float :=
  float64.dyadic 5658004008649857 (-48).

End binary64.

(** The first sides at which the doubles of the code leave the exact
    arithmetic: a width of 2^29, and a width of 2^53 + 1. *)
Definition side_2_29 : DeepZoomImageDescriptor.t :=
  {| DeepZoomImageDescriptor.width := 2 ^ 29;
     DeepZoomImageDescriptor.height := 1;
     DeepZoomImageDescriptor.tile_size := 254;
     DeepZoomImageDescriptor.tile_overlap := 1;
     DeepZoomImageDescriptor.tile_format := "png" |}.

Definition side_2_53_1 : DeepZoomImageDescriptor.t :=
  {| DeepZoomImageDescriptor.width := 2 ^ 53 + 1;
     DeepZoomImageDescriptor.height := 1;
     DeepZoomImageDescriptor.tile_size := 254;
     DeepZoomImageDescriptor.tile_overlap := 1;
     DeepZoomImageDescriptor.tile_format := "png" |}.

(** The descriptor of the 254 x 254 image with a tile size of 0. *)
Definition zero_tiles : DeepZoomImageDescriptor.t :=
  {| DeepZoomImageDescriptor.width := 254;
     DeepZoomImageDescriptor.height := 254;
     DeepZoomImageDescriptor.tile_size := 0;
     DeepZoomImageDescriptor.tile_overlap := 1;
     DeepZoomImageDescriptor.tile_format := "png" |}.

(** ** The script: the montage of the posters

    The body of the script from the canvas to the end of the double loop
    over the cells of the grid.  The arguments [griddim] and [imdim] are
    pairs of integers.  [files] is the sorted list of the files of the
    input folder, each by what [Image.open] does on it: [Some p] when it
    returns the poster [p], [None] when it raises one of the exceptions
    that the loop catches.  [Image.open] reads the header of the file
    only: a poster has the bitmap that the header announces, and its
    data decodes or not when PIL loads it.  The canvas is the size and
    the colour it was created with and the calls of [paste] on it, in
    order. *)

Module montage.

Record args : Type := {
  griddim : Z * Z;
  imdim : Z * Z
}.

(** The end of a run: it completes, it reads a name that is not bound,
    or it raises an exception of [exn]. *)
Inductive outcome (A : Type) : Type :=
| Completed (a : A)
| NameError (name : string)
| Failed (e : exn).

Arguments Completed {A} a.
Arguments NameError {A} name.
Arguments Failed {A} e.

(** What [Image.open] returns. *)
Record poster : Type := {
  poster_image : PIL.Image;
  poster_loads : bool
}.

Record canvas : Type := {
  canvas_size : Z * Z;
  canvas_color : Z;
  pasted : list (PIL.Image * (Z * Z * Z * Z))
}.

(** [Image.new(mode, size, color)]: PIL refuses a negative width or
    height with [ValueError]. *)
Definition Image_new (size : Z * Z) (color : Z) : outcome canvas :=
  if (fst size <? 0) || (snd size <? 0) then Failed ValueError
  else Completed
         {| canvas_size := size; canvas_color := color; pasted := [] |}.

(** [self.paste(im, box)] with a box of four coordinates: PIL loads the
    data of [im] first, with [OSError] when it does not decode, and then
    refuses an image whose size is not the size of the box with
    [ValueError]. *)
Definition paste (self : canvas) (im : poster) (box : Z * Z * Z * Z)
  : outcome canvas :=
  let '(x1, y1, x2, y2) := box in
  if negb (poster_loads im) then Failed OSError
  else if (fst (PIL.size (poster_image im)) =? x2 - x1)
          && (snd (PIL.size (poster_image im)) =? y2 - y1)
  then Completed
         {| canvas_size := canvas_size self;
            canvas_color := canvas_color self;
            pasted := (pasted self ++ [(poster_image im, box)])%list |}
  else Failed ValueError.

(** [for x in xs: body], on a state, stopping at the first exception. *)
Fixpoint for_in {A S : Type} (xs : list A) (body : A -> S -> outcome S)
    (s : S) : outcome S :=
  match xs with
  | [] => Completed s
  | x :: xs' =>
      match body x s with
      | Completed s' => for_in xs' body s'
      | NameError name => NameError name
      | Failed e => Failed e
      end
  end.

Definition padding : Z := 10.

Definition bgEmptyGrid : Z := 10.

Definition imGridWidth (a : args) : Z :=
  let '(gridWidth, _) := griddim a in
  let '(imWidth, _) := imdim a in
  imWidth * gridWidth + padding * (gridWidth - 1).

Definition imGridHeight (a : args) : Z :=
  let '(_, gridHeight) := griddim a in
  let '(_, imHeight) := imdim a in
  imHeight * gridHeight + padding * (gridHeight - 1).

(** The box of the cell in row [iRow] and column [iCol]. *)
Definition bbox (a : args) (iRow iCol : Z) : Z * Z * Z * Z :=
  let '(imWidth, imHeight) := imdim a in
  let gridPosW := iCol * (imWidth + padding) in
  let gridPosE := gridPosW + imWidth in
  let gridPosN := iRow * (imHeight + padding) in
  let gridPosS := gridPosN + imHeight in
  (gridPosW, gridPosN, gridPosE, gridPosS).

(** The variables that the loop assigns: the counter of the files, the
    poster opened last ([None] while the name is not bound) and the
    canvas. *)
Record state : Type := {
  iiIm : Z;
  locIm : option poster;
  imGrid : canvas
}.

(** The body of the inner loop.  A file that does not open leaves
    [locIm] as it was, and [paste] is called all the same. *)
Definition cell (a : args) (files : list (option poster))
    (iRow iCol : Z) (s : state) : outcome state :=
  let after_if :=
    if iiIm s <? Z.of_nat (List.length files) then
      let locIm' :=
        match nth_error files (Z.to_nat (iiIm s)) with
        | Some (Some im) => Some im
        | _ => locIm s
        end in
      match locIm' with
      | None => NameError "locIm"
      | Some im =>
          match paste (imGrid s) im (bbox a iRow iCol) with
          | Completed c =>
              Completed {| iiIm := iiIm s; locIm := locIm'; imGrid := c |}
          | NameError name => NameError name
          | Failed e => Failed e
          end
      end
    else Completed s in
  match after_if with
  | Completed s' =>
      Completed {| iiIm := iiIm s' + 1;
                   locIm := locIm s';
                   imGrid := imGrid s' |}
  | NameError name => NameError name
  | Failed e => Failed e
  end.

(** The canvas and the double loop, rows outside and columns inside. *)
Definition run (a : args) (files : list (option poster))
  : outcome state :=
  let '(gridWidth, gridHeight) := griddim a in
  let gridCol := range gridWidth in
  let gridRow := range gridHeight in
  match Image_new (imGridWidth a, imGridHeight a) bgEmptyGrid with
  | Completed imGrid =>
      for_in gridRow
        (fun iRow => for_in gridCol (fun iCol => cell a files iRow iCol))
        {| iiIm := 0; locIm := None; imGrid := imGrid |}
  | NameError name => NameError name
  | Failed e => Failed e
  end.

(** The poster that [locIm] holds after the files of [files]: the last
    one that opened. *)
Definition last_opened (files : list (option poster))
  : option poster :=
  fold_left (fun prev f => match f with Some im => Some im | None => prev end)
    files None.

(** The calls of [paste] for the first [k] files, in a grid of
    [gridWidth] columns. *)
Definition pastes (a : args) (files : list (option poster)) (k : nat)
  : list (PIL.Image * (Z * Z * Z * Z)) :=
  flat_map
    (fun i =>
       match last_opened (firstn (S i) files) with
       | Some im =>
           [(poster_image im,
             bbox a (Z.of_nat i / fst (griddim a))
               (Z.of_nat i mod fst (griddim a)))]
       | None => []
       end)
    (seq 0 k).

(** The state of the loop after [k] cells. *)
Definition state_after (a : args) (files : list (option poster))
    (k : nat) : state :=
  let j := Nat.min k (List.length files) in
  {| iiIm := Z.of_nat k;
     locIm := last_opened (firstn j files);
     imGrid := {| canvas_size := (imGridWidth a, imGridHeight a);
                  canvas_color := bgEmptyGrid;
                  pasted := pastes a files j |} |}.

(** Three posters of 4 x 3 pixels, the second of which does not open, in
    a grid of 2 x 2 cells. *)
Definition small_grid : args := {| griddim := (2, 2); imdim := (4, 3) |}.

Definition three_files : list (option poster) :=
  [Some {| poster_image := PIL.bitmap 0 (4, 3); poster_loads := true |};
   None;
   Some {| poster_image := PIL.bitmap 2 (4, 3); poster_loads := true |}].

(** What the loop asks of the files for which it completes: every file
    that opens has data that decodes and the size [imdim]. *)
Definition fits (a : args) (f : option poster) : Prop :=
  forall p, f = Some p ->
    poster_loads p = true /\ PIL.size (poster_image p) = imdim a.

End montage.

(** * Properties *)

(** ** Arithmetic of the ceilings *)

Lemma cdiv_pos_bounds (a b : Z) :
  0 < b -> b * (cdiv a b - 1) < a <= b * cdiv a b.
Proof.
  intros Hb. unfold cdiv.
  pose proof (Z.div_mod (- a) b ltac:(lia)) as E.
  pose proof (Z.mod_pos_bound (- a) b Hb) as B.
  nia.
Qed.

Lemma cdiv_pos_ge1 (a b : Z) : 0 < b -> 1 <= a -> 1 <= cdiv a b.
Proof.
  intros Hb Ha. pose proof (cdiv_pos_bounds a b Hb). nia.
Qed.

Lemma cdiv_1_r (a : Z) : cdiv a 1 = a.
Proof. unfold cdiv. rewrite Z.div_1_r. lia. Qed.

Lemma cdiv_lt_mul (a b c : Z) : 0 < b -> c < cdiv a b -> c * b < a.
Proof.
  intros Hb Hc. pose proof (cdiv_pos_bounds a b Hb). nia.
Qed.

Lemma cdiv_nonpos (a b : Z) : 0 <= a -> b < 0 -> cdiv a b <= 0.
Proof.
  intros Ha Hb. unfold cdiv.
  pose proof (Z.div_mod (- a) b ltac:(lia)) as E.
  pose proof (Z.mod_neg_bound (- a) b Hb) as B.
  nia.
Qed.

Lemma Qceiling_inject_div (a b : Z) :
  b <> 0 -> Qceiling (inject_Z a / inject_Z b) = cdiv a b.
Proof.
  intros Hb. unfold Qceiling, cdiv. f_equal.
  rewrite Zdiv_Qdiv. apply Qfloor_comp.
  rewrite inject_Z_opp. field.
  intros H. apply Hb. unfold Qeq in H. simpl in H. lia.
Qed.

Lemma pow_half_inv (k : Z) :
  0 <= k -> (math.pow_half k == / inject_Z (2 ^ k))%Q.
Proof.
  intros Hk. unfold math.pow_half.
  change (1 # 2)%Q with (/ inject_Z 2)%Q.
  rewrite Qinv_power. apply Qinv_comp.
  destruct k as [|p|p]; [reflexivity| |lia].
  unfold Qpower, inject_Z. rewrite Qpower_decomp_positive.
  unfold Qeq. simpl Qnum. simpl Qden.
  rewrite Pos2Z.inj_pow, Z.pow_1_l by lia. reflexivity.
Qed.

Lemma ceil_scaled (a k : Z) :
  0 <= k -> math.ceil (inject_Z a * math.pow_half k) = cdiv a (2 ^ k).
Proof.
  intros Hk. unfold math.ceil.
  rewrite <- Qceiling_inject_div by (apply Z.pow_nonzero; lia).
  apply Qceiling_comp. rewrite pow_half_inv by assumption. reflexivity.
Qed.

Lemma shrink_pos (n level : Z) : level < n -> 0 < shrink n level.
Proof. intros H. unfold shrink. apply Z.pow_pos_nonneg; lia. Qed.

(** ** What the methods of the descriptor compute *)

Section DescriptorFacts.

Import DeepZoomImageDescriptor.

Variable self : DeepZoomImageDescriptor.t.

Lemma num_levels_eq :
  num_levels self =
  if Z.max (width self) (height self) <=? 0 then Raise ValueError
  else Ok (Z.log2_up (Z.max (width self) (height self)) + 1).
Proof.
  unfold num_levels, math.ceil_log2.
  destruct (Z.max (width self) (height self) <=? 0); reflexivity.
Qed.

Lemma num_levels_Ok (n : Z) :
  num_levels self = Ok n ->
  1 <= Z.max (width self) (height self) /\
  n = Z.log2_up (Z.max (width self) (height self)) + 1 /\ 1 <= n.
Proof.
  rewrite num_levels_eq.
  destruct (Z.leb_spec (Z.max (width self) (height self)) 0) as [H|H];
    [discriminate|].
  intros E. injection E as <-.
  pose proof (Z.log2_up_nonneg (Z.max (width self) (height self))).
  lia.
Qed.

Lemma check_level_ok (n level : Z) :
  num_levels self = Ok n -> 0 <= level < n ->
  check_level self level = Ok tt.
Proof.
  intros Hn [H0 H1]. unfold check_level.
  apply Z.leb_le in H0. apply Z.ltb_lt in H1.
  rewrite H0, Hn. simpl. rewrite H1. reflexivity.
Qed.

Lemma check_level_bad (n level : Z) :
  num_levels self = Ok n -> ~ (0 <= level < n) ->
  check_level self level = Raise (AssertionError invalid_level).
Proof.
  intros Hn Hbad. unfold check_level.
  destruct (Z.leb_spec 0 level) as [H0|H0]; [|reflexivity].
  rewrite Hn. simpl.
  destruct (Z.ltb_spec level n) as [H1|H1]; [lia|reflexivity].
Qed.

Lemma check_level_negative (level : Z) :
  level < 0 ->
  check_level self level = Raise (AssertionError invalid_level).
Proof.
  intros H. unfold check_level.
  destruct (Z.leb_spec 0 level); [lia|reflexivity].
Qed.

Lemma get_scale_ok (n level : Z) :
  num_levels self = Ok n -> 0 <= level < n ->
  get_scale self level = Ok (math.pow_half (n - 1 - level)).
Proof.
  intros Hn Hl. unfold get_scale.
  rewrite (check_level_ok n level Hn Hl), Hn. reflexivity.
Qed.

Lemma get_dimensions_ok (n level : Z) :
  num_levels self = Ok n -> 0 <= level < n ->
  get_dimensions self level =
  Ok (cdiv (width self) (shrink n level), cdiv (height self) (shrink n level)).
Proof.
  intros Hn Hl. unfold get_dimensions.
  rewrite (check_level_ok n level Hn Hl), (get_scale_ok n level Hn Hl).
  simpl. rewrite !ceil_scaled by lia. reflexivity.
Qed.

Lemma get_num_tiles_ok (n level : Z) :
  num_levels self = Ok n -> 0 <= level < n -> tile_size self <> 0 ->
  get_num_tiles self level =
  Ok (cdiv (cdiv (width self) (shrink n level)) (tile_size self),
      cdiv (cdiv (height self) (shrink n level)) (tile_size self)).
Proof.
  intros Hn Hl Hts. unfold get_num_tiles.
  rewrite (check_level_ok n level Hn Hl), (get_dimensions_ok n level Hn Hl).
  simpl. unfold math.truediv.
  destruct (Z.eqb_spec (tile_size self) 0) as [E|_]; [contradiction|].
  simpl. unfold math.ceil. rewrite !Qceiling_inject_div by assumption.
  reflexivity.
Qed.

Lemma get_num_tiles_zero_tile (n level : Z) :
  num_levels self = Ok n -> 0 <= level < n -> tile_size self = 0 ->
  get_num_tiles self level = Raise ZeroDivisionError.
Proof.
  intros Hn Hl Hts. unfold get_num_tiles.
  rewrite (check_level_ok n level Hn Hl), (get_dimensions_ok n level Hn Hl).
  simpl. unfold math.truediv. rewrite Hts. reflexivity.
Qed.

End DescriptorFacts.

(** ** The geometry of the pyramid *)

Section Geometry.

Import DeepZoomImageDescriptor.

(** C1, as the document states it, fails on a descriptor whose overlap
    is wider than its tiles: tile (1, 0) of the finest level of a 16 x 16
    image with tiles of 4 pixels and an overlap of 10 starts at x = -6. *)
Lemma tile_bounds_negative_start :
  1 <= width wide_overlap /\ 1 <= height wide_overlap /\
  valid_tile wide_overlap 4 1 0 /\
  get_tile_bounds wide_overlap 4 1 0 = Ok (-6, 0, 16, 14) /\
  ~ bounds_within_level wide_overlap 4 1 0.
Proof.
  split; [vm_compute; discriminate|].
  split; [vm_compute; discriminate|].
  split.
  - exists 5, 4, 4. vm_compute. repeat split; discriminate.
  - split; [vm_compute; reflexivity|].
    intros (x1 & y1 & x2 & y2 & lw & lh & Hb & _ & Hx & _).
    vm_compute in Hb. injection Hb as <- <- <- <-. lia.
Qed.

(** C1 (amended): for every descriptor with [width >= 1], [height >= 1]
    and [0 <= tile_overlap <= tile_size], with sides below 2^29 and a
    tile size below 2^53, every level of the pyramid and every column
    and row of the grid of that level, the box [(x1, y1, x2, y2)] of
    [get_tile_bounds] satisfies [0 <= x1 < x2 <= level_width] and
    [0 <= y1 < y2 <= level_height], where [(level_width, level_height)]
    is [get_dimensions level]. *)
Theorem tile_bounds_within_level (self : t) (level column row : Z) :
  1 <= width self -> 1 <= height self ->
  0 <= tile_overlap self <= tile_size self ->
  small_sides self -> small_tiles self ->
  valid_tile self level column row ->
  bounds_within_level self level column row.
Proof.
  intros Hw Hh Hov _ _ (n & columns & rows & Hn & Hl & Ht & Hc & Hr).
  assert (Hts : tile_size self <> 0).
  { intros E. rewrite (get_num_tiles_zero_tile self n level Hn Hl E) in Ht.
    discriminate. }
  rewrite (get_num_tiles_ok self n level Hn Hl Hts) in Ht.
  injection Ht as <- <-.
  pose proof (shrink_pos n level ltac:(lia)) as Hs.
  pose proof (cdiv_pos_ge1 (width self) _ Hs Hw) as Hlw.
  pose proof (cdiv_pos_ge1 (height self) _ Hs Hh) as Hlh.
  set (lw := cdiv (width self) (shrink n level)) in *.
  set (lh := cdiv (height self) (shrink n level)) in *.
  assert (Hcw : column * tile_size self < lw)
    by (apply cdiv_lt_mul; lia).
  assert (Hrh : row * tile_size self < lh)
    by (apply cdiv_lt_mul; lia).
  unfold bounds_within_level, get_tile_bounds.
  rewrite (check_level_ok self n level Hn Hl).
  rewrite (get_dimensions_ok self n level Hn Hl). fold lw lh. simpl.
  do 6 eexists. split; [reflexivity|]. split; [reflexivity|].
  destruct (Z.eqb_spec column 0) as [-> | Hc0];
    destruct (Z.eqb_spec row 0) as [-> | Hr0]; nia.
Qed.

Lemma tile_bounds_within_level_witness :
  bounds_within_level xga_1024_768 10 4 3.
Proof.
  apply tile_bounds_within_level.
  - vm_compute; discriminate.
  - vm_compute; discriminate.
  - vm_compute. split; discriminate.
  - split; vm_compute; reflexivity.
  - vm_compute; reflexivity.
  - exists 11, 5, 4. vm_compute. repeat split; discriminate.
Defined.

(** C2: for every coordinate of a level of the pyramid, in particular
    for every valid tile coordinate, [get_tile_bounds] returns the box
    that starts at [column * tile_size - offset_x], with [offset_x = 0]
    for column 0 and [tile_overlap] otherwise, and that is
    [tile_size + tile_overlap] wide for column 0 and
    [tile_size + 2 * tile_overlap] wide otherwise, cut so that it ends
    inside the level; the same for the rows.  For the 1024 x 768 image
    with tiles of 254 and overlap 1 the finest level is level 10, its
    grid is 5 x 4, tile (1, 0) starts at (253, 0) and tile (0, 0) at
    (0, 0). *)
Theorem tile_bounds_formula :
  (forall (self : t) (n level column row level_width level_height : Z),
      num_levels self = Ok n -> 0 <= level < n ->
      get_dimensions self level = Ok (level_width, level_height) ->
      exists x1 y1 x2 y2,
        get_tile_bounds self level column row = Ok (x1, y1, x2, y2) /\
        x1 = column * tile_size self
             - (if column =? 0 then 0 else tile_overlap self) /\
        y1 = row * tile_size self
             - (if row =? 0 then 0 else tile_overlap self) /\
        x2 - x1 = Z.min (tile_size self
                         + (if column =? 0 then 1 else 2) * tile_overlap self)
                        (level_width - x1) /\
        y2 - y1 = Z.min (tile_size self
                         + (if row =? 0 then 1 else 2) * tile_overlap self)
                        (level_height - y1) /\
        x2 <= level_width /\ y2 <= level_height) /\
  num_levels xga_1024_768 = Ok 11 /\
  get_dimensions xga_1024_768 10 = Ok (1024, 768) /\
  get_num_tiles xga_1024_768 10 = Ok (5, 4) /\
  get_tile_bounds xga_1024_768 10 0 0 = Ok (0, 0, 255, 255) /\
  get_tile_bounds xga_1024_768 10 1 0 = Ok (253, 0, 509, 255).
Proof.
  split; [|repeat split; vm_compute; reflexivity].
  intros self n level column row lw lh Hn Hl Hd.
  unfold get_tile_bounds.
  rewrite (check_level_ok self n level Hn Hl), Hd. simpl.
  do 4 eexists. split; [reflexivity|].
  repeat split; lia.
Qed.

Lemma tile_bounds_formula_witness :
  exists x1 y1 x2 y2,
    get_tile_bounds xga_1024_768 10 4 3 = Ok (x1, y1, x2, y2) /\
    x1 = 1015 /\ y1 = 761 /\ x2 - x1 = 9 /\ y2 - y1 = 7 /\
    x2 <= 1024 /\ y2 <= 768.
Proof.
  destruct tile_bounds_formula as [general _].
  destruct (general xga_1024_768 11 10 4 3 1024 768)
    as (x1 & y1 & x2 & y2 & Hb & Hx1 & Hy1 & Hx2 & Hy2 & Hx & Hy).
  - vm_compute; reflexivity.
  - lia.
  - vm_compute; reflexivity.
  - exists x1, y1, x2, y2. vm_compute in Hx1, Hy1. subst x1 y1.
    vm_compute in Hx2, Hy2. repeat split; assumption.
Defined.

(** C3, as the document states it, fails at the width 2^29: the
    ceiling of the binary logarithm of 2^29 is 29, which gives 30
    levels, and the quotient of the doubles [log(2^29)] and [log(2)]
    that the code takes the ceiling of is 29.000000000000004, which
    gives 31. *)
Lemma num_levels_beyond_2_29 :
  1 <= width side_2_29 /\ 1 <= height side_2_29 /\
  is_ceil_log2 (Z.max (width side_2_29) (height side_2_29)) 29 /\
  binary64.num_levels binary64.log_2_29 binary64.log_2 = Ok 31.
Proof.
  split; [vm_compute; discriminate|].
  split; [vm_compute; discriminate|].
  split; [|vm_compute; reflexivity].
  replace (Z.max (width side_2_29) (height side_2_29)) with (2 ^ 29)
    by (vm_compute; reflexivity).
  split; [lia|]. split; [lia|].
  intros k Hk Hle.
  destruct (Z_lt_le_dec k 29) as [Hlt|Hge]; [exfalso|exact Hge].
  assert (H28 : 2 ^ k <= 2 ^ 28) by (apply Z.pow_le_mono_r; lia).
  assert (H29 : 2 ^ 28 < 2 ^ 29) by (vm_compute; reflexivity).
  lia.
Qed.

(** C3 (amended): for every descriptor with [width >= 1] and
    [height >= 1] and sides below 2^29, [num_levels] is
    [ceil(log2(max(width, height))) + 1], the ceiling being the least
    exponent [c] with [max(width, height) <= 2^c], and it is at least
    1; for [width = height = 254] it is 9. *)
Theorem num_levels_ceil_log2 :
  (forall self : t,
      1 <= width self -> 1 <= height self -> small_sides self ->
      exists c,
        is_ceil_log2 (Z.max (width self) (height self)) c /\
        num_levels self = Ok (c + 1) /\ 1 <= c + 1) /\
  num_levels square_254 = Ok 9.
Proof.
  split; [|reflexivity].
  intros self Hw Hh _.
  set (d := Z.max (width self) (height self)).
  assert (Hd : 1 <= d) by (unfold d; lia).
  exists (Z.log2_up d).
  pose proof (Z.log2_up_nonneg d) as Hc.
  split; [|split; [|lia]].
  - split; [assumption|]. split.
    + apply Z.log2_up_le_pow2; lia.
    + intros k Hk Hdk. apply Z.log2_up_le_pow2; lia.
  - rewrite num_levels_eq. fold d.
    destruct (Z.leb_spec d 0); [lia|reflexivity].
Qed.

Lemma num_levels_ceil_log2_witness :
  exists c, is_ceil_log2 (Z.max 1024 768) c /\
            num_levels xga_1024_768 = Ok (c + 1) /\ 1 <= c + 1.
Proof.
  destruct num_levels_ceil_log2 as [general _].
  apply (general xga_1024_768);
    [vm_compute; discriminate|vm_compute; discriminate|].
  split; vm_compute; reflexivity.
Defined.

(** C4, as the document states it, fails at the width 2^53 + 1: the
    code multiplies [float(width)], which is the double 2^53, by the
    scale 1.0 of the finest level, and the finest level is 2^53 pixels
    wide. *)
Lemma finest_level_rounds_side :
  1 <= width side_2_53_1 /\ 1 <= height side_2_53_1 /\
  binary64.finest_dimensions side_2_53_1 = Ok (2 ^ 53, 1) /\
  (2 ^ 53, 1) <> (width side_2_53_1, height side_2_53_1).
Proof.
  split; [vm_compute; discriminate|].
  split; [vm_compute; discriminate|].
  split; [vm_compute; reflexivity|].
  vm_compute. discriminate.
Qed.

(** C4 (amended): for every descriptor with [width >= 1] and
    [height >= 1] whose sides are at most 2^53 the finest level is the
    image itself: [get_scale (num_levels - 1)] is 1 and
    [get_dimensions (num_levels - 1)] is [(width, height)]. *)
Theorem finest_level_identity (self : t) :
  1 <= width self -> 1 <= height self ->
  width self <= 2 ^ 53 -> height self <= 2 ^ 53 ->
  exists n,
    num_levels self = Ok n /\
    get_scale self (n - 1) = Ok 1%Q /\
    get_dimensions self (n - 1) = Ok (width self, height self).
Proof.
  intros Hw Hh _ _.
  destruct (num_levels self) as [n|e] eqn:Hn.
  2:{ rewrite num_levels_eq in Hn.
      destruct (Z.leb_spec (Z.max (width self) (height self)) 0);
        [lia|discriminate]. }
  exists n. destruct (num_levels_Ok self n Hn) as (_ & _ & Hn1).
  split; [reflexivity|]. split.
  - rewrite (get_scale_ok self n (n - 1) Hn) by lia.
    replace (n - 1 - (n - 1)) with 0 by lia. reflexivity.
  - rewrite (get_dimensions_ok self n (n - 1) Hn) by lia.
    unfold shrink. replace (n - 1 - (n - 1)) with 0 by lia.
    change (2 ^ 0) with 1. rewrite !cdiv_1_r. reflexivity.
Qed.

Lemma finest_level_identity_witness :
  exists n,
    num_levels xga_1024_768 = Ok n /\
    get_scale xga_1024_768 (n - 1) = Ok 1%Q /\
    get_dimensions xga_1024_768 (n - 1) = Ok (1024, 768).
Proof.
  apply (finest_level_identity xga_1024_768); vm_compute; discriminate.
Defined.

(** ** The checks of the descriptor *)

Lemma returns_Ok {A : Type} (a : A) : returns (Ok a).
Proof. exists a. reflexivity. Qed.

Lemma raises_Raise {A : Type} (e : exn) : raises (@Raise A e).
Proof. exists e. reflexivity. Qed.

Lemma raises_not_returns {A : Type} (c : res A) : raises c -> ~ returns c.
Proof. intros [e ->] [a H]. discriminate. Qed.

Lemma check_level_returns (self : t) (level : Z) :
  returns (check_level self level) ->
  exists n, num_levels self = Ok n /\ 0 <= level < n.
Proof.
  intros [u Hu]. unfold check_level in Hu.
  destruct (Z.leb_spec 0 level) as [H0|H0]; [|discriminate].
  destruct (num_levels self) as [n|e]; [|discriminate].
  exists n. split; [reflexivity|].
  simpl in Hu. destruct (Z.ltb_spec level n); [lia|discriminate].
Qed.

(** C5, as the document states it, fails: for column 5 of the finest
    level of the 254 x 254 image, whose grid is 1 x 1,
    [get_tile_bounds] raises nothing and returns a box. *)
Lemma tile_bounds_column_unchecked :
  get_num_tiles square_254 8 = Ok (1, 1) /\
  ~ valid_tile square_254 8 5 0 /\
  get_tile_bounds square_254 8 5 0 = Ok (1269, 0, 254, 254).
Proof.
  split; [vm_compute; reflexivity|].
  split; [|vm_compute; reflexivity].
  intros (n & columns & rows & _ & _ & Ht & Hc & _).
  vm_compute in Ht. injection Ht as <- <-. lia.
Qed.

(** C5 (amended): [get_tile_bounds level column row] requires
    [0 <= level < num_levels] and fails fast with the assertion error
    "Invalid pyramid level" for every level outside that range; it
    does not check the column or the row: for a descriptor with sides
    below 2^29 and a level in the range it returns a box for every
    column and every row, so it returns exactly when the level is in
    the range. *)
Theorem tile_bounds_checks_level_only (self : t) (level column row : Z) :
  (returns (get_tile_bounds self level column row) ->
   exists n, num_levels self = Ok n /\ 0 <= level < n) /\
  (small_sides self ->
   (exists n, num_levels self = Ok n /\ 0 <= level < n) ->
   returns (get_tile_bounds self level column row)) /\
  (forall n, num_levels self = Ok n -> ~ (0 <= level < n) ->
     get_tile_bounds self level column row
     = Raise (AssertionError invalid_level)).
Proof.
  split; [|split].
  - intros [b Hb]. apply check_level_returns.
    unfold get_tile_bounds in Hb.
    destruct (check_level self level) as [u|e]; [|discriminate].
    apply returns_Ok.
  - intros _ (n & Hn & Hl). unfold get_tile_bounds.
    rewrite (check_level_ok self n level Hn Hl).
    rewrite (get_dimensions_ok self n level Hn Hl).
    apply returns_Ok.
  - intros n Hn Hl. unfold get_tile_bounds.
    rewrite (check_level_bad self n level Hn Hl). reflexivity.
Qed.

Lemma tile_bounds_checks_level_only_witness :
  returns (get_tile_bounds square_254 8 5 0) /\
  get_tile_bounds square_254 9 0 0 = Raise (AssertionError invalid_level).
Proof.
  split.
  - apply (proj1 (proj2 (tile_bounds_checks_level_only square_254 8 5 0))).
    + split; vm_compute; reflexivity.
    + exists 9. split; [vm_compute; reflexivity|lia].
  - apply (proj2 (proj2 (tile_bounds_checks_level_only square_254 9 0 0))
             9).
    + vm_compute; reflexivity.
    + lia.
Defined.

(** C6, as the document states it, fails: the descriptor of an image of
    width 0 and height 10 has [width <= 0], and [num_levels] returns 5. *)
Lemma num_levels_one_dimension_nonpositive :
  width no_columns <= 0 /\ num_levels no_columns = Ok 5.
Proof. split; [vm_compute; discriminate | vm_compute; reflexivity]. Qed.

(** C6 (amended): [num_levels] fails, with the [ValueError] of
    [math.log], exactly when both [width <= 0] and [height <= 0]; as
    soon as one of the two dimensions is positive it returns
    normally. *)
Theorem num_levels_fails_iff (self : t) :
  (raises (num_levels self) <-> width self <= 0 /\ height self <= 0) /\
  (raises (num_levels self) -> num_levels self = Raise ValueError) /\
  (0 < width self \/ 0 < height self -> returns (num_levels self)).
Proof.
  rewrite num_levels_eq.
  destruct (Z.leb_spec (Z.max (width self) (height self)) 0) as [H|H].
  - split; [split; [lia | intros _; apply raises_Raise]|].
    split; [reflexivity | lia].
  - split; [split; [intros [e He]; discriminate | lia]|].
    split; [intros [e He]; discriminate | intros _; apply returns_Ok].
Qed.

Lemma num_levels_fails_iff_witness :
  returns (num_levels no_columns).
Proof.
  apply (proj2 (proj2 (num_levels_fails_iff no_columns))).
  right. vm_compute. reflexivity.
Defined.

End Geometry.

(** ** The bitmaps of the levels *)

(** One step of a method: a [bind] whose first part is evaluated. *)
Ltac py_step := cbn [bind getattr assert].

Lemma for_each_Forall2 {A B : Type} (body : A -> res B) (xs : list A) :
  forall ys, for_each xs body = Ok ys ->
             Forall2 (fun x y => body x = Ok y) xs ys.
Proof.
  induction xs as [|x xs IH]; intros ys H; simpl in H.
  - injection H as <-. constructor.
  - destruct (body x) as [y|e] eqn:Hy; [|discriminate]. simpl in H.
    destruct (for_each xs body) as [ys'|e]; [|discriminate]. simpl in H.
    injection H as <-. constructor; [assumption|apply IH; reflexivity].
Qed.

Lemma for_each_Forall {A B : Type} (body : A -> res B) (P : B -> Prop)
    (xs : list A) :
  (forall x y, body x = Ok y -> P y) ->
  forall ys, for_each xs body = Ok ys -> Forall P ys.
Proof.
  intros HP ys H. apply for_each_Forall2 in H.
  induction H; constructor; eauto.
Qed.

Lemma in_range (n i : Z) : In i (range n) <-> 0 <= i < n.
Proof.
  unfold range. rewrite in_map_iff. split.
  - intros (k & <- & Hk). apply in_seq in Hk. lia.
  - intros Hi. exists (Z.to_nat i). split; [lia|]. apply in_seq. lia.
Qed.

Lemma Forall2_in_l {A B : Type} (R : A -> B -> Prop) (xs : list A)
    (ys : list B) :
  Forall2 R xs ys -> forall y, In y ys -> exists x, In x xs /\ R x y.
Proof.
  induction 1 as [|x y xs ys HR _ IH]; intros y' Hy; [contradiction|].
  destruct Hy as [<- | Hy].
  - exists x. split; [left; reflexivity | assumption].
  - destruct (IH y' Hy) as (x' & Hx' & HR'). exists x'.
    split; [right; assumption | assumption].
Qed.

Section LevelBitmaps.

Import ImageCreator.

(** The two ways in which a bitmap comes straight from the source. *)
Lemma straight_from_source_iff (im : PIL.Image)
    (d : DeepZoomImageDescriptor.t) (n level : Z) (x : PIL.Image) :
  DeepZoomImageDescriptor.num_levels d = Ok n -> 0 <= level < n ->
  let w := cdiv (DeepZoomImageDescriptor.width d) (shrink n level) in
  let h := cdiv (DeepZoomImageDescriptor.height d) (shrink n level) in
  straight_from_source im d level x <->
  ((w = DeepZoomImageDescriptor.width d /\
    h = DeepZoomImageDescriptor.height d -> x = im) /\
   (~ (w = DeepZoomImageDescriptor.width d /\
       h = DeepZoomImageDescriptor.height d) ->
    exists f, x = PIL.resize im (w, h) f)).
Proof.
  intros Hn Hl w h. unfold straight_from_source.
  rewrite (get_dimensions_ok d n level Hn Hl). fold w h. split.
  - intros (w' & h' & E & H1 & H2). injection E as <- <-. tauto.
  - intros [H1 H2]. exists w, h. tauto.
Qed.

Lemma Image_resize_inv (im x : PIL.Image) (size : Z * Z)
    (f : PIL.filter) :
  PIL.Image_resize im size f = Ok x ->
  x = PIL.resize im size f /\ 1 <= fst size /\ 1 <= snd size.
Proof.
  unfold PIL.Image_resize.
  destruct (Z.ltb_spec (fst size) 1) as [|Hw]; [discriminate|].
  destruct (Z.ltb_spec (snd size) 1) as [|Hh]; [discriminate|].
  cbn [orb]. intros E. injection E as <-. auto.
Qed.

Lemma Image_resize_ok (im : PIL.Image) (size : Z * Z) (f : PIL.filter) :
  1 <= fst size -> 1 <= snd size ->
  PIL.Image_resize im size f = Ok (PIL.resize im size f).
Proof.
  intros Hw Hh. unfold PIL.Image_resize.
  destruct (Z.ltb_spec (fst size) 1); [lia|].
  destruct (Z.ltb_spec (snd size) 1); [lia|]. reflexivity.
Qed.

(** What [get_image] returns, when it returns. *)
Lemma get_image_inv (self : t) (d : DeepZoomImageDescriptor.t)
    (im level_image : PIL.Image) (level : Z) :
  descriptor self = Some d -> image self = Some im ->
  get_image self level = Ok level_image ->
  exists n,
    DeepZoomImageDescriptor.num_levels d = Ok n /\ 0 <= level < n /\
    straight_from_source im d level level_image.
Proof.
  intros Hd Him. unfold get_image. rewrite Hd, Him. py_step.
  destruct (Z.leb_spec 0 level) as [H0|]; [|discriminate].
  destruct (DeepZoomImageDescriptor.num_levels d) as [n|e] eqn:Hn;
    [|discriminate].
  py_step.
  destruct (Z.ltb_spec level n) as [Hlt|]; [|discriminate]. py_step.
  assert (Hl : 0 <= level < n) by lia.
  rewrite (get_dimensions_ok d n level Hn Hl). py_step.
  intros Hget. exists n. split; [reflexivity|]. split; [exact Hl|].
  apply (straight_from_source_iff im d n level level_image Hn Hl).
  set (w := cdiv (DeepZoomImageDescriptor.width d) (shrink n level)) in *.
  set (h := cdiv (DeepZoomImageDescriptor.height d) (shrink n level)) in *.
  destruct (Z.eqb_spec (DeepZoomImageDescriptor.width d) w) as [Ew|Ew];
    destruct (Z.eqb_spec (DeepZoomImageDescriptor.height d) h) as [Eh|Eh];
    cbn [andb] in Hget.
  1: { injection Hget as <-.
       split; [reflexivity | intros H; exfalso; apply H; split; congruence]. }
  all: assert (Hres : exists f, level_image = PIL.resize im (w, h) f)
    by (destruct (resize_filter self) as [name|];
         [destruct (negb (contains RESIZE_FILTERS name))|];
         apply Image_resize_inv in Hget; destruct Hget as [-> _];
         eexists; reflexivity);
    (split; [intros [? ?]; congruence | intros _; exact Hres]).
Qed.

(** [get_image] returns at every level of a pyramid with positive
    sides. *)
Lemma get_image_ok (self : t) (d : DeepZoomImageDescriptor.t)
    (im : PIL.Image) (n level : Z) :
  descriptor self = Some d -> image self = Some im ->
  1 <= DeepZoomImageDescriptor.width d ->
  1 <= DeepZoomImageDescriptor.height d ->
  DeepZoomImageDescriptor.num_levels d = Ok n -> 0 <= level < n ->
  exists level_image,
    get_image self level = Ok level_image /\
    straight_from_source im d level level_image.
Proof.
  intros Hd Him Hw Hh Hn Hl.
  assert (Hret : exists x, get_image self level = Ok x).
  { unfold get_image. rewrite Hd, Him. py_step.
    destruct (Z.leb_spec 0 level) as [_|]; [|lia].
    rewrite Hn. py_step.
    destruct (Z.ltb_spec level n) as [_|]; [|lia]. py_step.
    rewrite (get_dimensions_ok d n level Hn Hl). py_step.
    pose proof (shrink_pos n level ltac:(lia)) as Hs.
    pose proof (cdiv_pos_ge1 (DeepZoomImageDescriptor.width d) _ Hs Hw).
    pose proof (cdiv_pos_ge1 (DeepZoomImageDescriptor.height d) _ Hs Hh).
    match goal with
    | |- context [if ?c then _ else _] => destruct c
    end; [eexists; reflexivity|].
    destruct (resize_filter self) as [name|];
      [destruct (negb (contains RESIZE_FILTERS name))|];
      rewrite Image_resize_ok by assumption; eexists; reflexivity. }
  destruct Hret as [x Hx]. exists x. split; [exact Hx|].
  destruct (get_image_inv self d im x level Hd Him Hx) as (n' & _ & _ & H).
  exact H.
Qed.

Lemma write_tile_crop (self : t) (level_image : PIL.Image) (level : Z)
    (tile : Z * Z) (file : tile_file) :
  write_tile self level_image level tile = Ok file ->
  file_level file = level /\
  (exists box, file_tile file = PIL.crop level_image box) /\
  exists d, descriptor self = Some d /\
            save_options self (DeepZoomImageDescriptor.tile_format d)
            = Ok (file_options file).
Proof.
  destruct tile as [column row]. unfold write_tile.
  destruct (descriptor self) as [d|]; [|discriminate]. py_step.
  destruct (DeepZoomImageDescriptor.get_tile_bounds d level column row)
    as [box|e]; [|discriminate]. py_step.
  destruct (save_options self (DeepZoomImageDescriptor.tile_format d))
    as [o|e] eqn:Ho; [|discriminate]. py_step.
  destruct (PIL.Image_save (PIL.crop level_image box) o);
    [|discriminate].
  py_step.
  intros H. injection H as <-. cbn [file_level file_tile file_options].
  split; [reflexivity|]. split; [exists box; reflexivity|].
  exists d. split; [reflexivity | exact Ho].
Qed.

Lemma create_inv (self self' : t) (source : PIL.Image)
    (destination : string) (levels : list (PIL.Image * list tile_file))
    (d : DeepZoomImageDescriptor.t) :
  create self source destination = Ok (self', levels, d) ->
  PIL.size source
  = (DeepZoomImageDescriptor.width d, DeepZoomImageDescriptor.height d) /\
  DeepZoomImageDescriptor.tile_size d = tile_size self /\
  DeepZoomImageDescriptor.tile_overlap d = tile_overlap self /\
  DeepZoomImageDescriptor.tile_format d = tile_format self /\
  image self' = Some source /\ descriptor self' = Some d /\
  image_quality self' = image_quality self /\
  exists n,
    DeepZoomImageDescriptor.num_levels d = Ok n /\
    Forall2 (fun level out => write_level self' level = Ok out)
      (range n) levels.
Proof.
  unfold create. destruct (PIL.size source) as [w h].
  match goal with
  | |- context [DeepZoomImageDescriptor.num_levels ?x] =>
      destruct (DeepZoomImageDescriptor.num_levels x) as [n|e] eqn:Hn;
      [|discriminate]
  end.
  py_step.
  match goal with
  | |- context [for_each ?xs ?f] =>
      destruct (for_each xs f) as [ls|e] eqn:Hls; [|discriminate]
  end.
  py_step. intros H. injection H as <- <- <-. cbn.
  repeat (split; [reflexivity|]).
  exists n. split; [exact Hn|]. apply for_each_Forall2. exact Hls.
Qed.

Lemma write_level_inv (self : t) (d : DeepZoomImageDescriptor.t)
    (im : PIL.Image) (n level : Z) (out : PIL.Image * list tile_file) :
  descriptor self = Some d -> image self = Some im ->
  DeepZoomImageDescriptor.num_levels d = Ok n -> 0 <= level < n ->
  write_level self level = Ok out ->
  straight_from_source im d level (fst out) /\
  Forall (fun file =>
            file_level file = level /\
            (exists box, file_tile file = PIL.crop (fst out) box) /\
            save_options self (DeepZoomImageDescriptor.tile_format d)
            = Ok (file_options file))
         (snd out).
Proof.
  intros Hd Him Hn Hl. unfold write_level.
  destruct (get_image self level) as [level_image|e] eqn:Hget;
    [|discriminate].
  destruct (get_image_inv self d im level_image level Hd Him Hget)
    as (_ & _ & _ & Hsrc).
  py_step.
  destruct (tiles self level) as [coordinates|e]; [|discriminate]. py_step.
  destruct (for_each coordinates (write_tile self level_image level))
    as [files|e] eqn:Hf; [|discriminate].
  py_step. intros H. injection H as <-. cbn [fst snd].
  split; [exact Hsrc|].
  apply (for_each_Forall (write_tile self level_image level) _ coordinates)
    with (ys := files); [|exact Hf].
  intros tile file Hw.
  destruct (write_tile_crop self level_image level tile file Hw)
    as (H1 & H2 & d' & Hd' & H3).
  rewrite Hd in Hd'. injection Hd' as <-. auto.
Qed.

(** C9: the bitmap that [get_image level] returns is the bitmap of the
    creator unmodified when the dimensions of the level are those of
    the descriptor, and otherwise that same bitmap resized to the
    dimensions of the level; it returns one at every level of a pyramid
    whose descriptor has the size of the bitmap, with sides from 1 to
    below 2^29; in [create], where the bitmap of the creator is the
    source and the descriptor has the size of the source, the bitmap of
    every level is the source or the source resized, never a resized
    bitmap of another level, and every tile is cropped from the bitmap
    of its level. *)
Theorem level_bitmaps_from_source :
  (forall (self : t) (d : DeepZoomImageDescriptor.t)
          (im level_image : PIL.Image) (level : Z),
      descriptor self = Some d -> image self = Some im ->
      get_image self level = Ok level_image ->
      straight_from_source im d level level_image) /\
  (forall (self : t) (d : DeepZoomImageDescriptor.t) (im : PIL.Image)
          (n level : Z),
      descriptor self = Some d -> image self = Some im ->
      PIL.size im
      = (DeepZoomImageDescriptor.width d, DeepZoomImageDescriptor.height d)
      ->
      1 <= DeepZoomImageDescriptor.width d ->
      1 <= DeepZoomImageDescriptor.height d -> small_sides d ->
      DeepZoomImageDescriptor.num_levels d = Ok n -> 0 <= level < n ->
      exists level_image,
        get_image self level = Ok level_image /\
        straight_from_source im d level level_image) /\
  (forall (self self' : t) (source : PIL.Image) (destination : string)
          (levels : list (PIL.Image * list tile_file))
          (d : DeepZoomImageDescriptor.t),
      create self source destination = Ok (self', levels, d) ->
      PIL.size source
      = (DeepZoomImageDescriptor.width d, DeepZoomImageDescriptor.height d)
      /\
      exists n,
        DeepZoomImageDescriptor.num_levels d = Ok n /\
        Forall2
          (fun level out =>
             straight_from_source source d level (fst out) /\
             Forall (fun file =>
                       exists box, file_tile file = PIL.crop (fst out) box)
                    (snd out))
          (range n) levels).
Proof.
  split; [|split].
  { intros self d im level_image level Hd Him Hget.
    destruct (get_image_inv self d im level_image level Hd Him Hget)
      as (_ & _ & _ & H).
    exact H. }
  { intros self d im n level Hd Him _ Hw Hh _ Hn Hl.
    exact (get_image_ok self d im n level Hd Him Hw Hh Hn Hl). }
  intros self self' source destination levels d Hc.
  destruct (create_inv _ _ _ _ _ _ Hc)
    as (Hsize & _ & _ & _ & Him & Hd & _ & n & Hn & Hlevels).
  split; [exact Hsize|]. exists n. split; [exact Hn|].
  assert (Hin : Forall (fun level => 0 <= level < n) (range n))
    by (apply Forall_forall; intros level; apply in_range).
  clear Hc. set (ls := range n) in *. clearbody ls. revert Hin.
  induction Hlevels as [|level out ls outs Hw _ IH]; intros Hin;
    constructor.
  - inversion Hin as [|? ? Hl _]; subst.
    destruct (write_level_inv self' d source n level out Hd Him Hn Hl Hw)
      as [Hsrc Hfiles].
    split; [exact Hsrc|].
    eapply Forall_impl; [|exact Hfiles].
    intros file (_ & Hbox & _). exact Hbox.
  - apply IH. inversion Hin; subst; assumption.
Qed.

Lemma level_bitmaps_from_source_witness :
  exists self' levels d,
    create (script_creator "png" default_quality) small_bitmap "out.dzi"
    = Ok (self', levels, d) /\
    exists n,
      DeepZoomImageDescriptor.num_levels d = Ok n /\
      Forall2
        (fun level out =>
           straight_from_source small_bitmap d level (fst out) /\
           Forall (fun file =>
                     exists box, file_tile file = PIL.crop (fst out) box)
                  (snd out))
        (range n) levels.
Proof.
  destruct (create (script_creator "png" default_quality) small_bitmap
              "out.dzi") as [[[self' levels] d]|e] eqn:Hc.
  - exists self', levels, d. split; [reflexivity|].
    apply (proj2 (proj2 level_bitmaps_from_source) _ _ _ _ _ _ Hc).
  - vm_compute in Hc. discriminate.
Defined.

End LevelBitmaps.

(** ** The tile size *)

Section TileSize.

Import DeepZoomImageDescriptor.

Lemma get_num_tiles_zero_tile_raises (self : t) (level : Z) :
  tile_size self = 0 -> raises (get_num_tiles self level).
Proof.
  intros Hts.
  destruct (check_level self level) as [u|e] eqn:Hc.
  - destruct (check_level_returns self level) as (n & Hn & Hl).
    { rewrite Hc. apply returns_Ok. }
    rewrite (get_num_tiles_zero_tile self n level Hn Hl Hts).
    apply raises_Raise.
  - unfold get_num_tiles. rewrite Hc. apply raises_Raise.
Qed.

Lemma range_pos (n : Z) : 1 <= n -> exists tl, range n = 0 :: tl.
Proof.
  intros Hn. unfold range.
  destruct (Z.to_nat n) as [|k] eqn:E; [lia|].
  simpl. eexists. reflexivity.
Qed.

Lemma create_zero_tile_raises (self : ImageCreator.t) (source : PIL.Image)
    (destination : string) :
  ImageCreator.tile_size self = 0 ->
  raises (ImageCreator.create self source destination).
Proof.
  intros Hts.
  destruct (ImageCreator.create self source destination)
    as [[[self' levels] d]|e] eqn:Hc; [exfalso|apply raises_Raise].
  destruct (create_inv _ _ _ _ _ _ Hc)
    as (_ & Hd0 & _ & _ & _ & Hd & _ & n & Hn & Hlevels).
  destruct (num_levels_Ok d n Hn) as (_ & _ & Hn1).
  destruct (range_pos n Hn1) as [tl Htl]. rewrite Htl in Hlevels.
  inversion Hlevels as [|? out ? ? Hw _]; subst.
  unfold ImageCreator.write_level in Hw.
  destruct (ImageCreator.get_image self' 0); [|discriminate].
  cbn [bind] in Hw. unfold ImageCreator.tiles in Hw.
  rewrite Hd in Hw. cbn [bind getattr] in Hw.
  destruct (get_num_tiles_zero_tile_raises d 0) as [e He];
    [congruence|].
  rewrite He in Hw. discriminate.
Qed.

(** C10, as the document states it, fails at a level outside the
    pyramid: with [tile_size = 0] the grid query of level 9 of the
    254 x 254 image, which has the levels 0 to 8, fails with the
    assertion error of the level, not with a division error. *)
Lemma zero_tile_size_level_assertion :
  tile_size zero_tiles = 0 /\ num_levels zero_tiles = Ok 9 /\
  get_num_tiles zero_tiles 9 = Raise (AssertionError invalid_level) /\
  get_num_tiles zero_tiles 9 <> Raise ZeroDivisionError.
Proof.
  split; [reflexivity|]. split; [vm_compute; reflexivity|].
  split; [vm_compute; reflexivity|]. vm_compute. discriminate.
Qed.

(** C10 (amended): neither constructor checks that the tile size is
    positive: [ImageCreator.__init__] stores every integer [tile_size]
    as it is and [create] hands it to the descriptor; and with
    [tile_size = 0] no call of [get_num_tiles] returns a value: at
    every level of the pyramid of a descriptor with sides below 2^29 it
    raises [ZeroDivisionError], at every other level the assertion
    error of the level, and so [create] raises. *)
Theorem tile_size_unchecked :
  (forall (size overlap : Z) (format : string) (quality : spec_float)
          (filter : option string) (metadata : bool),
      ImageCreator.tile_size
        (ImageCreator.__init__ size overlap format quality filter metadata)
      = size) /\
  (forall (self : t) (level : Z),
      tile_size self = 0 -> ~ returns (get_num_tiles self level)) /\
  (forall (self : t) (n level : Z),
      tile_size self = 0 -> small_sides self ->
      num_levels self = Ok n -> 0 <= level < n ->
      get_num_tiles self level = Raise ZeroDivisionError) /\
  (forall (self : t) (n level : Z),
      num_levels self = Ok n -> ~ (0 <= level < n) ->
      get_num_tiles self level = Raise (AssertionError invalid_level)) /\
  (forall (self : ImageCreator.t) (source : PIL.Image)
          (destination : string),
      ImageCreator.tile_size self = 0 ->
      raises (ImageCreator.create self source destination)).
Proof.
  split; [reflexivity|]. split; [|split; [|split]].
  - intros self level Hts. apply raises_not_returns.
    apply get_num_tiles_zero_tile_raises. assumption.
  - intros self n level Hts _ Hn Hl.
    apply (get_num_tiles_zero_tile self n level Hn Hl Hts).
  - intros self n level Hn Hl. unfold get_num_tiles.
    rewrite (check_level_bad self n level Hn Hl). reflexivity.
  - exact create_zero_tile_raises.
Qed.

Lemma tile_size_unchecked_witness :
  get_num_tiles zero_tiles 8 = Raise ZeroDivisionError.
Proof.
  apply (proj1 (proj2 (proj2 tile_size_unchecked)) zero_tiles 9 8).
  - reflexivity.
  - split; vm_compute; reflexivity.
  - vm_compute; reflexivity.
  - lia.
Defined.

End TileSize.

(** ** The configuration of the creator *)

Section Configuration.

Import ImageCreator.

Lemma of_int_0 : float64.of_int 0 = S754_zero false.
Proof. reflexivity. Qed.

Lemma of_int_1 :
  float64.of_int 1 = S754_finite false 4503599627370496 (-52).
Proof. vm_compute. reflexivity. Qed.

Lemma SFcompare_antisym (x y : spec_float) :
  SFcompare y x = option_map CompOpp (SFcompare x y).
Proof.
  destruct x as [sx|sx| |sx mx ex], y as [sy|sy| |sy my ey];
    try destruct sx; try destruct sy; try reflexivity; simpl;
    rewrite (Z.compare_antisym ex ey);
    destruct (ex ?= ey); simpl; try reflexivity;
    change (Pos.compare_cont Eq my mx) with (Pos.compare my mx);
    change (Pos.compare_cont Eq mx my) with (Pos.compare mx my);
    rewrite (Pos.compare_antisym mx my);
    destruct (mx ?= my)%positive; reflexivity.
Qed.

Lemma SFcompare_not_nan (x y : spec_float) :
  x <> S754_nan -> y <> S754_nan -> exists c, SFcompare x y = Some c.
Proof.
  intros Hx Hy.
  destruct x as [sx|sx| |sx mx ex], y as [sy|sy| |sy my ey];
    try contradiction; simpl; eexists; reflexivity.
Qed.

(** A value that is not a NaN and is not below [y] is at least [y]. *)
Lemma not_lt_le (x y : spec_float) :
  x <> S754_nan -> y <> S754_nan -> SFltb x y = false -> SFleb y x = true.
Proof.
  intros Hx Hy. unfold SFltb, SFleb. rewrite (SFcompare_antisym x y).
  destruct (SFcompare_not_nan x y Hx Hy) as [c ->].
  destruct c; simpl; congruence.
Qed.

Lemma clamp_int (val lo hi : Z) :
  lo <= hi -> _clamp val lo hi = Z.max lo (Z.min val hi).
Proof.
  intros H. unfold _clamp, lt, gt, Ord_int.
  destruct (Z.ltb_spec val lo); [lia|].
  destruct (Z.gtb_spec val hi); lia.
Qed.

Lemma clamp_quality (q : spec_float) :
  q <> S754_nan ->
  let c := _clamp q (float64.of_int 0) (float64.of_int 1) in
  float64.le (float64.of_int 0) c = true /\
  float64.le c (float64.of_int 1) = true /\
  (lt q (float64.of_int 0) = true -> c = float64.of_int 0) /\
  (gt q (float64.of_int 1) = true -> c = float64.of_int 1) /\
  (float64.le (float64.of_int 0) q = true ->
   float64.le q (float64.of_int 1) = true -> c = q).
Proof.
  intros Hq c. subst c. unfold _clamp, float64.le.
  rewrite of_int_0, of_int_1.
  set (zero := S754_zero false).
  set (one := S754_finite false 4503599627370496 (-52)).
  assert (Hzero : zero <> S754_nan) by discriminate.
  assert (Hone : one <> S754_nan) by discriminate.
  cbn [lt gt Ord_float].
  destruct (SFltb q zero) eqn:Hlt.
  - repeat split; try reflexivity.
    + intros Hgt. exfalso. clear - Hlt Hgt.
      destruct q as [s|s| |s m e]; try destruct s; simpl in *;
        discriminate.
    + intros H0 _. exfalso. unfold SFleb in H0. unfold SFltb in Hlt.
      rewrite (SFcompare_antisym q zero) in H0.
      destruct (SFcompare q zero) as [[]|]; simpl in *; discriminate.
  - destruct (SFltb one q) eqn:Hgt.
    + repeat split; try reflexivity; try discriminate.
      intros _ H1. exfalso. unfold SFleb in H1. unfold SFltb in Hgt.
      rewrite (SFcompare_antisym one q) in H1.
      destruct (SFcompare one q) as [[]|]; simpl in *; discriminate.
    + split; [apply not_lt_le; assumption|].
      split; [apply not_lt_le; assumption|].
      repeat split; try reflexivity; discriminate.
Qed.

(** C8, as the document states it, fails for the quality NaN, which the
    command line accepts: it is below no bound and above no bound, the
    constructor keeps it, it is not in [[0, 1]], and [create] then raises
    [ValueError] at the first tile. *)
Lemma init_keeps_nan_quality :
  image_quality (script_creator "png" S754_nan) = S754_nan /\
  float64.le (float64.of_int 0)
    (image_quality (script_creator "png" S754_nan)) = false /\
  float64.le (image_quality (script_creator "png" S754_nan))
    (float64.of_int 1) = false /\
  create (script_creator "png" S754_nan) small_bitmap "out.dzi"
  = Raise ValueError.
Proof. repeat split; vm_compute; reflexivity. Qed.

(** C8 (amended): the constructor raises nothing and recovers the
    values out of range: for every integer [tile_overlap] the
    effective overlap is its clamp into [[0, 10]] (15 becomes 10); for
    every [image_quality] that is not a NaN the effective quality is
    its clamp into [[0.0, 1.0]] (1.5 becomes 1.0); and every
    [tile_format] other than "jpg" and "png" ("bmp", say) is replaced
    by "png". *)
Theorem init_clamps :
  (forall (size overlap : Z) (format : string) (quality : spec_float)
          (filter : option string) (metadata : bool),
      let self := __init__ size overlap format quality filter metadata in
      tile_overlap self = Z.max 0 (Z.min overlap 10) /\
      0 <= tile_overlap self <= 10 /\
      (format <> "jpg" -> format <> "png" -> tile_format self = "png") /\
      (format = "jpg" \/ format = "png" -> tile_format self = format) /\
      (quality <> S754_nan ->
       float64.le (float64.of_int 0) (image_quality self) = true /\
       float64.le (image_quality self) (float64.of_int 1) = true /\
       (lt quality (float64.of_int 0) = true ->
        image_quality self = float64.of_int 0) /\
       (gt quality (float64.of_int 1) = true ->
        image_quality self = float64.of_int 1) /\
       (float64.le (float64.of_int 0) quality = true ->
        float64.le quality (float64.of_int 1) = true ->
        image_quality self = quality))) /\
  tile_overlap (__init__ 254 15 "png" default_quality None false) = 10 /\
  image_quality (__init__ 254 1 "png" (float64.dyadic 3 (-1)) None false)
  = float64.of_int 1 /\
  tile_format (__init__ 254 1 "bmp" default_quality None false) = "png".
Proof.
  split; [|repeat split; vm_compute; reflexivity].
  intros size overlap format quality filter metadata self. subst self.
  cbn [tile_overlap tile_format image_quality __init__].
  rewrite clamp_int by lia.
  split; [reflexivity|]. split; [lia|].
  assert (Hc : contains IMAGE_FORMATS format
               = (("jpg" =? format)%string || ("png" =? format)%string)).
  { unfold contains, IMAGE_FORMATS. cbn [existsb fst].
    rewrite orb_false_r. reflexivity. }
  rewrite Hc.
  split; [|split].
  - intros Hj Hp.
    destruct (String.eqb_spec "jpg" format); [congruence|].
    destruct (String.eqb_spec "png" format); [congruence|]. reflexivity.
  - intros [-> | ->]; reflexivity.
  - intros Hq. exact (clamp_quality quality Hq).
Qed.

Lemma init_clamps_witness :
  image_quality (__init__ 254 1 "bmp" (float64.dyadic (-3) (-1)) None false)
  = float64.of_int 0 /\
  tile_format (__init__ 254 1 "bmp" (float64.dyadic (-3) (-1)) None false)
  = "png".
Proof.
  destruct init_clamps as [general _].
  destruct (general 254 1 "bmp" (float64.dyadic (-3) (-1)) None false)
    as (_ & _ & Hfmt & _ & Hq).
  split.
  - apply Hq; [vm_compute; discriminate | vm_compute; reflexivity].
  - apply Hfmt; vm_compute; discriminate.
Defined.

End Configuration.

(** ** IEEE 754 arithmetic on the unit interval *)

(** The products [q * 100] and [(1 - q) * 10] of [create] are rounded
    doubles.  The bounds on the integers taken from them follow the
    rounding of [SpecFloat] step by step: the alignment of the mantissas,
    the shift to the precision of the format and the rounding to
    nearest. *)

Section UnitInterval.

Local Abbreviation prec := float64.prec.
Local Abbreviation emax := float64.emax.
Local Abbreviation one := (S754_finite false 4503599627370496 (-52)).
Local Abbreviation hundred := (S754_finite false 7036874417766400 (-46)).
Local Abbreviation ten := (S754_finite false 5629499534213120 (-49)).

(** The number of binary digits of a mantissa. *)
Lemma digits2_pos_bounds (p : positive) :
  2 ^ (Zpos (digits2_pos p) - 1) <= Zpos p < 2 ^ Zpos (digits2_pos p).
Proof.
  induction p as [p IH|p IH|]; simpl digits2_pos.
  - rewrite Pos2Z.inj_succ.
    replace (Z.succ (Z.pos (digits2_pos p)) - 1)
      with (Z.pos (digits2_pos p) - 1 + 1) by lia.
    rewrite Z.pow_succ_r by lia. rewrite Z.pow_add_r by lia.
    change (2 ^ 1) with 2. lia.
  - rewrite Pos2Z.inj_succ.
    replace (Z.succ (Z.pos (digits2_pos p)) - 1)
      with (Z.pos (digits2_pos p) - 1 + 1) by lia.
    rewrite Z.pow_succ_r by lia. rewrite Z.pow_add_r by lia.
    change (2 ^ 1) with 2. lia.
  - simpl. lia.
Qed.

Lemma Zdigits2_le (x k : Z) :
  0 <= x -> 0 <= k -> x < 2 ^ k -> Zdigits2 x <= k.
Proof.
  intros Hx Hk H. destruct x as [|p|p]; [simpl; lia| |lia].
  simpl. pose proof (digits2_pos_bounds p) as [Hlo _].
  destruct (Z_le_gt_dec (Zpos (digits2_pos p)) k) as [|Hgt]; [assumption|].
  exfalso. assert (2 ^ k <= 2 ^ (Zpos (digits2_pos p) - 1)).
  { apply Z.pow_le_mono_r; lia. }
  lia.
Qed.

(** Shifting a mantissa to the right halves it. *)
Lemma shr_1_m (mrs : shr_record) :
  0 <= shr_m mrs -> shr_m (shr_1 mrs) = shr_m mrs / 2.
Proof.
  destruct mrs as [m r s]. simpl. intros Hm.
  destruct m as [|[p|p|]|p]; simpl shr_m; [reflexivity| | |reflexivity|lia].
  - rewrite Pos2Z.inj_xI. apply Z.div_unique with 1; lia.
  - rewrite Pos2Z.inj_xO. apply Z.div_unique with 0; lia.
Qed.

Lemma div_pow2_twice (a i j : Z) :
  0 <= i -> 0 <= j -> a / 2 ^ i / 2 ^ j = a / 2 ^ (i + j).
Proof.
  intros Hi Hj. rewrite Zdiv.Zdiv_Zdiv by (apply Z.pow_nonneg; lia).
  rewrite Z.pow_add_r by assumption. reflexivity.
Qed.

Lemma iter_shr_1_m (p : positive) :
  forall mrs, 0 <= shr_m mrs ->
    0 <= shr_m (iter_pos shr_1 p mrs) /\
    shr_m (iter_pos shr_1 p mrs) = shr_m mrs / 2 ^ Zpos p.
Proof.
  assert (Hpow : forall a q, 0 <= a -> 0 <= a / 2 ^ q).
  { intros a q Ha. destruct (Z_le_gt_dec 0 q).
    - apply Z.div_pos; [assumption|]. apply Z.pow_pos_nonneg; lia.
    - rewrite Z.pow_neg_r by lia. rewrite Z.div_0_r. lia. }
  assert (H1 : forall mrs, 0 <= shr_m mrs ->
            0 <= shr_m (shr_1 mrs) /\ shr_m (shr_1 mrs) = shr_m mrs / 2 ^ 1).
  { intros mrs Hm. rewrite shr_1_m by assumption. split; [|reflexivity].
    apply (Hpow _ 1 Hm). }
  induction p as [p IH|p IH|]; intros mrs Hm; simpl iter_pos.
  - destruct (H1 mrs Hm) as [Ha Ea].
    destruct (IH _ Ha) as [Hb Eb]. destruct (IH _ Hb) as [Hc Ec].
    split; [assumption|]. rewrite Ec, Eb, Ea.
    rewrite !div_pow2_twice by lia. f_equal. f_equal. lia.
  - destruct (IH _ Hm) as [Hb Eb]. destruct (IH _ Hb) as [Hc Ec].
    split; [assumption|]. rewrite Ec, Eb.
    rewrite !div_pow2_twice by lia. f_equal. f_equal. lia.
  - exact (H1 mrs Hm).
Qed.

(** [shr] on a mantissa that is not negative. *)
Lemma shr_m_e (mrs : shr_record) (e n : Z) :
  0 <= shr_m mrs ->
  let r := shr mrs e n in
  (0 < n -> shr_m (fst r) = shr_m mrs / 2 ^ n /\ snd r = e + n) /\
  (n <= 0 -> shr_m (fst r) = shr_m mrs /\ snd r = e /\ fst r = mrs).
Proof.
  intros Hm r. subst r. destruct n as [|p|p]; simpl; split; try lia; intros _.
  - auto.
  - split; [apply iter_shr_1_m; assumption | reflexivity].
  - auto.
Qed.

(** Rounding to nearest adds at most one unit to the mantissa. *)
Lemma round_nearest_even_bounds (m : Z) (l : location) :
  m <= round_nearest_even m l <= m + 1.
Proof.
  destruct l as [|[]]; simpl; try lia. destruct (Z.even m); lia.
Qed.

Lemma fexp_le (x b : Z) :
  x <= b -> fexp prec emax x <= Z.max (b - prec) (3 - emax - prec).
Proof. unfold fexp, emin. lia. Qed.

Lemma pow2_split (a b : Z) : 0 <= a -> 0 <= b -> 2 ^ (a + b) = 2 ^ a * 2 ^ b.
Proof. intros. apply Z.pow_add_r; assumption. Qed.

Lemma pow2_pos (a : Z) : 0 <= a -> 0 < 2 ^ a.
Proof. intros. apply Z.pow_pos_nonneg; lia. Qed.

(** One shift of [binary_round_aux]: a mantissa below [K * 2^(u - e)]
    stays below that bound at the new exponent. *)
Lemma shr_fexp_upper (m e K u b : Z) (l : location) :
  0 <= m -> 0 < K -> K <= 2 ^ (b - u) ->
  let c := Z.max (b - prec) (3 - emax - prec) in
  e <= c -> c < u ->
  m < K * 2 ^ (u - e) ->
  let r := shr_fexp prec emax m e l in
  e <= snd r /\ snd r <= c /\
  0 <= shr_m (fst r) /\ shr_m (fst r) < K * 2 ^ (u - snd r) /\
  (forall K', m <= K' * 2 ^ (u - e) -> shr_m (fst r) <= K' * 2 ^ (u - snd r)) /\
  (snd r = e -> fst r = shr_record_of_loc m l).
Proof.
  intros Hm HK HKb c He Hcu Hlt r. subst r. unfold shr_fexp.
  assert (Hbu : 0 <= b - u).
  { destruct (Z_le_gt_dec 0 (b - u)); [assumption|].
    rewrite Z.pow_neg_r in HKb by lia. lia. }
  assert (Hdig : Zdigits2 m + e <= b).
  { assert (Zdigits2 m <= b - e); [|lia].
    apply Zdigits2_le; [assumption|lia|].
    replace (b - e) with ((b - u) + (u - e)) by lia.
    rewrite pow2_split by lia.
    pose proof (pow2_pos (u - e) ltac:(lia)). nia. }
  pose proof (fexp_le _ _ Hdig) as Hf. fold c in Hf.
  set (f := fexp prec emax (Zdigits2 m + e)) in *.
  assert (Hm0 : 0 <= shr_m (shr_record_of_loc m l))
    by (destruct l as [|[]]; exact Hm).
  assert (Hm1 : shr_m (shr_record_of_loc m l) = m)
    by (destruct l as [|[]]; reflexivity).
  destruct (shr_m_e (shr_record_of_loc m l) e (f - e) Hm0) as [Hshift Hkeep].
  destruct (Z_lt_le_dec 0 (f - e)) as [Hn|Hn].
  - destruct (Hshift Hn) as [Em Ee]. rewrite Em, Ee, Hm1.
    replace (e + (f - e)) with f by lia.
    assert (Hp : 2 ^ (u - e) = 2 ^ (f - e) * 2 ^ (u - f)).
    { rewrite <- pow2_split by lia. f_equal. lia. }
    pose proof (pow2_pos (f - e) ltac:(lia)) as Hp1.
    pose proof (pow2_pos (u - f) ltac:(lia)) as Hp2.
    split; [lia|]. split; [lia|]. split.
    { apply Z.div_pos; lia. }
    split.
    { apply Z.div_lt_upper_bound; [assumption|]. rewrite Hp in Hlt. nia. }
    split.
    { intros K' HK'. apply Z.div_le_upper_bound; [assumption|].
      rewrite Hp in HK'. nia. }
    intros Habs. lia.
  - destruct (Hkeep Hn) as (Em & Ee & Er). rewrite Em, Ee, Hm1.
    split; [lia|]. split; [lia|]. split; [assumption|].
    split; [assumption|]. split; [auto|]. intros _. exact Er.
Qed.

(** The rounding of [M * 2^E <= B * 2^u] to a double: the result is a
    zero or a finite double below [(B + 1) * 2^u], provided that the
    unit [2^u] is coarser than the spacing [2^c] of the doubles below
    [2^b]. *)
Lemma binary_round_aux_upper (s : bool) (M E B u b : Z) :
  0 < M -> 0 <= B ->
  let c := Z.max (b - prec) (3 - emax - prec) in
  E <= c -> c < u -> u <= 0 -> B + 1 <= 2 ^ (b - u) ->
  M <= B * 2 ^ (u - E) ->
  binary_round_aux prec emax s M E loc_Exact = S754_zero s \/
  exists m2 e2,
    binary_round_aux prec emax s M E loc_Exact = S754_finite s m2 e2 /\
    e2 <= c /\ Zpos m2 < (B + 1) * 2 ^ (u - e2).
Proof.
  intros HM HB c HE Hcu Hu HBb Hle.
  unfold binary_round_aux.
  pose proof (pow2_pos (u - E) ltac:(lia)) as HpE.
  assert (Hlt : M < (B + 1) * 2 ^ (u - E)) by nia.
  destruct (shr_fexp_upper M E (B + 1) u b loc_Exact
              ltac:(lia) ltac:(lia) HBb HE Hcu Hlt)
    as (He1 & He1c & Hm1 & _ & Hm1B & _).
  specialize (Hm1B B Hle).
  destruct (shr_fexp prec emax M E loc_Exact) as [mrs' e'].
  cbn [fst snd] in *.
  pose proof (round_nearest_even_bounds (shr_m mrs') (loc_of_shr_record mrs'))
    as Hr.
  set (m1 := round_nearest_even (shr_m mrs') (loc_of_shr_record mrs')) in *.
  pose proof (pow2_pos (u - e') ltac:(lia)) as Hpe.
  assert (Hp2 : 2 <= 2 ^ (u - e')).
  { change 2 with (2 ^ 1) at 1. apply Z.pow_le_mono_r; lia. }
  assert (Hlt1 : m1 < (B + 1) * 2 ^ (u - e')) by nia.
  destruct (shr_fexp_upper m1 e' (B + 1) u b loc_Exact
              ltac:(lia) ltac:(lia) HBb He1c Hcu Hlt1)
    as (He2 & He2c & Hm2 & Hm2B & _ & _).
  destruct (shr_fexp prec emax m1 e' loc_Exact) as [mrs'' e''].
  cbn [fst snd] in *.
  destruct (shr_m mrs'') as [|m2|m2] eqn:Em2.
  - left. reflexivity.
  - right. exists m2, e''.
    destruct (Z.leb_spec e'' (emax - prec)) as [_|Hbad].
    + split; [reflexivity|]. split; assumption.
    + exfalso. unfold emax, prec in Hbad. lia.
  - lia.
Qed.

Lemma iter_xO (m d : positive) :
  Zpos (Pos.iter xO m d) = Zpos m * 2 ^ Zpos d.
Proof.
  induction d as [|d IH] using Pos.peano_ind.
  - simpl. lia.
  - rewrite Pos.iter_succ, Pos2Z.inj_xO, IH, Pos2Z.inj_succ.
    rewrite Z.pow_succ_r by lia. lia.
Qed.

(** Aligning a mantissa to a smaller exponent keeps the value. *)
Lemma shl_align_spec (mx : positive) (ex ex' : Z) :
  snd (shl_align mx ex ex') = Z.min ex ex' /\
  Zpos (fst (shl_align mx ex ex'))
  = Zpos mx * 2 ^ (ex - snd (shl_align mx ex ex')).
Proof.
  unfold shl_align. destruct (ex' - ex) as [|d|d] eqn:E; cbn [fst snd].
  - split; [lia|]. rewrite Z.sub_diag. simpl. lia.
  - split; [lia|]. rewrite Z.sub_diag. simpl. lia.
  - split; [lia|]. rewrite iter_xO. f_equal. f_equal. lia.
Qed.

(** The doubles of [[0, 1]]: the zeros and the positive [m * 2^e] with
    [m <= 2^(-e)]. *)
Lemma unit_interval (q : spec_float) :
  valid_binary prec emax q = true ->
  SFleb (S754_zero false) q = true -> SFleb q one = true ->
  (exists s, q = S754_zero s) \/
  (exists m e, q = S754_finite false m e /\ e <= -52 /\ Zpos m <= 2 ^ (- e)).
Proof.
  intros Hv H0 H1. destruct q as [s|s| |s m e].
  - left. exists s. reflexivity.
  - destruct s; discriminate.
  - discriminate.
  - destruct s; [discriminate|]. right. exists m, e. split; [reflexivity|].
    unfold SFleb, SFcompare in H1.
    unfold valid_binary, bounded in Hv. apply andb_prop in Hv.
    destruct Hv as [Hc _].
    unfold canonical_mantissa in Hc. apply Z.eqb_eq in Hc.
    unfold fexp, SpecFloat.emin, float64.emax, float64.prec in Hc.
    pose proof (digits2_pos_bounds m) as [_ Hm].
    destruct (Z.compare_spec e (-52)) as [He|He|He].
    + subst e. split; [lia|].
      rewrite Pos.compare_cont_spec in H1.
      replace (2 ^ (- (-52))) with 4503599627370496
        by (vm_compute; reflexivity).
      destruct (Pos.compare_spec m 4503599627370496) as [Hm'|Hm'|Hm'];
        cbn [Pos.switch_Eq] in H1; try discriminate.
      * rewrite Hm'. apply Z.le_refl.
      * apply Z.lt_le_incl. exact Hm'.
    + split; [lia|].
      assert (2 ^ Zpos (digits2_pos m) <= 2 ^ (- e))
        by (apply Z.pow_le_mono_r; lia).
      lia.
    + discriminate.
Qed.

Lemma floor_scaled_upper (m : positive) (e K : Z) :
  e <= 0 -> Zpos m < (K + 1) * 2 ^ (- e) ->
  0 <= Z.shiftl (Zpos m) e <= K.
Proof.
  intros He Hm. rewrite Z.shiftl_div_pow2 by assumption.
  pose proof (pow2_pos (- e) ltac:(lia)) as Hp. split.
  - apply Z.div_pos; lia.
  - assert (Zpos m / 2 ^ (- e) < K + 1); [|lia].
    apply Z.div_lt_upper_bound; [assumption|]. lia.
Qed.

(** For [q] in [[0, 1]] the double [q * 100] is below 101. *)
Lemma mul_hundred_upper (q : spec_float) :
  valid_binary prec emax q = true ->
  SFleb (S754_zero false) q = true -> SFleb q one = true ->
  (exists s, SFmul prec emax q hundred = S754_zero s) \/
  exists m e,
    SFmul prec emax q hundred = S754_finite false m e /\
    e <= 0 /\ Zpos m < 101 * 2 ^ (- e).
Proof.
  intros Hv H0 H1.
  destruct (unit_interval q Hv H0 H1) as [[s ->] | (m & e & -> & He & Hm)].
  - left. exists (xorb s false). reflexivity.
  - unfold SFmul. cbn [xorb].
    assert (HM : Zpos (m * 7036874417766400)
                 <= 100 * 2 ^ (0 - (e + -46))).
    { rewrite Pos2Z.inj_mul.
      replace (0 - (e + -46)) with (- e + 46) by lia.
      rewrite pow2_split by lia.
      replace (2 ^ 46) with 70368744177664 by (vm_compute; reflexivity).
      pose proof (pow2_pos (- e) ltac:(lia)). nia. }
    assert (HB : 100 + 1 <= 2 ^ (7 - 0)) by (vm_compute; discriminate).
    destruct (binary_round_aux_upper false (Zpos (m * 7036874417766400))
                (e + -46) 100 0 7 ltac:(lia) ltac:(lia)
                ltac:(unfold float64.prec, float64.emax; lia)
                ltac:(unfold float64.prec, float64.emax; lia)
                ltac:(lia) HB HM)
      as [Hz | (m2 & e2 & Hr & He2 & Hm2)].
    + left. exists false. exact Hz.
    + right. exists m2, e2. split; [exact Hr|].
      unfold float64.prec, float64.emax in He2. split; [lia|].
      replace (- e2) with (0 - e2) by lia. exact Hm2.
Qed.

(** For [q] in [[0, 1]] the double [1 - q] is below 33/32. *)
Lemma sub_one_upper (q : spec_float) :
  valid_binary prec emax q = true ->
  SFleb (S754_zero false) q = true -> SFleb q one = true ->
  SFsub prec emax one q = S754_zero false \/
  exists m e,
    SFsub prec emax one q = S754_finite false m e /\
    e <= -52 /\ Zpos m < 33 * 2 ^ (-5 - e).
Proof.
  intros Hv H0 H1.
  destruct (unit_interval q Hv H0 H1) as [[s ->] | (m & e & -> & He & Hm)].
  - right. exists 4503599627370496%positive, (-52).
    split; [reflexivity|]. split; [lia|]. vm_compute. reflexivity.
  - unfold SFsub. cbn [cond_Zopp].
    replace (Z.min (-52) e) with e by lia.
    destruct (shl_align_spec 4503599627370496 (-52) e) as [Ea1 Ea2].
    destruct (shl_align_spec m e e) as [Eb1 Eb2].
    rewrite Ea1 in Ea2. rewrite Eb1 in Eb2.
    replace (Z.min (-52) e) with e in Ea2 by lia.
    replace (Z.min e e) with e in Eb2 by lia.
    rewrite Ea2, Eb2. rewrite Z.sub_diag.
    replace (2 ^ 0) with 1 by reflexivity. rewrite Z.mul_1_r.
    assert (Hone : 4503599627370496 * 2 ^ (-52 - e) = 2 ^ (- e)).
    { replace (- e) with (52 + (-52 - e)) by lia.
      rewrite pow2_split by lia.
      replace (2 ^ 52) with 4503599627370496 by (vm_compute; reflexivity).
      reflexivity. }
    rewrite Hone.
    destruct (2 ^ (- e) - Zpos m) as [|D|D] eqn:ED; [left; reflexivity| |lia].
    unfold binary_normalize, binary_round.
    destruct (shl_align_spec D e (fexp prec emax (Zpos (digits2_pos D) + e)))
      as [Ez1 Ez2].
    destruct (shl_align D e (fexp prec emax (Zpos (digits2_pos D) + e)))
      as [mz ez]. cbn [fst snd] in Ez1, Ez2.
    assert (Hez : ez <= e) by lia.
    assert (HM : Zpos mz <= 32 * 2 ^ (-5 - ez)).
    { rewrite Ez2.
      replace (32 * 2 ^ (-5 - ez)) with (2 ^ (- e) * 2 ^ (e - ez)).
      - pose proof (pow2_pos (e - ez) ltac:(lia)).
        pose proof (pow2_pos (- e) ltac:(lia)). nia.
      - rewrite <- pow2_split by lia.
        replace 32 with (2 ^ 5) by reflexivity.
        rewrite <- pow2_split by lia. f_equal. lia. }
    assert (HB : 32 + 1 <= 2 ^ (1 - -5)) by (vm_compute; discriminate).
    destruct (binary_round_aux_upper false (Zpos mz) ez 32 (-5) 1
                ltac:(lia) ltac:(lia)
                ltac:(unfold float64.prec, float64.emax; lia)
                ltac:(unfold float64.prec, float64.emax; lia)
                ltac:(lia) HB HM)
      as [Hz | (m2 & e2 & Hr & He2 & Hm2)].
    + left. exact Hz.
    + right. exists m2, e2. split; [exact Hr|].
      unfold float64.prec, float64.emax in He2. split; [lia|]. exact Hm2.
Qed.

(** For [q] in [[0, 1]] the double [(1 - q) * 10] is below 331/32. *)
Lemma mul_ten_upper (q : spec_float) :
  valid_binary prec emax q = true ->
  SFleb (S754_zero false) q = true -> SFleb q one = true ->
  (exists s, SFmul prec emax (SFsub prec emax one q) ten = S754_zero s) \/
  exists m e,
    SFmul prec emax (SFsub prec emax one q) ten = S754_finite false m e /\
    e <= -5 /\ Zpos m < 331 * 2 ^ (-5 - e).
Proof.
  intros Hv H0 H1.
  destruct (sub_one_upper q Hv H0 H1) as [-> | (m & e & -> & He & Hm)].
  - left. exists false. reflexivity.
  - unfold SFmul. cbn [xorb].
    assert (HM : Zpos (m * 5629499534213120)
                 <= 330 * 2 ^ (-5 - (e + -49))).
    { rewrite Pos2Z.inj_mul.
      replace (-5 - (e + -49)) with ((-5 - e) + 49) by lia.
      rewrite pow2_split by lia.
      replace (2 ^ 49) with 562949953421312 by (vm_compute; reflexivity).
      pose proof (pow2_pos (-5 - e) ltac:(lia)). nia. }
    assert (HB : 330 + 1 <= 2 ^ (4 - -5)) by (vm_compute; discriminate).
    destruct (binary_round_aux_upper false (Zpos (m * 5629499534213120))
                (e + -49) 330 (-5) 4 ltac:(lia) ltac:(lia)
                ltac:(unfold float64.prec, float64.emax; lia)
                ltac:(unfold float64.prec, float64.emax; lia)
                ltac:(lia) HB HM)
      as [Hz | (m2 & e2 & Hr & He2 & Hm2)].
    + left. exists false. exact Hz.
    + right. exists m2, e2. split; [exact Hr|].
      unfold float64.prec, float64.emax in He2. split; [lia|]. exact Hm2.
Qed.

(** A value below 331/32 rounds to at most 10. *)
Lemma round_half_even_upper (m : positive) (e : Z) :
  e <= -5 -> Zpos m < 331 * 2 ^ (-5 - e) ->
  0 <= float64.round_half_even m e <= 10.
Proof.
  intros He Hm. unfold float64.round_half_even.
  destruct (Z.leb_spec 0 e) as [|_]; [lia|].
  assert (Hd : 2 ^ (- e) = 32 * 2 ^ (-5 - e)).
  { replace (- e) with (5 + (-5 - e)) by lia.
    rewrite pow2_split by lia. reflexivity. }
  pose proof (pow2_pos (-5 - e) ltac:(lia)) as Ht.
  set (t := 2 ^ (-5 - e)) in *. rewrite Hd.
  pose proof (Z.div_mod (Zpos m) (32 * t) ltac:(lia)) as Edm.
  pose proof (Z.mod_pos_bound (Zpos m) (32 * t) ltac:(lia)) as Hr.
  assert (Hq0 : 0 <= Zpos m / (32 * t)) by (apply Z.div_pos; lia).
  assert (Hq : Zpos m / (32 * t) <= 10).
  { assert (Zpos m / (32 * t) < 11); [|lia].
    apply Z.div_lt_upper_bound; lia. }
  set (q := Zpos m / (32 * t)) in *.
  set (r := Zpos m mod (32 * t)) in *.
  assert (Hlt : q = 10 -> 2 * r < 32 * t) by (intros ->; lia).
  destruct (Z.compare_spec (2 * r) (32 * t)) as [E|E|E].
  - destruct (Z.even q); lia.
  - lia.
  - lia.
Qed.

End UnitInterval.

(** ** The options of the encoder *)

Section Encoder.

Import ImageCreator.

Lemma of_int_100 :
  float64.of_int 100 = S754_finite false 7036874417766400 (-46).
Proof. vm_compute. reflexivity. Qed.

Lemma of_int_10 :
  float64.of_int 10 = S754_finite false 5629499534213120 (-49).
Proof. vm_compute. reflexivity. Qed.

Lemma jpeg_quality_range (q : spec_float) :
  float64.is_double q ->
  float64.le (float64.of_int 0) q = true ->
  float64.le q (float64.of_int 1) = true ->
  exists k,
    float64.int (float64.mul q (float64.of_int 100)) = Ok k /\
    0 <= k <= 100.
Proof.
  unfold float64.is_double, float64.le, float64.mul.
  rewrite of_int_0, of_int_1, of_int_100. intros Hv H0 H1.
  destruct (mul_hundred_upper q Hv H0 H1)
    as [[s ->] | (m & e & -> & He & Hm)].
  - exists 0. split; [reflexivity|lia].
  - exists (Z.shiftl (Zpos m) e). split; [reflexivity|].
    apply floor_scaled_upper; assumption.
Qed.

Lemma png_compress_range (q : spec_float) :
  float64.is_double q ->
  float64.le (float64.of_int 0) q = true ->
  float64.le q (float64.of_int 1) = true ->
  exists k,
    float64.round
      (float64.mul (float64.sub (float64.of_int 1) q) (float64.of_int 10))
    = Ok k /\
    0 <= k <= 10.
Proof.
  unfold float64.is_double, float64.le, float64.mul, float64.sub.
  rewrite of_int_0, of_int_1, of_int_10. intros Hv H0 H1.
  destruct (mul_ten_upper q Hv H0 H1)
    as [[s ->] | (m & e & -> & He & Hm)].
  - exists 0. split; [reflexivity|lia].
  - exists (float64.round_half_even m e). split; [reflexivity|].
    apply round_half_even_upper; assumption.
Qed.

(** [int] takes the integer part and [round] the nearest integer,
    the even one at a tie. *)
Lemma floor_scaled_spec (m : positive) (e : Z) :
  (0 <= e -> float64.floor_scaled m e = Zpos m * 2 ^ e) /\
  (e <= 0 ->
   float64.floor_scaled m e * 2 ^ (- e) <= Zpos m
   < (float64.floor_scaled m e + 1) * 2 ^ (- e)).
Proof.
  unfold float64.floor_scaled. split; intros He.
  - apply Z.shiftl_mul_pow2. assumption.
  - rewrite Z.shiftl_div_pow2 by assumption.
    pose proof (pow2_pos (- e) ltac:(lia)) as Hp.
    pose proof (Z.div_mod (Zpos m) (2 ^ (- e)) ltac:(lia)).
    pose proof (Z.mod_pos_bound (Zpos m) (2 ^ (- e)) Hp). nia.
Qed.

Lemma round_half_even_spec (m : positive) (e : Z) :
  e < 0 ->
  let k := float64.round_half_even m e in
  Z.abs (2 * Zpos m - 2 * k * 2 ^ (- e)) <= 2 ^ (- e) /\
  (Z.abs (2 * Zpos m - 2 * k * 2 ^ (- e)) = 2 ^ (- e) -> Z.even k = true).
Proof.
  intros He k. subst k. unfold float64.round_half_even.
  destruct (Z.leb_spec 0 e) as [|_]; [lia|].
  pose proof (pow2_pos (- e) ltac:(lia)) as Hp.
  set (d := 2 ^ (- e)) in *.
  pose proof (Z.div_mod (Zpos m) d ltac:(lia)) as Edm.
  pose proof (Z.mod_pos_bound (Zpos m) d Hp) as Hr.
  set (q := Zpos m / d) in *. set (r := Zpos m mod d) in *.
  destruct (Z.compare_spec (2 * r) d) as [E|E|E].
  - destruct (Z.even q) eqn:Eq.
    + split; [nia|]. intros _. exact Eq.
    + split; [nia|]. intros _.
      rewrite Z.even_add, Eq. reflexivity.
  - split; nia.
  - split; nia.
Qed.

Lemma save_options_quality (a b : t) (format : string) :
  image_quality a = image_quality b ->
  save_options a format = save_options b format.
Proof. intros E. unfold save_options. rewrite E. reflexivity. Qed.

(** C7, as the document states it, fails for the JPEG quality: for the
    quality 0.9375, which is in [[0, 1]], [imageQuality * 100] is the
    double 93.75; [create] passes [int] of it, 93, to the encoder, and
    not [round] of it, 94. *)
Lemma jpeg_quality_not_rounded :
  float64.le (float64.of_int 0) (float64.dyadic 15 (-4)) = true /\
  float64.le (float64.dyadic 15 (-4)) (float64.of_int 1) = true /\
  image_quality (script_creator "jpg" (float64.dyadic 15 (-4)))
  = float64.dyadic 15 (-4) /\
  save_options (script_creator "jpg" (float64.dyadic 15 (-4))) "jpg"
  = Ok (PIL.JPEG 93) /\
  float64.round
    (float64.mul (float64.dyadic 15 (-4)) (float64.of_int 100))
  = Ok 94.
Proof. repeat split; vm_compute; reflexivity. Qed.

(** C7 (amended): for every [image_quality] in [[0, 1]], the option
    passed to the encoder when a tile is written is
    [int(image_quality * 100)], the integer part of the product, an
    integer in [[0, 100]], for the format "jpg", and
    [round((1 - image_quality) * 10)], an integer in [[0, 10]], for the
    other format; every tile file of [create] is written with that
    option. *)
Theorem encoder_options (self : t) :
  float64.is_double (image_quality self) ->
  float64.le (float64.of_int 0) (image_quality self) = true ->
  float64.le (image_quality self) (float64.of_int 1) = true ->
  (exists k,
      float64.int
        (float64.mul (image_quality self) (float64.of_int 100)) = Ok k /\
      0 <= k <= 100 /\
      save_options self "jpg" = Ok (PIL.JPEG k)) /\
  (exists k,
      float64.round
        (float64.mul (float64.sub (float64.of_int 1) (image_quality self))
           (float64.of_int 10)) = Ok k /\
      0 <= k <= 10 /\
      forall format, format <> "jpg" ->
        save_options self format = Ok (PIL.default_format k)) /\
  (forall (self' : t) (source : PIL.Image) (destination : string)
          (levels : list (PIL.Image * list tile_file))
          (d : DeepZoomImageDescriptor.t),
      create self source destination = Ok (self', levels, d) ->
      Forall
        (fun out =>
           Forall (fun file =>
                     save_options self (tile_format self)
                     = Ok (file_options file))
                  (snd out))
        levels).
Proof.
  intros Hv H0 H1. split; [|split].
  - destruct (jpeg_quality_range _ Hv H0 H1) as (k & Ek & Hk).
    exists k. split; [exact Ek|]. split; [exact Hk|].
    unfold save_options. rewrite String.eqb_refl, Ek. reflexivity.
  - destruct (png_compress_range _ Hv H0 H1) as (k & Ek & Hk).
    exists k. split; [exact Ek|]. split; [exact Hk|].
    intros format Hf. unfold save_options.
    destruct (String.eqb_spec format "jpg"); [contradiction|].
    rewrite Ek. reflexivity.
  - intros self' source destination levels d Hc.
    destruct (create_inv _ _ _ _ _ _ Hc)
      as (_ & _ & _ & Hfmt & Him & Hd & Hq & n & Hn & Hlevels).
    assert (Hin : Forall (fun level => 0 <= level < n) (range n))
      by (apply Forall_forall; intros level; apply in_range).
    clear Hc. set (ls := range n) in *. clearbody ls. revert Hin.
    induction Hlevels as [|level out ls outs Hw _ IH]; intros Hin;
      constructor.
    + inversion Hin as [|? ? Hl _]; subst.
      destruct (write_level_inv self' d source n level out Hd Him Hn Hl Hw)
        as [_ Hfiles].
      eapply Forall_impl; [|exact Hfiles].
      intros file (_ & _ & Ho).
      rewrite <- Hfmt, <- Ho. apply save_options_quality. congruence.
    + apply IH. inversion Hin; subst; assumption.
Qed.

Lemma encoder_options_witness :
  exists k,
    float64.int
      (float64.mul (image_quality (script_creator "jpg" default_quality))
         (float64.of_int 100)) = Ok k /\
    0 <= k <= 100 /\
    save_options (script_creator "jpg" default_quality) "jpg"
    = Ok (PIL.JPEG k).
Proof.
  apply (encoder_options (script_creator "jpg" default_quality));
    vm_compute; reflexivity.
Defined.

End Encoder.

(** * Further properties of the geometry *)

Section Pyramid.

Import DeepZoomImageDescriptor.

Lemma cdiv_cdiv (x a b : Z) :
  0 < a -> 0 < b -> cdiv (cdiv x a) b = cdiv x (a * b).
Proof.
  intros Ha Hb. unfold cdiv. rewrite Z.opp_involutive.
  rewrite Zdiv.Zdiv_Zdiv by lia. reflexivity.
Qed.

Lemma cdiv_le_mono (x y b : Z) : 0 < b -> x <= y -> cdiv x b <= cdiv y b.
Proof.
  intros Hb Hxy. unfold cdiv.
  assert (- y / b <= - x / b) by (apply Z.div_le_mono; lia). lia.
Qed.

Lemma cdiv_small (x b : Z) : 1 <= x <= b -> cdiv x b = 1.
Proof.
  intros H. pose proof (cdiv_pos_bounds x b ltac:(lia)). nia.
Qed.

Lemma cdiv_le_self (x b : Z) : 0 <= x -> 0 < b -> cdiv x b <= x.
Proof.
  intros Hx Hb. pose proof (cdiv_pos_bounds x b Hb). nia.
Qed.

Lemma cdiv_nonneg (x b : Z) : 0 <= x -> 0 < b -> 0 <= cdiv x b.
Proof.
  intros Hx Hb. pose proof (cdiv_pos_bounds x b Hb). nia.
Qed.

Lemma shrink_succ (n level : Z) :
  level + 1 < n -> shrink n level = shrink n (level + 1) * 2.
Proof.
  intros H. unfold shrink.
  replace (n - 1 - level) with (Z.succ (n - 1 - (level + 1))) by lia.
  rewrite Z.pow_succ_r by lia. lia.
Qed.

Lemma pow_half_pos (k : Z) : (0 < math.pow_half k)%Q.
Proof. unfold math.pow_half. apply Qpower_0_lt. reflexivity. Qed.

Lemma pow_half_lt (j k : Z) :
  0 <= j < k -> (math.pow_half k < math.pow_half j)%Q.
Proof.
  intros [Hj Hjk]. rewrite !pow_half_inv by lia.
  assert (Hpos : forall i, 0 <= i -> (0 < inject_Z (2 ^ i))%Q).
  { intros i Hi. change 0%Q with (inject_Z 0). rewrite <- Zlt_Qlt.
    apply Z.pow_pos_nonneg; lia. }
  apply -> Qinv_lt_contravar; [|apply Hpos; lia | apply Hpos; lia].
  rewrite <- Zlt_Qlt. apply Z.pow_lt_mono_r; lia.
Qed.

Lemma pow_half_le_1 (k : Z) : 0 <= k -> (math.pow_half k <= 1)%Q.
Proof.
  intros Hk. destruct (Z.eq_dec k 0) as [-> | Hk0].
  - apply Qle_refl.
  - apply Qlt_le_weak. apply (pow_half_lt 0 k). lia.
Qed.

(** For sides below 2^29, the scale of a level lies in (0, 1]; it is
    [0.5^(num_levels - 1)] at level 0, and a finer level has a strictly
    larger scale. *)
Theorem scale_strictly_increasing (self : t) (n level finer : Z) :
  small_sides self ->
  num_levels self = Ok n -> 0 <= level < n -> level < finer < n ->
  exists s s' s0,
    get_scale self level = Ok s /\ get_scale self finer = Ok s' /\
    get_scale self 0 = Ok s0 /\
    (0 < s)%Q /\ (s < s')%Q /\ (s' <= 1)%Q /\
    s0 = Qpower (1 # 2) (n - 1).
Proof.
  intros _ Hn Hl Hf.
  exists (math.pow_half (n - 1 - level)), (math.pow_half (n - 1 - finer)),
    (math.pow_half (n - 1 - 0)).
  rewrite (get_scale_ok self n level Hn Hl).
  rewrite (get_scale_ok self n finer Hn) by lia.
  rewrite (get_scale_ok self n 0 Hn) by lia.
  repeat split.
  - apply pow_half_pos.
  - apply pow_half_lt. lia.
  - apply pow_half_le_1. lia.
  - rewrite Z.sub_0_r. reflexivity.
Qed.

Lemma scale_strictly_increasing_witness :
  exists s s' s0,
    get_scale xga_1024_768 3 = Ok s /\ get_scale xga_1024_768 7 = Ok s' /\
    get_scale xga_1024_768 0 = Ok s0 /\
    (0 < s)%Q /\ (s < s')%Q /\ (s' <= 1)%Q /\
    s0 = Qpower (1 # 2) (11 - 1).
Proof.
  apply (scale_strictly_increasing xga_1024_768 11 3 7).
  - split; vm_compute; reflexivity.
  - vm_compute; reflexivity.
  - lia.
  - lia.
Defined.

(** At level 0 the divisor of the sizes is at least the larger side. *)
Lemma coarsest_shrink (self : t) (n : Z) :
  num_levels self = Ok n ->
  Z.max (width self) (height self) <= shrink n 0.
Proof.
  intros Hn. destruct (num_levels_Ok self n Hn) as (Hmax & En & Hn1).
  unfold shrink.
  replace (n - 1 - 0) with
    (Z.log2_up (Z.max (width self) (height self))) by lia.
  apply Z.log2_up_le_pow2; lia.
Qed.

(** The coarsest level of the pyramid of an image with [width >= 1] and
    [height >= 1] and sides below 2^29 is a single pixel. *)
Theorem coarsest_level_one_pixel (self : t) :
  1 <= width self -> 1 <= height self -> small_sides self ->
  get_dimensions self 0 = Ok (1, 1).
Proof.
  intros Hw Hh _.
  destruct (num_levels self) as [n|e] eqn:Hn.
  2:{ rewrite num_levels_eq in Hn.
      destruct (Z.leb_spec (Z.max (width self) (height self)) 0);
        [lia|discriminate]. }
  destruct (num_levels_Ok self n Hn) as (_ & _ & Hn1).
  pose proof (coarsest_shrink self n Hn) as Hle.
  rewrite (get_dimensions_ok self n 0 Hn) by lia.
  rewrite !cdiv_small by lia. reflexivity.
Qed.

Lemma coarsest_level_one_pixel_witness :
  get_dimensions xga_1024_768 0 = Ok (1, 1).
Proof.
  apply coarsest_level_one_pixel;
    [vm_compute; discriminate|vm_compute; discriminate|].
  split; vm_compute; reflexivity.
Defined.

(** Each level is the next finer one halved, the halves rounded up:
    taking the ceiling of the scaled size at every level gives the same
    sizes as halving level by level. *)
Theorem dimensions_halved (self : t) (n level w' h' : Z) :
  num_levels self = Ok n -> 0 <= level -> level + 1 < n ->
  get_dimensions self (level + 1) = Ok (w', h') ->
  get_dimensions self level = Ok (cdiv w' 2, cdiv h' 2).
Proof.
  intros Hn Hl Hl1 Hd.
  rewrite (get_dimensions_ok self n (level + 1) Hn) in Hd by lia.
  injection Hd as <- <-.
  rewrite (get_dimensions_ok self n level Hn) by lia.
  pose proof (shrink_pos n (level + 1) Hl1).
  rewrite !cdiv_cdiv by lia. rewrite <- shrink_succ by assumption.
  reflexivity.
Qed.

Lemma dimensions_halved_witness :
  get_dimensions xga_1024_768 6 = Ok (cdiv 128 2, cdiv 96 2).
Proof.
  apply (dimensions_halved xga_1024_768 11 6 128 96).
  - vm_compute; reflexivity.
  - lia.
  - lia.
  - vm_compute; reflexivity.
Defined.

(** The box of a tile, under [0 <= tile_overlap <= tile_size]: the
    cell of the tile, widened by the overlap on each side and clipped to
    the bitmap of the level. *)
Lemma tile_box_clipped_at (self : t) (n level column row : Z) :
  num_levels self = Ok n -> 0 <= level < n ->
  0 <= tile_overlap self <= tile_size self ->
  0 <= column -> 0 <= row ->
  get_tile_bounds self level column row =
  Ok (Z.max 0 (column * tile_size self - tile_overlap self),
      Z.max 0 (row * tile_size self - tile_overlap self),
      Z.min (cdiv (width self) (shrink n level))
            ((column + 1) * tile_size self + tile_overlap self),
      Z.min (cdiv (height self) (shrink n level))
            ((row + 1) * tile_size self + tile_overlap self)).
Proof.
  intros Hn Hl Hov Hc Hr. unfold get_tile_bounds.
  rewrite (check_level_ok self n level Hn Hl).
  rewrite (get_dimensions_ok self n level Hn Hl). cbn [bind].
  do 2 f_equal; [f_equal; [f_equal|]|];
    [destruct (Z.eqb_spec column 0) | destruct (Z.eqb_spec row 0)
     | destruct (Z.eqb_spec column 0) | destruct (Z.eqb_spec row 0)]; nia.
Qed.

(** For sides below 2^29 and a tile size below 2^53, the grid of a
    level is the smallest grid of tiles that covers the bitmap of the
    level; it has at least one column and one row. *)
Theorem grid_covers_level (self : t) (n level : Z) :
  small_sides self -> small_tiles self ->
  num_levels self = Ok n -> 0 <= level < n ->
  1 <= width self -> 1 <= height self -> 1 <= tile_size self ->
  exists level_width level_height columns rows,
    get_dimensions self level = Ok (level_width, level_height) /\
    get_num_tiles self level = Ok (columns, rows) /\
    1 <= level_width /\ 1 <= level_height /\
    1 <= columns /\ 1 <= rows /\
    (columns - 1) * tile_size self < level_width <= columns * tile_size self /\
    (rows - 1) * tile_size self < level_height <= rows * tile_size self.
Proof.
  intros _ _ Hn Hl Hw Hh Hts.
  pose proof (shrink_pos n level ltac:(lia)) as Hs.
  pose proof (cdiv_pos_ge1 (width self) _ Hs Hw) as Hlw.
  pose proof (cdiv_pos_ge1 (height self) _ Hs Hh) as Hlh.
  do 4 eexists.
  split; [apply (get_dimensions_ok self n level Hn Hl)|].
  split; [apply (get_num_tiles_ok self n level Hn Hl); lia|].
  set (lw := cdiv (width self) (shrink n level)) in *.
  set (lh := cdiv (height self) (shrink n level)) in *.
  pose proof (cdiv_pos_bounds lw (tile_size self) ltac:(lia)).
  pose proof (cdiv_pos_bounds lh (tile_size self) ltac:(lia)).
  pose proof (cdiv_pos_ge1 lw (tile_size self) ltac:(lia) Hlw).
  pose proof (cdiv_pos_ge1 lh (tile_size self) ltac:(lia) Hlh).
  repeat split; try assumption; nia.
Qed.

Lemma grid_covers_level_witness :
  exists level_width level_height columns rows,
    get_dimensions xga_1024_768 10 = Ok (level_width, level_height) /\
    get_num_tiles xga_1024_768 10 = Ok (columns, rows) /\
    1 <= level_width /\ 1 <= level_height /\
    1 <= columns /\ 1 <= rows /\
    (columns - 1) * tile_size xga_1024_768 < level_width
      <= columns * tile_size xga_1024_768 /\
    (rows - 1) * tile_size xga_1024_768 < level_height
      <= rows * tile_size xga_1024_768.
Proof.
  apply (grid_covers_level xga_1024_768 11 10);
    solve [ split; vm_compute; reflexivity
          | vm_compute; reflexivity | vm_compute; discriminate | lia ].
Defined.

(** Under [0 <= tile_overlap <= tile_size] the box of the tile
    [(column, row)] is its cell
    [[column * tile_size, (column + 1) * tile_size)] x
    [[row * tile_size, (row + 1) * tile_size)],
    widened by the overlap on its four sides and clipped to the bitmap
    of the level. *)
Theorem tile_box_clipped (self : t) (n level column row : Z)
    (level_width level_height : Z) :
  num_levels self = Ok n -> 0 <= level < n ->
  0 <= tile_overlap self <= tile_size self ->
  0 <= column -> 0 <= row ->
  get_dimensions self level = Ok (level_width, level_height) ->
  get_tile_bounds self level column row =
  Ok (Z.max 0 (column * tile_size self - tile_overlap self),
      Z.max 0 (row * tile_size self - tile_overlap self),
      Z.min level_width ((column + 1) * tile_size self + tile_overlap self),
      Z.min level_height ((row + 1) * tile_size self + tile_overlap self)).
Proof.
  intros Hn Hl Hov Hc Hr Hd.
  rewrite (get_dimensions_ok self n level Hn Hl) in Hd.
  injection Hd as <- <-.
  apply tile_box_clipped_at; assumption.
Qed.

Lemma tile_box_clipped_witness :
  get_tile_bounds xga_1024_768 10 4 3 =
  Ok (Z.max 0 (4 * tile_size xga_1024_768 - tile_overlap xga_1024_768),
      Z.max 0 (3 * tile_size xga_1024_768 - tile_overlap xga_1024_768),
      Z.min 1024 ((4 + 1) * tile_size xga_1024_768
                  + tile_overlap xga_1024_768),
      Z.min 768 ((3 + 1) * tile_size xga_1024_768
                 + tile_overlap xga_1024_768)).
Proof.
  apply (tile_box_clipped xga_1024_768 11 10 4 3 1024 768);
    solve [vm_compute; reflexivity | vm_compute; split; discriminate | lia].
Defined.

(** The tiles of a level cover its bitmap: for sides below 2^29, with
    [1 <= tile_size < 2^53] and [tile_overlap >= 0], the pixel [(x, y)]
    of the level lies in the box of the tile
    [(x / tile_size, y / tile_size)], which is a tile of the grid. *)
Theorem tiles_cover_level (self : t) (n level x y : Z)
    (level_width level_height : Z) :
  small_sides self -> small_tiles self ->
  num_levels self = Ok n -> 0 <= level < n ->
  1 <= tile_size self -> 0 <= tile_overlap self ->
  get_dimensions self level = Ok (level_width, level_height) ->
  0 <= x < level_width -> 0 <= y < level_height ->
  valid_tile self level (x / tile_size self) (y / tile_size self) /\
  exists x1 y1 x2 y2,
    get_tile_bounds self level (x / tile_size self) (y / tile_size self)
    = Ok (x1, y1, x2, y2) /\
    x1 <= x < x2 /\ y1 <= y < y2.
Proof.
  intros _ _ Hn Hl Hts Hov Hd Hx Hy.
  pose proof Hd as Hd'.
  rewrite (get_dimensions_ok self n level Hn Hl) in Hd'.
  injection Hd' as Ew Eh.
  set (ts := tile_size self) in *.
  pose proof (Z.div_mod x ts ltac:(lia)) as Ex.
  pose proof (Z.mod_pos_bound x ts ltac:(lia)) as Bx.
  pose proof (Z.div_mod y ts ltac:(lia)) as Ey.
  pose proof (Z.mod_pos_bound y ts ltac:(lia)) as By.
  assert (Hc0 : 0 <= x / ts) by (apply Z.div_pos; lia).
  assert (Hr0 : 0 <= y / ts) by (apply Z.div_pos; lia).
  pose proof (cdiv_pos_bounds level_width ts ltac:(lia)) as Bw.
  pose proof (cdiv_pos_bounds level_height ts ltac:(lia)) as Bh.
  split.
  - exists n, (cdiv level_width ts), (cdiv level_height ts).
    split; [exact Hn|]. split; [exact Hl|]. split.
    + rewrite (get_num_tiles_ok self n level Hn Hl) by (fold ts; lia).
      rewrite Ew, Eh. reflexivity.
    + split; split; try assumption; nia.
  - unfold get_tile_bounds.
    rewrite (check_level_ok self n level Hn Hl), Hd. cbn [bind].
    fold ts. do 4 eexists. split; [reflexivity|].
    destruct (Z.eqb_spec (x / ts) 0) as [E|E];
      destruct (Z.eqb_spec (y / ts) 0) as [E'|E']; nia.
Qed.

Lemma tiles_cover_level_witness :
  valid_tile xga_1024_768 10 (600 / tile_size xga_1024_768)
    (767 / tile_size xga_1024_768) /\
  exists x1 y1 x2 y2,
    get_tile_bounds xga_1024_768 10 (600 / tile_size xga_1024_768)
      (767 / tile_size xga_1024_768)
    = Ok (x1, y1, x2, y2) /\
    x1 <= 600 < x2 /\ y1 <= 767 < y2.
Proof.
  apply (tiles_cover_level xga_1024_768 11 10 600 767 1024 768);
    solve [ split; vm_compute; reflexivity
          | vm_compute; reflexivity | vm_compute; discriminate | lia ].
Defined.

End Pyramid.

(** * Further properties of the creator *)

Section TilePipeline.

Import ImageCreator.

Lemma NoDup_map_injective {A B : Type} (f : A -> B) (l : list A) :
  (forall a b, f a = f b -> a = b) -> NoDup l -> NoDup (map f l).
Proof.
  intros Hf Hl. induction Hl as [|a l Ha Hl IH]; [constructor|].
  cbn [map]. constructor; [|exact IH].
  intros H. apply in_map_iff in H. destruct H as (b & E & Hb).
  apply Hf in E. subst b. contradiction.
Qed.

Lemma range_NoDup (n : Z) : NoDup (range n).
Proof.
  unfold range. apply NoDup_map_injective; [|apply seq_NoDup].
  intros a b H. lia.
Qed.

Lemma range_length (n : Z) : Z.of_nat (List.length (range n)) = Z.max 0 n.
Proof. unfold range. rewrite length_map, length_seq. lia. Qed.

Lemma range_nonpos (n : Z) : n <= 0 -> range n = [].
Proof.
  intros H. unfold range. replace (Z.to_nat n) with 0%nat by lia.
  reflexivity.
Qed.

(** The pairs that the double loop of [tiles] yields. *)
Lemma grid_pairs_spec (columns rows : Z) :
  let l := flat_map (fun column => map (fun row => (column, row))
                                       (range rows)) (range columns) in
  NoDup l /\
  (forall column row,
      In (column, row) l <-> 0 <= column < columns /\ 0 <= row < rows) /\
  Z.of_nat (List.length l) = Z.max 0 columns * Z.max 0 rows.
Proof.
  intros l. subst l.
  assert (Hin : forall (cs : list Z) (column row : Z),
             In (column, row)
                (flat_map (fun c => map (fun r => (c, r)) (range rows)) cs)
             <-> In column cs /\ 0 <= row < rows).
  { intros cs column row. rewrite in_flat_map. split.
    - intros (c & Hc & Hr). apply in_map_iff in Hr.
      destruct Hr as (r & E & Hr). injection E as <- <-.
      split; [assumption|]. apply in_range. assumption.
    - intros [Hc Hr]. exists column. split; [assumption|].
      apply in_map_iff. exists row. split; [reflexivity|].
      apply in_range. assumption. }
  split; [|split].
  - pose proof (range_NoDup columns) as Hnd.
    induction Hnd as [|c cs Hc Hnd IH]; [constructor|].
    cbn [flat_map]. apply NoDup_app.
    + apply NoDup_map_injective; [|apply range_NoDup].
      intros a b H. congruence.
    + exact IH.
    + intros [c' r'] H1 H2. apply in_map_iff in H1.
      destruct H1 as (r & E & _). injection E as <- <-.
      apply Hin in H2. apply Hc. tauto.
  - intros column row. rewrite Hin, in_range. tauto.
  - rewrite <- (range_length columns), <- (range_length rows).
    generalize (range columns). intros cs.
    induction cs as [|c cs IH]; [reflexivity|].
    cbn [flat_map]. rewrite length_app, length_map. cbn [List.length]. lia.
Qed.

Lemma tiles_unfold (self : t) (d : DeepZoomImageDescriptor.t)
    (level columns rows : Z) :
  descriptor self = Some d ->
  DeepZoomImageDescriptor.get_num_tiles d level = Ok (columns, rows) ->
  tiles self level
  = Ok (flat_map (fun column => map (fun row => (column, row))
                                    (range rows)) (range columns)).
Proof.
  intros Hd Ht. unfold tiles. rewrite Hd. cbn [bind getattr].
  rewrite Ht. reflexivity.
Qed.

(** [tiles level] yields every pair [(column, row)] of the grid of the
    level exactly once, and nothing else. *)
Theorem tiles_enumerate_grid (self : t) (d : DeepZoomImageDescriptor.t)
    (level columns rows : Z) :
  descriptor self = Some d ->
  DeepZoomImageDescriptor.get_num_tiles d level = Ok (columns, rows) ->
  exists coordinates,
    tiles self level = Ok coordinates /\
    NoDup coordinates /\
    (forall column row,
        In (column, row) coordinates <->
        0 <= column < columns /\ 0 <= row < rows) /\
    Z.of_nat (List.length coordinates) = Z.max 0 columns * Z.max 0 rows.
Proof.
  intros Hd Ht. eexists. split.
  - exact (tiles_unfold self d level columns rows Hd Ht).
  - apply grid_pairs_spec.
Qed.

Lemma tiles_enumerate_grid_witness :
  exists coordinates,
    tiles poster_creator 10 = Ok coordinates /\
    NoDup coordinates /\
    (forall column row,
        In (column, row) coordinates <->
        0 <= column < 3 /\ 0 <= row < 2) /\
    Z.of_nat (List.length coordinates) = Z.max 0 3 * Z.max 0 2.
Proof.
  apply (tiles_enumerate_grid poster_creator poster_descriptor 10 3 2);
    vm_compute; reflexivity.
Defined.

Lemma write_tile_inv (self : t) (level_image : PIL.Image) (level : Z)
    (column row : Z) (file : tile_file) :
  write_tile self level_image level (column, row) = Ok file ->
  exists d box options,
    descriptor self = Some d /\
    DeepZoomImageDescriptor.get_tile_bounds d level column row = Ok box /\
    save_options self (DeepZoomImageDescriptor.tile_format d) = Ok options /\
    file = {| file_level := level; file_column := column; file_row := row;
              file_format := DeepZoomImageDescriptor.tile_format d;
              file_tile := PIL.crop level_image box;
              file_options := options |}.
Proof.
  unfold write_tile.
  destruct (descriptor self) as [d|]; [|discriminate]. py_step.
  destruct (DeepZoomImageDescriptor.get_tile_bounds d level column row)
    as [box|e] eqn:Hb; [|discriminate]. py_step.
  destruct (save_options self (DeepZoomImageDescriptor.tile_format d))
    as [o|e] eqn:Ho; [|discriminate]. py_step.
  destruct (PIL.Image_save (PIL.crop level_image box) o);
    [|discriminate].
  py_step.
  intros H. injection H as <-. exists d, box, o.
  repeat split; try reflexivity; assumption.
Qed.

Lemma write_level_steps (self : t) (level : Z)
    (out : PIL.Image * list tile_file) :
  write_level self level = Ok out ->
  get_image self level = Ok (fst out) /\
  exists coordinates,
    tiles self level = Ok coordinates /\
    Forall2 (fun tile file => write_tile self (fst out) level tile = Ok file)
      coordinates (snd out).
Proof.
  unfold write_level.
  destruct (get_image self level) as [li|e]; [|discriminate]. py_step.
  destruct (tiles self level) as [coordinates|e]; [|discriminate]. py_step.
  destruct (for_each coordinates (write_tile self li level))
    as [files|e] eqn:Hf; [|discriminate]. py_step.
  intros H. injection H as <-. cbn [fst snd].
  split; [reflexivity|]. exists coordinates. split; [reflexivity|].
  apply for_each_Forall2. exact Hf.
Qed.

Lemma Forall2_length {A B : Type} (R : A -> B -> Prop) (xs : list A)
    (ys : list B) :
  Forall2 R xs ys -> List.length xs = List.length ys.
Proof. induction 1; cbn [List.length]; congruence. Qed.

Lemma Forall2_Forall_r {A B : Type} (R : A -> B -> Prop) (P : B -> Prop)
    (xs : list A) (ys : list B) :
  Forall2 R xs ys -> (forall x y, In x xs -> R x y -> P y) -> Forall P ys.
Proof.
  induction 1 as [|x y xs ys HR _ IH]; intros HP; constructor.
  - apply (HP x); [left; reflexivity | assumption].
  - apply IH. intros x' y' Hx'. apply HP. right. assumption.
Qed.

Lemma Forall2_impl_in {A B : Type} (R S : A -> B -> Prop) (xs : list A)
    (ys : list B) :
  Forall2 R xs ys -> (forall x y, In x xs -> R x y -> S x y) ->
  Forall2 S xs ys.
Proof.
  induction 1 as [|x y xs ys HR _ IH]; intros HS; constructor.
  - apply HS; [left; reflexivity | assumption].
  - apply IH. intros x' y' Hx'. apply HS. right. assumption.
Qed.

(** The coordinates, in order, of the files of a level. *)
Lemma written_coordinates (self : t) (li : PIL.Image) (level : Z)
    (coordinates : list (Z * Z)) (files : list tile_file) :
  Forall2 (fun tile file => write_tile self li level tile = Ok file)
    coordinates files ->
  map (fun file => (file_column file, file_row file)) files = coordinates.
Proof.
  induction 1 as [|[column row] file cs fs Hw _ IH]; [reflexivity|].
  cbn [map]. rewrite IH.
  destruct (write_tile_inv _ _ _ _ _ _ Hw) as (d & box & o & _ & _ & _ & ->).
  reflexivity.
Qed.

(** [create] writes one file for every tile of every level, in the
    order of [tiles], and nothing else: there is one entry for each of
    the [num_levels] levels, and the files of a level carry, in order,
    the coordinates that [tiles] yields, the number of the level and the
    format of the creator. *)
Theorem create_one_file_per_tile (self self' : t) (source : PIL.Image)
    (destination : string) (levels : list (PIL.Image * list tile_file))
    (d : DeepZoomImageDescriptor.t) :
  create self source destination = Ok (self', levels, d) ->
  exists n,
    DeepZoomImageDescriptor.num_levels d = Ok n /\
    Z.of_nat (List.length levels) = n /\
    Forall2
      (fun level out =>
         exists coordinates,
           tiles self' level = Ok coordinates /\
           map (fun file => (file_column file, file_row file)) (snd out)
           = coordinates /\
           Forall (fun file =>
                     file_level file = level /\
                     file_format file = tile_format self)
                  (snd out))
      (range n) levels.
Proof.
  intros Hc.
  destruct (create_inv _ _ _ _ _ _ Hc)
    as (_ & _ & _ & Hfmt & _ & Hd & _ & n & Hn & Hlevels).
  exists n. split; [exact Hn|]. split.
  - rewrite <- (Forall2_length _ _ _ Hlevels), range_length.
    destruct (num_levels_Ok d n Hn) as (_ & _ & Hn1). lia.
  - eapply Forall2_impl_in; [exact Hlevels|].
    intros level out _ Hw. cbv beta in Hw.
    destruct (write_level_steps _ _ _ Hw) as (_ & cs & Hcs & Hfiles).
    exists cs. split; [exact Hcs|]. split.
    + apply (written_coordinates _ _ _ _ _ Hfiles).
    + eapply Forall2_Forall_r; [exact Hfiles|].
      intros [column row] file _ Hfile. cbv beta in Hfile.
      destruct (write_tile_inv _ _ _ _ _ _ Hfile)
        as (d' & box & o & Hd' & _ & _ & ->).
      rewrite Hd in Hd'. injection Hd' as <-.
      cbn [file_level file_format]. split; [reflexivity|exact Hfmt].
Qed.

Lemma create_one_file_per_tile_witness :
  exists self' levels d,
    create (script_creator "png" default_quality) poster_bitmap "out.dzi"
    = Ok (self', levels, d) /\
    exists n,
      DeepZoomImageDescriptor.num_levels d = Ok n /\
      Z.of_nat (List.length levels) = n /\
      Forall2
        (fun level out =>
           exists coordinates,
             tiles self' level = Ok coordinates /\
             map (fun file => (file_column file, file_row file)) (snd out)
             = coordinates /\
             Forall (fun file =>
                       file_level file = level /\
                       file_format file
                       = tile_format (script_creator "png" default_quality))
                    (snd out))
        (range n) levels.
Proof.
  destruct (create (script_creator "png" default_quality) poster_bitmap
              "out.dzi") as [[[self' levels] d]|e] eqn:Hc.
  - exists self', levels, d. split; [reflexivity|].
    apply (create_one_file_per_tile _ _ _ _ _ _ Hc).
  - vm_compute in Hc. discriminate.
Defined.

(** A bitmap that is the source or the source resized has the size it
    was asked for. *)
Lemma sized_from_source (d : DeepZoomImageDescriptor.t)
    (im li : PIL.Image) (w h : Z) :
  PIL.size im
  = (DeepZoomImageDescriptor.width d, DeepZoomImageDescriptor.height d) ->
  (w = DeepZoomImageDescriptor.width d /\
   h = DeepZoomImageDescriptor.height d -> li = im) ->
  (~ (w = DeepZoomImageDescriptor.width d /\
      h = DeepZoomImageDescriptor.height d) ->
   exists resample, li = PIL.resize im (w, h) resample) ->
  PIL.size li = (w, h).
Proof.
  intros Hsize Hsame Hother.
  destruct (Z.eq_dec w (DeepZoomImageDescriptor.width d)) as [Ew|Ew];
    [destruct (Z.eq_dec h (DeepZoomImageDescriptor.height d)) as [Eh|Eh]|].
  - rewrite (Hsame (conj Ew Eh)), Hsize, Ew, Eh. reflexivity.
  - destruct Hother as [f ->]; [tauto|reflexivity].
  - destruct Hother as [f ->]; [tauto|reflexivity].
Qed.

(** The bitmap that [get_image] returns for a level has exactly the
    dimensions of the level, when the descriptor has the size of the
    bitmap of the creator, as it has in [create], and the sides are
    from 1 to below 2^29. *)
Theorem level_bitmap_has_level_size (self : t)
    (d : DeepZoomImageDescriptor.t) (im : PIL.Image) (n level : Z) :
  descriptor self = Some d -> image self = Some im ->
  PIL.size im
  = (DeepZoomImageDescriptor.width d, DeepZoomImageDescriptor.height d) ->
  1 <= DeepZoomImageDescriptor.width d ->
  1 <= DeepZoomImageDescriptor.height d -> small_sides d ->
  DeepZoomImageDescriptor.num_levels d = Ok n -> 0 <= level < n ->
  exists level_image,
    get_image self level = Ok level_image /\
    DeepZoomImageDescriptor.get_dimensions d level
    = Ok (PIL.size level_image).
Proof.
  intros Hd Him Hsize Hw Hh _ Hn Hl.
  destruct (get_image_ok self d im n level Hd Him Hw Hh Hn Hl)
    as (li & Hli & w & h & Hdim & Hsame & Hother).
  exists li. split; [exact Hli|]. rewrite Hdim. f_equal. symmetry.
  exact (sized_from_source d im li w h Hsize Hsame Hother).
Qed.

Lemma level_bitmap_has_level_size_witness :
  exists level_image,
    get_image poster_creator 7 = Ok level_image /\
    DeepZoomImageDescriptor.get_dimensions poster_descriptor 7
    = Ok (PIL.size level_image).
Proof.
  apply (level_bitmap_has_level_size poster_creator poster_descriptor
           poster_bitmap 11 7);
    solve [ reflexivity | split; vm_compute; reflexivity
          | vm_compute; reflexivity | vm_compute; discriminate | lia ].
Defined.

(** The filter of the resampling: [Image.ANTIALIAS] when the creator
    has no filter or a name that [RESIZE_FILTERS] does not have, and the
    entry of [RESIZE_FILTERS] for a name that it has. *)
Theorem resampling_filter_fallback (self : t)
    (d : DeepZoomImageDescriptor.t) (im level_image : PIL.Image)
    (n level : Z) :
  descriptor self = Some d -> image self = Some im ->
  DeepZoomImageDescriptor.num_levels d = Ok n -> 0 <= level < n ->
  get_image self level = Ok level_image -> level_image <> im ->
  exists size resample,
    level_image = PIL.resize im size resample /\
    (resize_filter self = None -> resample = PIL.ANTIALIAS) /\
    (forall name, resize_filter self = Some name ->
       (forall f, ~ In (name, f) RESIZE_FILTERS) ->
       resample = PIL.ANTIALIAS) /\
    (forall name f, resize_filter self = Some name ->
       In (name, f) RESIZE_FILTERS -> resample = f).
Proof.
  intros Hd Him Hn Hl. unfold get_image. rewrite Hd, Him. py_step.
  destruct (Z.leb_spec 0 level) as [_|]; [|lia].
  rewrite Hn. py_step.
  destruct (Z.ltb_spec level n) as [_|]; [|lia]. py_step.
  rewrite (get_dimensions_ok d n level Hn Hl). py_step.
  match goal with
  | |- context [if ?c then _ else _] => destruct c
  end.
  { intros H. injection H as <-. intros Hne. contradiction. }
  destruct (resize_filter self) as [name|].
  2:{ intros H _. apply Image_resize_inv in H. destruct H as [-> _].
      do 2 eexists.
      split; [reflexivity|]. repeat split; try discriminate. }
  assert (Hkeys : forall f, In (name, f) RESIZE_FILTERS ->
                   contains RESIZE_FILTERS name = true /\
                   item RESIZE_FILTERS name PIL.ANTIALIAS = f).
  { intros f Hf. unfold RESIZE_FILTERS in Hf. cbn [In] in Hf.
    repeat (destruct Hf as [Hf|Hf];
            [injection Hf as <- <-; split; reflexivity|]).
    contradiction. }
  assert (Hmiss : contains RESIZE_FILTERS name = true ->
                  exists f, In (name, f) RESIZE_FILTERS).
  { unfold contains. intros H. apply existsb_exists in H.
    destruct H as ([k f] & Hin & Hk). cbn [fst] in Hk.
    apply String.eqb_eq in Hk. subst k. exists f. exact Hin. }
  destruct (contains RESIZE_FILTERS name) eqn:Hc; cbn [negb];
    intros H _; apply Image_resize_inv in H; destruct H as [-> _];
    do 2 eexists;
    (split; [reflexivity|]); (split; [discriminate|]); split.
  - intros name' E Hnone. injection E as <-.
    destruct (Hmiss eq_refl) as [f Hf]. destruct (Hnone f Hf).
  - intros name' f E Hf. injection E as <-. apply (Hkeys f Hf).
  - reflexivity.
  - intros name' f E Hf. injection E as <-.
    destruct (Hkeys f Hf) as [Habs _]. discriminate.
Qed.

Lemma resampling_filter_fallback_witness :
  exists size resample,
    PIL.resize poster_bitmap (75, 50) PIL.LANCZOS
    = PIL.resize poster_bitmap size resample /\
    (resize_filter poster_creator = None -> resample = PIL.ANTIALIAS) /\
    (forall name, resize_filter poster_creator = Some name ->
       (forall f, ~ In (name, f) RESIZE_FILTERS) ->
       resample = PIL.ANTIALIAS) /\
    (forall name f, resize_filter poster_creator = Some name ->
       In (name, f) RESIZE_FILTERS -> resample = f).
Proof.
  apply (resampling_filter_fallback poster_creator poster_descriptor
           poster_bitmap (PIL.resize poster_bitmap (75, 50) PIL.LANCZOS)
           11 7);
    try reflexivity; try (vm_compute; reflexivity);
    try lia; discriminate.
Defined.

Lemma tiles_members (self : t) (d : DeepZoomImageDescriptor.t)
    (n level : Z) (coordinates : list (Z * Z)) :
  descriptor self = Some d ->
  DeepZoomImageDescriptor.num_levels d = Ok n -> 0 <= level < n ->
  tiles self level = Ok coordinates ->
  DeepZoomImageDescriptor.tile_size d <> 0 /\
  forall column row,
    In (column, row) coordinates <->
    0 <= column
    < cdiv (cdiv (DeepZoomImageDescriptor.width d) (shrink n level))
           (DeepZoomImageDescriptor.tile_size d) /\
    0 <= row
    < cdiv (cdiv (DeepZoomImageDescriptor.height d) (shrink n level))
           (DeepZoomImageDescriptor.tile_size d).
Proof.
  intros Hd Hn Hl Ht.
  assert (Hts : DeepZoomImageDescriptor.tile_size d <> 0).
  { intros E. unfold tiles in Ht. rewrite Hd in Ht. cbn [bind getattr] in Ht.
    rewrite (get_num_tiles_zero_tile d n level Hn Hl E) in Ht.
    discriminate. }
  split; [exact Hts|].
  rewrite (tiles_unfold self d level _ _ Hd
             (get_num_tiles_ok d n level Hn Hl Hts)) in Ht.
  injection Ht as <-. apply grid_pairs_spec.
Qed.

(** The box of a tile of the grid, under
    [0 <= tile_overlap <= tile_size]. *)
Lemma grid_tile_box_inside (d : DeepZoomImageDescriptor.t)
    (n level column row : Z) (box : Z * Z * Z * Z) :
  DeepZoomImageDescriptor.num_levels d = Ok n -> 0 <= level < n ->
  0 <= DeepZoomImageDescriptor.tile_overlap d
    <= DeepZoomImageDescriptor.tile_size d ->
  DeepZoomImageDescriptor.tile_size d <> 0 ->
  0 <= column
  < cdiv (cdiv (DeepZoomImageDescriptor.width d) (shrink n level))
         (DeepZoomImageDescriptor.tile_size d) ->
  0 <= row
  < cdiv (cdiv (DeepZoomImageDescriptor.height d) (shrink n level))
         (DeepZoomImageDescriptor.tile_size d) ->
  DeepZoomImageDescriptor.get_tile_bounds d level column row = Ok box ->
  exists x1 y1 x2 y2,
    box = (x1, y1, x2, y2) /\
    0 <= x1 < x2 /\
    x2 <= cdiv (DeepZoomImageDescriptor.width d) (shrink n level) /\
    0 <= y1 < y2 /\
    y2 <= cdiv (DeepZoomImageDescriptor.height d) (shrink n level).
Proof.
  intros Hn Hl Hov Hts Hc Hr Hb.
  rewrite (tile_box_clipped_at d n level column row Hn Hl Hov) in Hb
    by lia.
  injection Hb as <-. do 4 eexists. split; [reflexivity|].
  set (lw := cdiv (DeepZoomImageDescriptor.width d) (shrink n level)) in *.
  set (lh := cdiv (DeepZoomImageDescriptor.height d) (shrink n level)) in *.
  set (ts := DeepZoomImageDescriptor.tile_size d) in *.
  assert (Hcw : column * ts < lw) by (apply cdiv_lt_mul; lia).
  assert (Hrh : row * ts < lh) by (apply cdiv_lt_mul; lia).
  nia.
Qed.

(** Every tile that [create] writes is cropped from the bitmap of its
    level with a box that is not empty and lies inside that bitmap, when
    the overlap of the creator is at most its tile size. *)
Theorem create_crops_inside_level (self self' : t) (source : PIL.Image)
    (destination : string) (levels : list (PIL.Image * list tile_file))
    (d : DeepZoomImageDescriptor.t) :
  create self source destination = Ok (self', levels, d) ->
  0 <= tile_overlap self <= tile_size self ->
  Forall
    (fun out =>
       Forall
         (fun file =>
            exists x1 y1 x2 y2,
              file_tile file = PIL.crop (fst out) (x1, y1, x2, y2) /\
              0 <= x1 < x2 /\ x2 <= fst (PIL.size (fst out)) /\
              0 <= y1 < y2 /\ y2 <= snd (PIL.size (fst out)))
         (snd out))
    levels.
Proof.
  intros Hc Hov.
  destruct (create_inv _ _ _ _ _ _ Hc)
    as (Hsize & Hts & Hovd & _ & Him & Hd & _ & n & Hn & Hlevels).
  rewrite <- Hts, <- Hovd in Hov.
  eapply Forall2_Forall_r; [exact Hlevels|].
  intros level out Hlevel Hw. cbv beta in Hw.
  apply in_range in Hlevel.
  destruct (write_level_steps _ _ _ Hw) as (Hli & cs & Hcs & Hfiles).
  destruct (get_image_inv self' d source _ level Hd Him Hli)
    as (_ & _ & _ & w & h & Hdim & Hsame & Hother).
  pose proof (sized_from_source d source _ w h Hsize Hsame Hother)
    as Esize.
  rewrite (get_dimensions_ok d n level Hn Hlevel) in Hdim.
  injection Hdim as Ew Eh. rewrite <- Ew, <- Eh in Esize.
  symmetry in Esize.
  destruct (tiles_members self' d n level cs Hd Hn Hlevel Hcs)
    as [Hts0 Hin].
  eapply Forall2_Forall_r; [exact Hfiles|].
  intros [column row] file Htile Hfile. cbv beta in Hfile.
  apply Hin in Htile. destruct Htile as [Hcol Hrow].
  destruct (write_tile_inv _ _ _ _ _ _ Hfile)
    as (d' & box & o & Hd' & Hbox & _ & ->).
  rewrite Hd in Hd'. injection Hd' as <-.
  destruct (grid_tile_box_inside d n level column row box Hn Hlevel Hov
              Hts0 Hcol Hrow Hbox)
    as (x1 & y1 & x2 & y2 & -> & Hx & Hx2 & Hy & Hy2).
  exists x1, y1, x2, y2. cbn [file_tile].
  rewrite <- Esize. cbn [fst snd]. auto.
Qed.

Lemma create_crops_inside_level_witness :
  exists self' levels d,
    create (script_creator "png" default_quality) poster_bitmap "out.dzi"
    = Ok (self', levels, d) /\
    Forall
      (fun out =>
         Forall
           (fun file =>
              exists x1 y1 x2 y2,
                file_tile file = PIL.crop (fst out) (x1, y1, x2, y2) /\
                0 <= x1 < x2 /\ x2 <= fst (PIL.size (fst out)) /\
                0 <= y1 < y2 /\ y2 <= snd (PIL.size (fst out)))
           (snd out))
      levels.
Proof.
  destruct (create (script_creator "png" default_quality) poster_bitmap
              "out.dzi") as [[[self' levels] d]|e] eqn:Hc.
  - exists self', levels, d. split; [reflexivity|].
    apply (create_crops_inside_level _ _ _ _ _ _ Hc).
    vm_compute. split; discriminate.
  - vm_compute in Hc. discriminate.
Defined.

Lemma for_each_returns {A B : Type} (body : A -> res B) (xs : list A) :
  (forall x, In x xs -> returns (body x)) -> returns (for_each xs body).
Proof.
  induction xs as [|x xs IH]; intros H; cbn [for_each].
  - apply returns_Ok.
  - destruct (H x (or_introl eq_refl)) as [y ->]. cbn [bind].
    destruct IH as [ys ->].
    + intros x' Hx'. apply H. right. assumption.
    + cbn [bind]. apply returns_Ok.
Qed.

Lemma save_options_returns (self : t) (format : string) :
  float64.is_double (image_quality self) ->
  float64.le (float64.of_int 0) (image_quality self) = true ->
  float64.le (image_quality self) (float64.of_int 1) = true ->
  returns (save_options self format).
Proof.
  intros Hv H0 H1. unfold save_options.
  destruct (String.eqb format "jpg").
  - destruct (jpeg_quality_range _ Hv H0 H1) as (k & -> & _).
    apply returns_Ok.
  - destruct (png_compress_range _ Hv H0 H1) as (k & -> & _).
    apply returns_Ok.
Qed.

Lemma write_level_returns (self : t) (d : DeepZoomImageDescriptor.t)
    (im : PIL.Image) (n level : Z) :
  descriptor self = Some d -> image self = Some im ->
  1 <= DeepZoomImageDescriptor.width d ->
  1 <= DeepZoomImageDescriptor.height d ->
  DeepZoomImageDescriptor.num_levels d = Ok n -> 0 <= level < n ->
  DeepZoomImageDescriptor.tile_size d <> 0 ->
  (forall format,
      exists options,
        save_options self format = Ok options /\
        PIL.accepted options = true) ->
  returns (write_level self level).
Proof.
  intros Hd Him Hw Hh Hn Hl Hts Hopt. unfold write_level.
  destruct (get_image_ok self d im n level Hd Him Hw Hh Hn Hl)
    as (li & -> & _).
  py_step. unfold tiles. rewrite Hd. py_step.
  rewrite (get_num_tiles_ok d n level Hn Hl Hts). py_step.
  match goal with
  | |- context [for_each ?cs ?f] =>
      destruct (for_each_returns f cs) as [files ->]
  end.
  - intros [column row] _. unfold write_tile. rewrite Hd. py_step.
    destruct (DeepZoomImageDescriptor.get_tile_bounds d level column row)
      as [box|e] eqn:Hb.
    + py_step.
      destruct (Hopt (DeepZoomImageDescriptor.tile_format d))
        as (o & -> & Hacc).
      py_step. unfold PIL.Image_save. rewrite Hacc. py_step.
      apply returns_Ok.
    + unfold DeepZoomImageDescriptor.get_tile_bounds in Hb.
      rewrite (check_level_ok d n level Hn Hl) in Hb.
      rewrite (get_dimensions_ok d n level Hn Hl) in Hb. discriminate.
  - py_step. apply returns_Ok.
Qed.

(** The state in which [create] runs its loops. *)
Lemma create_unfold (self : t) (source : PIL.Image) (destination : string) :
  exists self' d,
    descriptor self' = Some d /\ image self' = Some source /\
    image_quality self' = image_quality self /\
    DeepZoomImageDescriptor.width d = fst (PIL.size source) /\
    DeepZoomImageDescriptor.height d = snd (PIL.size source) /\
    DeepZoomImageDescriptor.tile_size d = tile_size self /\
    create self source destination =
    bind (DeepZoomImageDescriptor.num_levels d) (fun n =>
    bind (for_each (range n) (write_level self')) (fun levels =>
    Ok (self', levels, d))).
Proof.
  unfold create. destruct (PIL.size source) as [w h].
  match goal with
  | |- context [for_each _ (write_level ?x)] => exists x
  end.
  match goal with
  | |- context [DeepZoomImageDescriptor.num_levels ?x] => exists x
  end.
  repeat split.
Qed.

Lemma create_returns_when (self : t) (source : PIL.Image)
    (destination : string) :
  tile_size self <> 0 ->
  1 <= fst (PIL.size source) -> 1 <= snd (PIL.size source) ->
  (forall format,
      exists options,
        save_options self format = Ok options /\
        PIL.accepted options = true) ->
  returns (create self source destination).
Proof.
  intros Hts Hw Hh Hopt.
  destruct (create_unfold self source destination)
    as (self' & d & Hd & Him & Hq & Ew & Eh & Ets & ->).
  rewrite <- Ew in Hw. rewrite <- Eh in Hh. rewrite <- Ets in Hts.
  destruct (DeepZoomImageDescriptor.num_levels d) as [n|e] eqn:Hn.
  2:{ rewrite num_levels_eq in Hn.
      destruct (Z.leb_spec (Z.max (DeepZoomImageDescriptor.width d)
                              (DeepZoomImageDescriptor.height d)) 0);
        [lia|discriminate]. }
  py_step.
  destruct (for_each_returns (write_level self') (range n)) as [ls ->].
  - intros level Hlevel. apply in_range in Hlevel.
    apply (write_level_returns self' d source n level); try assumption.
    intros format.
    rewrite (save_options_quality self' self format Hq). apply Hopt.
  - py_step. apply returns_Ok.
Qed.

Lemma clamp_quality_double (q : spec_float) :
  float64.is_double q ->
  float64.is_double (_clamp q (float64.of_int 0) (float64.of_int 1)).
Proof.
  intros Hq. unfold _clamp.
  destruct (lt q (float64.of_int 0)); [reflexivity|].
  destruct (gt q (float64.of_int 1)); [reflexivity|exact Hq].
Qed.

(** The options of a creator whose quality is in [[0, 1]]: every
    format gives options, and the encoder takes them unless the
    compression level of the PNG file is 10. *)
Lemma unit_quality_options (self : t) (format : string) :
  float64.is_double (image_quality self) ->
  float64.le (float64.of_int 0) (image_quality self) = true ->
  float64.le (image_quality self) (float64.of_int 1) = true ->
  exists options,
    save_options self format = Ok options /\
    (options <> PIL.default_format 10 -> PIL.accepted options = true).
Proof.
  intros Hv H0 H1. unfold save_options.
  destruct (String.eqb format "jpg").
  - destruct (jpeg_quality_range _ Hv H0 H1) as (k & -> & _).
    eexists. split; [reflexivity|]. reflexivity.
  - destruct (png_compress_range _ Hv H0 H1) as (k & -> & Hk).
    eexists. split; [reflexivity|]. intros Hne. cbn [bind PIL.accepted].
    destruct (Z.leb_spec (-1) k); [|lia].
    destruct (Z.leb_spec k 9) as [|Hgt]; [reflexivity|].
    exfalso. apply Hne. f_equal. lia.
Qed.

Lemma save_options_png (self : t) (format : string) :
  format <> "jpg" -> save_options self format = save_options self "png".
Proof.
  intros Hf. unfold save_options.
  destruct (String.eqb_spec format "jpg"); [contradiction|reflexivity].
Qed.

(** The loops of [create] complete for a creator built by the
    constructor from a tile size other than 0 and below 2^53, a format
    other than "jpg" and a quality that is a double other than NaN, on
    every bitmap with sides from 1 to below 2^29, whatever the overlap
    and the filter that the constructor was given, unless the
    compression level of its PNG files is 10, which zlib does not have:
    no assertion, no division, no conversion, no resizing and no
    encoding fails. *)
Theorem create_returns (size overlap : Z) (format : string)
    (quality : spec_float) (filter : option string) (metadata : bool)
    (source : PIL.Image) (destination : string) :
  size <> 0 -> Z.abs size < 2 ^ 53 -> format <> "jpg" ->
  float64.is_double quality -> quality <> S754_nan ->
  1 <= fst (PIL.size source) < 2 ^ 29 ->
  1 <= snd (PIL.size source) < 2 ^ 29 ->
  save_options (__init__ size overlap format quality filter metadata)
    "png" <> Ok (PIL.default_format 10) ->
  returns
    (create (__init__ size overlap format quality filter metadata)
       source destination).
Proof.
  intros Hsize _ _ Hv Hq [Hw _] [Hh _] Hlevel.
  apply create_returns_when; [exact Hsize | exact Hw | exact Hh |].
  intros fmt. destruct (clamp_quality quality Hq) as (H0 & H1 & _).
  destruct (unit_quality_options
              (__init__ size overlap format quality filter metadata) fmt)
    as (o & Ho & Hacc);
    [apply clamp_quality_double; exact Hv | exact H0 | exact H1 |].
  exists o. split; [exact Ho|]. apply Hacc.
  intros ->. apply Hlevel. rewrite <- Ho. symmetry.
  apply save_options_png. intros ->.
  unfold save_options in Ho. rewrite String.eqb_refl in Ho.
  destruct (float64.int _) in Ho; discriminate.
Qed.

Lemma create_returns_witness :
  returns
    (create (__init__ 254 1 "png" (float64.dyadic 3 (-1)) None false)
       small_bitmap "out.dzi").
Proof.
  apply create_returns.
  - discriminate.
  - vm_compute. reflexivity.
  - discriminate.
  - vm_compute. reflexivity.
  - vm_compute. discriminate.
  - vm_compute. split; [discriminate|reflexivity].
  - vm_compute. split; [discriminate|reflexivity].
  - vm_compute. discriminate.
Defined.

Lemma save_options_nan (self : t) (format : string) :
  image_quality self = S754_nan ->
  save_options self format = Raise ValueError.
Proof.
  intros E. unfold save_options. rewrite E.
  destruct (String.eqb format "jpg"); reflexivity.
Qed.


(** A creator whose quality is NaN fails on every bitmap with sides
    from 1 to below 2^29 when [1 <= tile_size < 2^53]: [create] raises
    [ValueError] at the first tile, the single tile of level 0. *)
Theorem create_nan_quality_raises (self : t) (source : PIL.Image)
    (destination : string) :
  image_quality self = S754_nan -> 1 <= tile_size self < 2 ^ 53 ->
  1 <= fst (PIL.size source) < 2 ^ 29 ->
  1 <= snd (PIL.size source) < 2 ^ 29 ->
  create self source destination = Raise ValueError.
Proof.
  intros Hq [Hts _] [Hw _] [Hh _].
  destruct (create_unfold self source destination)
    as (self' & d & Hd & Him & Hq' & Ew & Eh & Ets & ->).
  rewrite <- Ew in Hw. rewrite <- Eh in Hh. rewrite <- Ets in Hts.
  rewrite <- Hq' in Hq.
  destruct (DeepZoomImageDescriptor.num_levels d) as [n|e] eqn:Hn.
  2:{ rewrite num_levels_eq in Hn.
      destruct (Z.leb_spec (Z.max (DeepZoomImageDescriptor.width d)
                              (DeepZoomImageDescriptor.height d)) 0);
        [lia|discriminate]. }
  py_step.
  destruct (num_levels_Ok d n Hn) as (_ & _ & Hn1).
  destruct (range_pos n Hn1) as [tl ->]. cbn [for_each].
  assert (Hl : 0 <= 0 < n) by lia.
  assert (E : write_level self' 0 = Raise ValueError).
  { unfold write_level.
    destruct (get_image_ok self' d source n 0 Hd Him Hw Hh Hn Hl)
      as (li & -> & _).
    py_step. unfold tiles. rewrite Hd. py_step.
    rewrite (get_num_tiles_ok d n 0 Hn Hl) by lia.
    pose proof (coarsest_shrink d n Hn) as Hd0.
    rewrite !(cdiv_small _ (shrink n 0)) by lia.
    rewrite (cdiv_small 1 (DeepZoomImageDescriptor.tile_size d)) by lia.
    py_step. cbn [range Z.to_nat Pos.to_nat Pos.iter_op seq map flat_map
                  app for_each Z.of_nat].
    unfold write_tile. rewrite Hd. py_step.
    unfold DeepZoomImageDescriptor.get_tile_bounds.
    rewrite (check_level_ok d n 0 Hn Hl).
    rewrite (get_dimensions_ok d n 0 Hn Hl). py_step.
    rewrite (save_options_nan self' _ Hq). reflexivity. }
  rewrite E. reflexivity.
Qed.

Lemma create_nan_quality_raises_witness :
  create (script_creator "jpg" S754_nan) small_bitmap "out.dzi"
  = Raise ValueError.
Proof.
  apply create_nan_quality_raises;
    solve [ reflexivity
          | vm_compute; split; [discriminate|reflexivity] ].
Defined.

(** With a negative tile size, above -2^53, the grid of every level is
    empty, and on a bitmap with sides from 1 to below 2^29 the loops of
    [create] complete without one tile: it writes the descriptor and no
    tile file. *)
Theorem create_negative_tile_size (self : t) (source : PIL.Image)
    (destination : string) :
  - 2 ^ 53 < tile_size self < 0 ->
  1 <= fst (PIL.size source) < 2 ^ 29 ->
  1 <= snd (PIL.size source) < 2 ^ 29 ->
  exists self' levels d,
    create self source destination = Ok (self', levels, d) /\
    Forall (fun out => snd out = []) levels.
Proof.
  intros [_ Hts] [Hw _] [Hh _].
  destruct (create_unfold self source destination)
    as (self' & d & Hd & Him & _ & Ew & Eh & Ets & Ec).
  rewrite <- Ew in Hw. rewrite <- Eh in Hh.
  rewrite <- Ets in Hts.
  destruct (DeepZoomImageDescriptor.num_levels d) as [n|e] eqn:Hn.
  2:{ rewrite num_levels_eq in Hn.
      destruct (Z.leb_spec (Z.max (DeepZoomImageDescriptor.width d)
                              (DeepZoomImageDescriptor.height d)) 0);
        [lia|discriminate]. }
  cbn [bind] in Ec.
  assert (Hempty : forall level, 0 <= level < n ->
            exists li, write_level self' level = Ok (li, [])).
  { intros level Hlevel. unfold write_level.
    destruct (get_image_ok self' d source n level Hd Him Hw Hh Hn Hlevel)
      as (li & -> & _).
    exists li. py_step. unfold tiles. rewrite Hd. py_step.
    rewrite (get_num_tiles_ok d n level Hn Hlevel) by lia.
    py_step.
    assert (Hcols :
              cdiv (cdiv (DeepZoomImageDescriptor.width d) (shrink n level))
                (DeepZoomImageDescriptor.tile_size d) <= 0).
    { apply cdiv_nonpos; [|lia].
      apply cdiv_nonneg; [lia|]. apply shrink_pos. lia. }
    rewrite (range_nonpos _ Hcols). reflexivity. }
  destruct (for_each_returns (write_level self') (range n)) as [ls E].
  { intros level Hlevel. apply in_range in Hlevel.
    destruct (Hempty level Hlevel) as [li ->]. apply returns_Ok. }
  rewrite E in Ec. cbn [bind] in Ec.
  exists self', ls, d. split; [exact Ec|].
  eapply Forall2_Forall_r; [exact (for_each_Forall2 _ _ _ E)|].
  intros level out Hlevel Hout. cbv beta in Hout. apply in_range in Hlevel.
  destruct (Hempty level Hlevel) as [li Hli].
  rewrite Hli in Hout. injection Hout as <-. reflexivity.
Qed.

Lemma create_negative_tile_size_witness :
  exists self' levels d,
    create (__init__ (-254) 1 "png" default_quality None false)
      small_bitmap "out.dzi" = Ok (self', levels, d) /\
    Forall (fun out => snd out = []) levels.
Proof.
  apply create_negative_tile_size; vm_compute;
    (split; [discriminate|reflexivity]) || (split; reflexivity).
Defined.

Lemma clamp_quality_idempotent (q : spec_float) :
  _clamp (_clamp q (float64.of_int 0) (float64.of_int 1))
    (float64.of_int 0) (float64.of_int 1)
  = _clamp q (float64.of_int 0) (float64.of_int 1).
Proof.
  assert (H0 : _clamp (float64.of_int 0) (float64.of_int 0)
                 (float64.of_int 1) = float64.of_int 0)
    by (vm_compute; reflexivity).
  assert (H1 : _clamp (float64.of_int 1) (float64.of_int 0)
                 (float64.of_int 1) = float64.of_int 1)
    by (vm_compute; reflexivity).
  destruct (lt q (float64.of_int 0)) eqn:Hlt.
  - replace (_clamp q (float64.of_int 0) (float64.of_int 1))
      with (float64.of_int 0) by (unfold _clamp; rewrite Hlt; reflexivity).
    exact H0.
  - destruct (gt q (float64.of_int 1)) eqn:Hgt.
    + replace (_clamp q (float64.of_int 0) (float64.of_int 1))
        with (float64.of_int 1)
        by (unfold _clamp; rewrite Hlt, Hgt; reflexivity).
      exact H1.
    + replace (_clamp q (float64.of_int 0) (float64.of_int 1)) with q
        by (unfold _clamp; rewrite Hlt, Hgt; reflexivity).
      unfold _clamp. rewrite Hlt, Hgt. reflexivity.
Qed.

Lemma format_normalised (format : string) :
  let f := if negb (contains IMAGE_FORMATS format)
           then DEFAULT_IMAGE_FORMAT else format in
  (f = "jpg" \/ f = "png") /\ contains IMAGE_FORMATS f = true.
Proof.
  cbv zeta. unfold contains, IMAGE_FORMATS. cbn [existsb fst].
  destruct (String.eqb_spec "jpg" format) as [<-|Hj];
    [split; [left|]; reflexivity|].
  destruct (String.eqb_spec "png" format) as [<-|Hp];
    [split; [right|]; reflexivity|].
  split; [right|]; reflexivity.
Qed.

(** The constructor normalises its arguments once and for all: building
    a creator from the fields of a creator that the constructor built
    gives the same creator. *)
Theorem init_idempotent (size overlap : Z) (format : string)
    (quality : spec_float) (filter : option string) (metadata : bool) :
  let self := __init__ size overlap format quality filter metadata in
  __init__ (tile_size self) (tile_overlap self) (tile_format self)
    (image_quality self) (resize_filter self) (copy_metadata self)
  = self.
Proof.
  cbv zeta. unfold __init__.
  cbn [tile_size tile_overlap tile_format image_quality resize_filter
       copy_metadata].
  rewrite clamp_quality_idempotent.
  rewrite !clamp_int by lia.
  destruct (format_normalised format) as [_ Hf]. cbv zeta in Hf.
  rewrite Hf. cbn [negb]. f_equal. lia.
Qed.

(** The descriptor that [create] saves for a creator built by the
    constructor: it has the size of the source and the tile size that
    the constructor was given, its overlap is in [[0, 10]], and its
    format is "jpg" or "png". *)
Theorem created_descriptor_normalised (size overlap : Z) (format : string)
    (quality : spec_float) (filter : option string) (metadata : bool)
    (source : PIL.Image) (destination : string) (self' : t)
    (levels : list (PIL.Image * list tile_file))
    (d : DeepZoomImageDescriptor.t) :
  create (__init__ size overlap format quality filter metadata)
    source destination = Ok (self', levels, d) ->
  (DeepZoomImageDescriptor.width d, DeepZoomImageDescriptor.height d)
  = PIL.size source /\
  DeepZoomImageDescriptor.tile_size d = size /\
  0 <= DeepZoomImageDescriptor.tile_overlap d <= 10 /\
  (DeepZoomImageDescriptor.tile_format d = "jpg" \/
   DeepZoomImageDescriptor.tile_format d = "png").
Proof.
  intros Hc.
  destruct (create_inv _ _ _ _ _ _ Hc)
    as (Hsize & Hts & Hov & Hfmt & _).
  split; [symmetry; exact Hsize|]. split; [exact Hts|].
  rewrite Hov, Hfmt. cbn [tile_overlap tile_format __init__].
  rewrite clamp_int by lia. split; [lia|].
  apply (format_normalised format).
Qed.

Lemma created_descriptor_normalised_witness :
  exists self' levels d,
    create (__init__ 254 15 "bmp" default_quality None false)
      small_bitmap "out.dzi" = Ok (self', levels, d) /\
    (DeepZoomImageDescriptor.width d, DeepZoomImageDescriptor.height d)
    = PIL.size small_bitmap /\
    DeepZoomImageDescriptor.tile_size d = 254 /\
    0 <= DeepZoomImageDescriptor.tile_overlap d <= 10 /\
    (DeepZoomImageDescriptor.tile_format d = "jpg" \/
     DeepZoomImageDescriptor.tile_format d = "png").
Proof.
  destruct (create (__init__ 254 15 "bmp" default_quality None false)
              small_bitmap "out.dzi") as [[[self' levels] d]|e] eqn:Hc.
  - exists self', levels, d. split; [reflexivity|].
    apply (created_descriptor_normalised _ _ _ _ _ _ _ _ _ _ _ Hc).
  - vm_compute in Hc. discriminate.
Defined.

(** The first level of [create]. *)
Lemma create_first_level (self : t) (source : PIL.Image)
    (destination : string) (e : exn) :
  1 <= Z.max (fst (PIL.size source)) (snd (PIL.size source)) ->
  (forall self' d n,
      descriptor self' = Some d -> image self' = Some source ->
      image_quality self' = image_quality self ->
      DeepZoomImageDescriptor.width d = fst (PIL.size source) ->
      DeepZoomImageDescriptor.height d = snd (PIL.size source) ->
      DeepZoomImageDescriptor.tile_size d = tile_size self ->
      DeepZoomImageDescriptor.tile_format d = tile_format self ->
      DeepZoomImageDescriptor.num_levels d = Ok n -> 0 <= 0 < n ->
      write_level self' 0 = Raise e) ->
  create self source destination = Raise e.
Proof.
  intros Hmax Hfirst.
  assert (Hex : exists self' d,
             descriptor self' = Some d /\ image self' = Some source /\
             image_quality self' = image_quality self /\
             DeepZoomImageDescriptor.width d = fst (PIL.size source) /\
             DeepZoomImageDescriptor.height d = snd (PIL.size source) /\
             DeepZoomImageDescriptor.tile_size d = tile_size self /\
             DeepZoomImageDescriptor.tile_format d = tile_format self /\
             create self source destination =
             bind (DeepZoomImageDescriptor.num_levels d) (fun n =>
             bind (for_each (range n) (write_level self')) (fun levels =>
             Ok (self', levels, d)))).
  { unfold create. destruct (PIL.size source) as [w h].
    match goal with
    | |- context [for_each _ (write_level ?x)] => exists x
    end.
    match goal with
    | |- context [DeepZoomImageDescriptor.num_levels ?x] => exists x
    end.
    repeat split. }
  destruct Hex as (self' & d & Hd & Him & Hq & Ew & Eh & Ets & Efmt & ->).
  rewrite <- Ew, <- Eh in Hmax.
  destruct (DeepZoomImageDescriptor.num_levels d) as [n|e'] eqn:Hn.
  2:{ rewrite num_levels_eq in Hn.
      destruct (Z.leb_spec (Z.max (DeepZoomImageDescriptor.width d)
                              (DeepZoomImageDescriptor.height d)) 0);
        [lia|discriminate]. }
  py_step.
  destruct (num_levels_Ok d n Hn) as (_ & _ & Hn1).
  destruct (range_pos n Hn1) as [tl ->]. cbn [for_each].
  rewrite (Hfirst self' d n Hd Him Hq Ew Eh Ets Efmt Hn ltac:(lia)).
  reflexivity.
Qed.

(** A bitmap without columns or without rows, the other side from 2 to
    below 2^29, has a level 0 with a side of 0 pixels, and [create]
    raises the [ValueError] of [Image.resize] there, before it writes a
    tile. *)
Theorem create_empty_side_raises (self : t) (source : PIL.Image)
    (destination : string) :
  (fst (PIL.size source) = 0 /\ 2 <= snd (PIL.size source) < 2 ^ 29) \/
  (snd (PIL.size source) = 0 /\ 2 <= fst (PIL.size source) < 2 ^ 29) ->
  create self source destination = Raise ValueError.
Proof.
  intros Hsides. apply create_first_level.
  { destruct Hsides as [[_ [H2 _]]|[_ [H2 _]]]; lia. }
  intros self' d n Hd Him _ Ew Eh _ _ Hn Hl.
  rewrite <- Ew, <- Eh in Hsides.
  unfold write_level, get_image. rewrite Hd, Him. py_step.
  rewrite Hn. py_step.
  destruct (Z.ltb_spec 0 n) as [_|]; [|lia]. py_step.
  rewrite (get_dimensions_ok d n 0 Hn Hl). py_step.
  pose proof (coarsest_shrink d n Hn) as Hle.
  pose proof (shrink_pos n 0 ltac:(lia)) as Hs.
  set (w := cdiv (DeepZoomImageDescriptor.width d) (shrink n 0)).
  set (h := cdiv (DeepZoomImageDescriptor.height d) (shrink n 0)).
  assert (Hwh : (w = 0 /\ h = 1 /\ DeepZoomImageDescriptor.height d <> h)
                \/ (h = 0 /\ w = 1 /\
                    DeepZoomImageDescriptor.width d <> w)).
  { assert (H0 : cdiv 0 (shrink n 0) = 0) by reflexivity.
    destruct Hsides as [[E0 Hside]|[E0 Hside]]; [left|right]; subst w h;
      rewrite E0, H0.
    - rewrite (cdiv_small (DeepZoomImageDescriptor.height d)) by lia.
      repeat split; lia.
    - rewrite (cdiv_small (DeepZoomImageDescriptor.width d)) by lia.
      repeat split; lia. }
  assert (Hcond : (DeepZoomImageDescriptor.width d =? w)
                  && (DeepZoomImageDescriptor.height d =? h) = false).
  { destruct Hwh as [(_ & _ & Hne)|(_ & _ & Hne)].
    - apply andb_false_iff. right. apply Z.eqb_neq. exact Hne.
    - apply andb_false_iff. left. apply Z.eqb_neq. exact Hne. }
  rewrite Hcond.
  assert (Hres : forall f,
             PIL.Image_resize source (w, h) f = Raise ValueError).
  { intros f. unfold PIL.Image_resize. cbn [fst snd].
    destruct Hwh as [(-> & -> & _)|(-> & -> & _)]; reflexivity. }
  destruct (resize_filter self') as [name|];
    [destruct (negb (contains RESIZE_FILTERS name))|];
    rewrite Hres; reflexivity.
Qed.

Lemma create_empty_side_raises_witness :
  create (script_creator "png" default_quality) empty_bitmap "out.dzi"
  = Raise ValueError.
Proof.
  apply create_empty_side_raises. left. vm_compute.
  split; [reflexivity|]. split; [discriminate|reflexivity].
Defined.

Lemma save_options_zero_quality (self : t) (format : string) :
  image_quality self = float64.of_int 0 -> format <> "jpg" ->
  save_options self format = Ok (PIL.default_format 10).
Proof.
  intros Hq Hf. unfold save_options. rewrite Hq.
  destruct (String.eqb_spec format "jpg"); [contradiction|].
  vm_compute. reflexivity.
Qed.

(** With the quality 0 and the format "png", the compression level of
    the tiles is [round((1 - 0) * 10) = 10], which zlib does not have:
    on every bitmap with sides from 1 to below 2^29, with
    [1 <= tile_size < 2^53] and [tile_overlap >= 0], [create] raises
    the [OSError] of the encoder at the first tile. *)
Theorem create_zero_quality_raises (self : t) (source : PIL.Image)
    (destination : string) :
  image_quality self = float64.of_int 0 -> tile_format self = "png" ->
  1 <= tile_size self < 2 ^ 53 -> 0 <= tile_overlap self ->
  1 <= fst (PIL.size source) < 2 ^ 29 ->
  1 <= snd (PIL.size source) < 2 ^ 29 ->
  create self source destination = Raise OSError.
Proof.
  intros Hq Hpng [Hts _] _ [Hw _] [Hh _].
  assert (Hfmt : tile_format self <> "jpg")
    by (rewrite Hpng; discriminate).
  apply create_first_level; [lia|].
  intros self' d n Hd Him Hq' Ew Eh Ets Efmt Hn Hl.
  rewrite <- Ew in Hw. rewrite <- Eh in Hh. rewrite <- Ets in Hts.
  rewrite <- Hq' in Hq. rewrite <- Efmt in Hfmt.
  unfold write_level.
  destruct (get_image_ok self' d source n 0 Hd Him Hw Hh Hn Hl)
    as (li & -> & _).
  py_step. unfold tiles. rewrite Hd. py_step.
  rewrite (get_num_tiles_ok d n 0 Hn Hl) by lia.
  pose proof (coarsest_shrink d n Hn) as Hd0.
  rewrite !(cdiv_small _ (shrink n 0)) by lia.
  rewrite (cdiv_small 1 (DeepZoomImageDescriptor.tile_size d)) by lia.
  py_step. cbn [range Z.to_nat Pos.to_nat Pos.iter_op seq map flat_map
                app for_each Z.of_nat].
  unfold write_tile. rewrite Hd. py_step.
  unfold DeepZoomImageDescriptor.get_tile_bounds.
  rewrite (check_level_ok d n 0 Hn Hl).
  rewrite (get_dimensions_ok d n 0 Hn Hl). py_step.
  rewrite (save_options_zero_quality self' _ Hq Hfmt). reflexivity.
Qed.

Lemma create_zero_quality_raises_witness :
  create (script_creator "png" (float64.of_int 0)) small_bitmap "out.dzi"
  = Raise OSError.
Proof.
  apply create_zero_quality_raises;
    solve [ reflexivity | discriminate
          | vm_compute; split; [discriminate|reflexivity] ].
Defined.

End TilePipeline.

(** * The montage of the script *)

Section Montage.

Import montage.

Lemma bbox_spec (a : args) (iRow iCol : Z) :
  bbox a iRow iCol
  = (iCol * (fst (imdim a) + padding),
     iRow * (snd (imdim a) + padding),
     iCol * (fst (imdim a) + padding) + fst (imdim a),
     iRow * (snd (imdim a) + padding) + snd (imdim a)).
Proof. unfold bbox. destruct (imdim a) as [iw ih]. reflexivity. Qed.

Lemma canvas_spec (a : args) :
  imGridWidth a
  = fst (imdim a) * fst (griddim a) + padding * (fst (griddim a) - 1) /\
  imGridHeight a
  = snd (imdim a) * snd (griddim a) + padding * (snd (griddim a) - 1).
Proof.
  unfold imGridWidth, imGridHeight.
  destruct (imdim a) as [iw ih], (griddim a) as [gw gh].
  split; reflexivity.
Qed.

(** The box of every cell of the grid has the size of a poster and lies
    inside the canvas, and the boxes of the last column and of the last
    row end at the edges of the canvas. *)
Theorem cells_inside_canvas (a : args) (iRow iCol : Z) :
  0 <= fst (imdim a) -> 0 <= snd (imdim a) ->
  0 <= iCol < fst (griddim a) -> 0 <= iRow < snd (griddim a) ->
  exists gridPosW gridPosN gridPosE gridPosS,
    bbox a iRow iCol = (gridPosW, gridPosN, gridPosE, gridPosS) /\
    0 <= gridPosW /\ gridPosE - gridPosW = fst (imdim a) /\
    gridPosE <= imGridWidth a /\
    0 <= gridPosN /\ gridPosS - gridPosN = snd (imdim a) /\
    gridPosS <= imGridHeight a /\
    (iCol = fst (griddim a) - 1 -> gridPosE = imGridWidth a) /\
    (iRow = snd (griddim a) - 1 -> gridPosS = imGridHeight a).
Proof.
  intros Hw Hh Hc Hr. rewrite bbox_spec.
  destruct (canvas_spec a) as [-> ->]. unfold padding.
  do 4 eexists. split; [reflexivity|].
  repeat split; nia.
Qed.

Lemma cells_inside_canvas_witness :
  exists gridPosW gridPosN gridPosE gridPosS,
    bbox small_grid 1 1 = (gridPosW, gridPosN, gridPosE, gridPosS) /\
    0 <= gridPosW /\ gridPosE - gridPosW = fst (imdim small_grid) /\
    gridPosE <= imGridWidth small_grid /\
    0 <= gridPosN /\ gridPosS - gridPosN = snd (imdim small_grid) /\
    gridPosS <= imGridHeight small_grid /\
    (1 = fst (griddim small_grid) - 1 ->
     gridPosE = imGridWidth small_grid) /\
    (1 = snd (griddim small_grid) - 1 ->
     gridPosS = imGridHeight small_grid).
Proof.
  apply (cells_inside_canvas small_grid 1 1); simpl; lia.
Defined.

(** The boxes of two cells in different columns are at least [padding]
    pixels apart horizontally, and those of two cells in different rows
    at least [padding] pixels apart vertically: no poster is pasted over
    another. *)
Theorem cells_apart (a : args) (iRow iCol iRow' iCol' : Z)
    (W N E S W' N' E' S' : Z) :
  0 <= fst (imdim a) -> 0 <= snd (imdim a) ->
  bbox a iRow iCol = (W, N, E, S) ->
  bbox a iRow' iCol' = (W', N', E', S') ->
  (iCol < iCol' -> E + padding <= W') /\
  (iRow < iRow' -> S + padding <= N').
Proof.
  intros Hw Hh. rewrite !bbox_spec. unfold padding.
  intros H H'. injection H as <- <- <- <-. injection H' as <- <- <- <-.
  split; intros Hlt; nia.
Qed.

Lemma cells_apart_witness :
  (0 < 1 -> 4 + padding <= 14) /\ (0 < 1 -> 3 + padding <= 13).
Proof.
  apply (cells_apart small_grid 0 0 1 1 0 0 4 3 14 13 18 16);
    simpl; try lia; reflexivity.
Defined.

Lemma for_in_snoc {A S : Type} (xs : list A) (x : A)
    (body : A -> S -> outcome S) (s s' : S) :
  for_in xs body s = Completed s' ->
  for_in (xs ++ [x])%list body s = for_in [x] body s'.
Proof.
  revert s. induction xs as [|y ys IH]; intros s; cbn [for_in app].
  - intros H. injection H as ->. reflexivity.
  - destruct (body y s) as [s1| |]; try discriminate. apply IH.
Qed.

Lemma range_S (n : nat) :
  range (Z.of_nat (S n)) = (range (Z.of_nat n) ++ [Z.of_nat n])%list.
Proof.
  unfold range. rewrite !Nat2Z.id, seq_S, map_app. reflexivity.
Qed.

Lemma last_opened_snoc (files : list (option poster))
    (f : option poster) :
  last_opened (files ++ [f])%list
  = match f with Some im => Some im | None => last_opened files end.
Proof. unfold last_opened. rewrite fold_left_app. reflexivity. Qed.

Lemma firstn_S_snoc {A : Type} (l : list A) (k : nat) (x : A) :
  nth_error l k = Some x -> firstn (S k) l = (firstn k l ++ [x])%list.
Proof.
  revert k. induction l as [|y l IH]; intros [|k]; cbn [nth_error];
    try discriminate.
  - intros H. injection H as ->. reflexivity.
  - intros H. cbn [firstn app] in *. f_equal. apply IH. exact H.
Qed.

Lemma fold_opened_some (files : list (option poster)) (im : poster) :
  exists im',
    fold_left
      (fun prev f => match f with Some x => Some x | None => prev end)
      files (Some im) = Some im'.
Proof.
  revert im. induction files as [|f fs IH]; intros im; cbn [fold_left].
  - exists im. reflexivity.
  - destruct f as [x|]; apply IH.
Qed.

(** Once the first file has opened, [locIm] is bound for good. *)
Lemma last_opened_bound (files : list (option poster)) (k : nat) :
  hd_error files <> Some None -> (k < List.length files)%nat ->
  exists im, last_opened (firstn (S k) files) = Some im.
Proof.
  intros Hhd Hk. destruct files as [|[im|] fs]; cbn [List.length] in Hk.
  - lia.
  - unfold last_opened. cbn [firstn fold_left]. apply fold_opened_some.
  - destruct Hhd. reflexivity.
Qed.

Lemma fold_opened_inv (P : poster -> Prop)
    (files : list (option poster)) (prev : option poster)
    (im : poster) :
  Forall (fun f => forall x, f = Some x -> P x) files ->
  (forall x, prev = Some x -> P x) ->
  fold_left (fun prev f => match f with Some x => Some x | None => prev end)
    files prev = Some im ->
  P im.
Proof.
  intros Hall. revert prev.
  induction Hall as [|f fs Hf _ IH]; intros prev Hprev; cbn [fold_left].
  - intros H. apply Hprev. exact H.
  - apply IH. destruct f as [x|]; [|exact Hprev].
    intros y E. injection E as <-. apply Hf. reflexivity.
Qed.

Lemma Forall_firstn_of {A : Type} (P : A -> Prop) (l : list A) (k : nat) :
  Forall P l -> Forall P (firstn k l).
Proof.
  intros H. rewrite <- (firstn_skipn k l) in H.
  apply Forall_app in H. apply H.
Qed.

Lemma last_opened_sized (P : poster -> Prop)
    (files : list (option poster)) (k : nat) (im : poster) :
  Forall (fun f => forall x, f = Some x -> P x) files ->
  last_opened (firstn k files) = Some im -> P im.
Proof.
  intros Hall. apply fold_opened_inv.
  - apply Forall_firstn_of. exact Hall.
  - discriminate.
Qed.

Lemma pastes_S (a : args) (files : list (option poster)) (k : nat)
    (im : poster) :
  last_opened (firstn (S k) files) = Some im ->
  pastes a files (S k)
  = (pastes a files k
     ++ [(poster_image im,
          bbox a (Z.of_nat k / fst (griddim a))
            (Z.of_nat k mod fst (griddim a)))])%list.
Proof.
  intros H. unfold pastes. rewrite seq_S, flat_map_app.
  cbn [flat_map Nat.add]. rewrite H, app_nil_r. reflexivity.
Qed.

(** One cell of the loop, from the state after [k] cells. *)
Lemma cell_step (a : args) (files : list (option poster)) (k : nat) :
  hd_error files <> Some None ->
  Forall (fits a) files ->
  cell a files (Z.of_nat k / fst (griddim a))
    (Z.of_nat k mod fst (griddim a)) (state_after a files k)
  = Completed (state_after a files (S k)).
Proof.
  intros Hhd Hsized. unfold cell, state_after.
  cbn [iiIm locIm imGrid]. rewrite Nat2Z.id.
  destruct (Z.ltb_spec (Z.of_nat k) (Z.of_nat (List.length files)))
    as [Hlt|Hge].
  - assert (Hk : (k < List.length files)%nat) by lia.
    rewrite (Nat.min_l k) by lia. rewrite (Nat.min_l (S k)) by lia.
    destruct (nth_error files k) as [f|] eqn:Hnth;
      [|apply nth_error_None in Hnth; lia].
    destruct (last_opened_bound files k Hhd Hk) as [im Him].
    pose proof Him as Him'.
    rewrite (firstn_S_snoc _ _ _ Hnth), last_opened_snoc in Him'.
    assert (Hloc : match f with
                   | Some im0 => Some im0
                   | None => last_opened (firstn k files)
                   end = Some im) by exact Him'.
    rewrite Hloc.
    destruct (last_opened_sized _ files (S k) im Hsized Him)
      as [Hloads Hsize].
    unfold paste. rewrite bbox_spec, Hloads, Hsize.
    cbn [negb pasted canvas_size canvas_color].
    replace (fst (imdim a) =? _) with true by (symmetry; lia).
    replace (snd (imdim a) =? _) with true by (symmetry; lia).
    cbn [andb iiIm locIm imGrid].
    rewrite (pastes_S a files k im Him), Him, bbox_spec.
    f_equal. f_equal. lia.
  - rewrite (Nat.min_r k) by lia. rewrite (Nat.min_r (S k)) by lia.
    cbn [iiIm locIm imGrid]. f_equal. f_equal. lia.
Qed.

(** The inner loop over the columns of row [r]. *)
Lemma row_steps (a : args) (files : list (option poster))
    (gw r c : nat) :
  fst (griddim a) = Z.of_nat gw -> (c <= gw)%nat ->
  hd_error files <> Some None ->
  Forall (fits a) files ->
  for_in (range (Z.of_nat c))
    (fun iCol => cell a files (Z.of_nat r) iCol)
    (state_after a files (r * gw))
  = Completed (state_after a files (r * gw + c)).
Proof.
  intros Hgw Hc Hhd Hsized. induction c as [|c IH].
  - rewrite Nat.add_0_r. reflexivity.
  - rewrite range_S.
    rewrite (for_in_snoc _ _ _ _ _ (IH ltac:(lia))).
    cbn [for_in].
    pose proof (cell_step a files (r * gw + c) Hhd Hsized) as Hstep.
    rewrite Hgw in Hstep.
    replace (Z.of_nat (r * gw + c) / Z.of_nat gw) with (Z.of_nat r)
      in Hstep by (apply Z.div_unique with (Z.of_nat c); lia).
    replace (Z.of_nat (r * gw + c) mod Z.of_nat gw) with (Z.of_nat c)
      in Hstep by (apply Z.mod_unique with (Z.of_nat r); lia).
    rewrite Hstep. f_equal. f_equal. lia.
Qed.

(** The outer loop over the rows. *)
Lemma grid_steps (a : args) (files : list (option poster))
    (gw r : nat) :
  fst (griddim a) = Z.of_nat gw ->
  hd_error files <> Some None ->
  Forall (fits a) files ->
  for_in (range (Z.of_nat r))
    (fun iRow =>
       for_in (range (Z.of_nat gw)) (fun iCol => cell a files iRow iCol))
    (state_after a files 0)
  = Completed (state_after a files (r * gw)).
Proof.
  intros Hgw Hhd Hsized. induction r as [|r IH].
  - reflexivity.
  - rewrite range_S. rewrite (for_in_snoc _ _ _ _ _ IH). cbn [for_in].
    rewrite (row_steps a files gw r gw Hgw (Nat.le_refl gw) Hhd Hsized).
    f_equal. f_equal. lia.
Qed.

(** The run of the loop on posters of the right size, the first of
    which opens. *)
Lemma run_completes (a : args) (files : list (option poster)) :
  1 <= fst (griddim a) -> 1 <= snd (griddim a) ->
  0 <= fst (imdim a) -> 0 <= snd (imdim a) ->
  hd_error files <> Some None ->
  Forall (fits a) files ->
  run a files
  = Completed
      (state_after a files
         (Z.to_nat (snd (griddim a)) * Z.to_nat (fst (griddim a)))).
Proof.
  intros Hgw Hgh Hiw Hih Hhd Hsized. unfold run.
  destruct (canvas_spec a) as [Ew Eh].
  destruct (griddim a) as [gw gh] eqn:Eg. cbn [fst snd] in *.
  unfold Image_new. cbn [fst snd].
  unfold padding in Ew, Eh.
  destruct (Z.ltb_spec (imGridWidth a) 0) as [Hneg|_]; [nia|].
  destruct (Z.ltb_spec (imGridHeight a) 0) as [Hneg|_]; [nia|].
  cbn [orb].
  pose proof (grid_steps a files (Z.to_nat gw) (Z.to_nat gh)) as H.
  rewrite Eg in H. cbn [fst] in H.
  rewrite !Z2Nat.id in H by lia.
  apply H; [reflexivity|exact Hhd|exact Hsized].
Qed.

Lemma pastes_length (a : args) (files : list (option poster))
    (j : nat) :
  hd_error files <> Some None -> (j <= List.length files)%nat ->
  List.length (pastes a files j) = j.
Proof.
  intros Hhd. induction j as [|j IH]; intros Hj; [reflexivity|].
  destruct (last_opened_bound files j Hhd ltac:(lia)) as [im Him].
  rewrite (pastes_S a files j im Him), length_app, IH by lia.
  cbn [List.length]. lia.
Qed.

Lemma pastes_nth (a : args) (files : list (option poster))
    (j i : nat) :
  hd_error files <> Some None -> (j <= List.length files)%nat ->
  (i < j)%nat ->
  exists im,
    last_opened (firstn (S i) files) = Some im /\
    nth_error (pastes a files j) i
    = Some (poster_image im,
            bbox a (Z.of_nat i / fst (griddim a))
              (Z.of_nat i mod fst (griddim a))).
Proof.
  intros Hhd. induction j as [|j IH]; intros Hj Hi; [lia|].
  destruct (last_opened_bound files j Hhd ltac:(lia)) as [im Him].
  rewrite (pastes_S a files j im Him).
  destruct (Nat.eq_dec i j) as [->|Hne].
  - exists im. split; [exact Him|].
    rewrite nth_error_app2 by (rewrite pastes_length; [lia|exact Hhd|lia]).
    rewrite pastes_length by (try exact Hhd; lia).
    rewrite Nat.sub_diag. reflexivity.
  - destruct (IH ltac:(lia) ltac:(lia)) as (im' & Him' & Hnth).
    exists im'. split; [exact Him'|].
    rewrite nth_error_app1 by (rewrite pastes_length; [lia|exact Hhd|lia]).
    exact Hnth.
Qed.

Lemma three_files_fit : Forall (fits small_grid) three_files.
Proof.
  unfold three_files.
  repeat (apply Forall_cons;
          [intros p E; try discriminate; injection E as <-;
           split; reflexivity|]).
  apply Forall_nil.
Qed.



(** A file that does not open is not skipped: when the first file
    opens and every file that opens has data that decodes and the size
    [imdim], its cell gets the bitmap of the cell before it, because
    [locIm] still holds the poster of the last file that opened. *)
Theorem montage_corrupt_repeats_previous (a : args)
    (files : list (option poster)) (k : nat) :
  1 <= fst (griddim a) -> 1 <= snd (griddim a) ->
  0 <= fst (imdim a) -> 0 <= snd (imdim a) ->
  hd_error files <> Some None ->
  Forall (fits a) files ->
  nth_error files (S k) = Some None ->
  Z.of_nat (S k) < fst (griddim a) * snd (griddim a) ->
  exists s im box box',
    run a files = Completed s /\
    nth_error (pasted (imGrid s)) k = Some (im, box) /\
    nth_error (pasted (imGrid s)) (S k) = Some (im, box').
Proof.
  intros Hgw Hgh Hiw Hih Hhd Hsized Hfile Hcell.
  rewrite (run_completes a files Hgw Hgh Hiw Hih Hhd Hsized).
  unfold state_after. cbn [imGrid pasted].
  set (j := Nat.min _ _).
  assert (Hlen : (S k < List.length files)%nat).
  { apply nth_error_Some. rewrite Hfile. discriminate. }
  assert (Hj : (j <= List.length files)%nat) by (subst j; lia).
  assert (Hk : (S k < j)%nat) by (subst j; nia).
  destruct (pastes_nth a files j k Hhd Hj ltac:(lia))
    as (im & Him & Hnth).
  destruct (pastes_nth a files j (S k) Hhd Hj Hk)
    as (im' & Him' & Hnth').
  rewrite (firstn_S_snoc _ _ _ Hfile), last_opened_snoc, Him in Him'.
  injection Him' as <-.
  eexists. exists (poster_image im). do 2 eexists.
  split; [reflexivity|]. cbn [imGrid pasted].
  split; [exact Hnth|exact Hnth'].
Qed.

Lemma montage_corrupt_repeats_previous_witness :
  exists s im box box',
    run small_grid three_files = Completed s /\
    nth_error (pasted (imGrid s)) 0 = Some (im, box) /\
    nth_error (pasted (imGrid s)) 1 = Some (im, box').
Proof.
  apply (montage_corrupt_repeats_previous small_grid three_files 0);
    try (simpl; lia);
    [discriminate|exact three_files_fit|reflexivity].
Defined.











End Montage.
